(** * Message store of the chat backend: model and properties

    The development follows the layout of the repository:
    - [JS]                 the fragments of the JavaScript runtime the code relies on
                           (UTF-16 strings, [String.prototype.trim], [RegExp]);
    - [Helpers]            utils/helpers.js;
    - [MessageModel]       the Message schema, its statics and its pre-save hook;
    - [MessageController]  controllers/messageController.js;
    - [Server]             the events that reach the message store (requests,
                           socket events of socket/socketHandler.js, timers);
    - [Spec], [Scenario]   notions of the specification and concrete states;
    - the properties, grouped by operation.

    A collection is a list of documents in insertion order; dates are
    milliseconds since the epoch; the clock is an explicit argument [now] of
    every operation that reads it. *)

From Stdlib Require Import ZArith List Bool Lia String Ascii Permutation.
Import ListNotations.
Open Scope Z_scope.

(* ================================================================== *)
(** ** JavaScript strings *)
(* ================================================================== *)

Module JS.

(** A JavaScript string is a sequence of UTF-16 code units; [length] counts
    code units, so an astral character such as U+1F600 has length 2. *)
Definition jsString := list Z.

(** ASCII literals, for readable examples. *)
Definition lit (s : string) : jsString :=
  map (fun a => Z.of_N (N_of_ascii a)) (list_ascii_of_string s).

Definition jsLength (s : jsString) : Z := Z.of_nat (List.length s).

Definition inRange (lo hi c : Z) : bool := (lo <=? c) && (c <=? hi).

(** WhiteSpace and LineTerminator code units, the set stripped by
    [String.prototype.trim]. *)
Definition isTrimmable (c : Z) : bool :=
  inRange 9 13 c || (c =? 32) || (c =? 160) || (c =? 5760)
  || inRange 8192 8202 c || (c =? 8232) || (c =? 8233) || (c =? 8239)
  || (c =? 8287) || (c =? 12288) || (c =? 65279).

Fixpoint dropWhile {A} (p : A -> bool) (l : list A) : list A :=
  match l with
  | [] => []
  | x :: l' => if p x then dropWhile p l' else l
  end.

Definition trimStart (s : jsString) : jsString := dropWhile isTrimmable s.
Definition trimEnd (s : jsString) : jsString := rev (dropWhile isTrimmable (rev s)).
Definition trim (s : jsString) : jsString := trimEnd (trimStart s).

(** Code points of a string as a /u regular expression sees them: a high
    surrogate followed by a low surrogate is one code point, any other code
    unit (a lone surrogate included) stands for itself. *)
Definition isHighSurrogate (c : Z) : bool := inRange 55296 56319 c.
Definition isLowSurrogate (c : Z) : bool := inRange 56320 57343 c.
Definition combine (hi lo : Z) : Z := 65536 + (hi - 55296) * 1024 + (lo - 56320).

Fixpoint codePoints (s : jsString) : list Z :=
  match s with
  | [] => []
  | hi :: rest =>
      match rest with
      | lo :: rest' =>
          if isHighSurrogate hi && isLowSurrogate lo
          then combine hi lo :: codePoints rest'
          else hi :: codePoints rest
      | [] => [hi]
      end
  end.

(** *** The fragment of [RegExp] used by the search endpoints

    [new RegExp(source, 'i')] is modelled for sources built from ordinary
    characters, the wildcard [.] and identity escapes of syntax characters
    ([\.] [\(] ...).  Sources that use any other syntax character (quantifiers,
    groups, classes, anchors, alternation) or any other escape are outside
    the fragment: [RegExp_new] answers [None] for them and nothing is claimed
    about such searches. *)
Inductive Atom :=
| Lit (c : Z)
| AnyChar.

(** The characters escaped by [escapeRegex]: . * + ? ^ $ { } ( ) | [ ] \ *)
Definition isSyntaxChar (c : Z) : bool :=
  (c =? 46) || (c =? 42) || (c =? 43) || (c =? 63) || (c =? 94) || (c =? 36)
  || (c =? 123) || (c =? 125) || (c =? 40) || (c =? 41) || (c =? 124)
  || (c =? 91) || (c =? 93) || (c =? 92).

Fixpoint RegExp_new (source : jsString) : option (list Atom) :=
  match source with
  | [] => Some []
  | c :: rest =>
      if c =? 92 then
        match rest with
        | e :: rest' =>
            if isSyntaxChar e
            then option_map (cons (Lit e)) (RegExp_new rest')
            else None
        | [] => None
        end
      else if c =? 46 then option_map (cons AnyChar) (RegExp_new rest)
      else if isSyntaxChar c then None
      else option_map (cons (Lit c)) (RegExp_new rest)
  end.

(** Case folding of the [i] flag, on the ASCII letters.  The engines fold
    letters outside ASCII as well; the fragment is meant for ASCII text and
    leaves every other code unit as it is. *)
Definition canonicalize (c : Z) : Z := if inRange 97 122 c then c - 32 else c.

(** The pattern is evaluated by the database; there the wildcard matches
    every character but the line feed. *)
Definition atomMatches (a : Atom) (c : Z) : bool :=
  match a with
  | Lit l => canonicalize l =? canonicalize c
  | AnyChar => negb (c =? 10)
  end.

Fixpoint matchHere (p : list Atom) (s : jsString) : bool :=
  match p, s with
  | [], _ => true
  | _ :: _, [] => false
  | a :: p', c :: s' => atomMatches a c && matchHere p' s'
  end.

(** An unanchored pattern matches when it matches at some position. *)
Fixpoint RegExp_test (p : list Atom) (s : jsString) : bool :=
  matchHere p s ||
  match s with
  | [] => false
  | _ :: s' => RegExp_test p s'
  end.

(** Case-insensitive literal containment, the reading of "substring match"
    that a search for plain text has. *)
Fixpoint startsWithCI (q s : jsString) : bool :=
  match q, s with
  | [], _ => true
  | _ :: _, [] => false
  | a :: q', c :: s' => (canonicalize a =? canonicalize c) && startsWithCI q' s'
  end.

Fixpoint includesCI (q s : jsString) : bool :=
  startsWithCI q s ||
  match s with
  | [] => false
  | _ :: s' => includesCI q s'
  end.

(** *** [RegExp] in general

    Whatever the syntax of its source, [new RegExp(source, 'i')] either
    throws or gives a pattern, and the pattern, evaluated by the database on
    a content, matches it or does not.  What the search does around the
    pattern is stated for every engine of this kind. *)
Inductive Compiled :=
| Raises (error : string)
| Tests (test : jsString -> bool).

(** *** Numbers

    The numbers of the pagination are modelled as integers.  A double holds
    every integer up to [MAX_SAFE_INTEGER] in absolute value, and a sum, a
    difference or a product of such integers is computed exactly when it is
    again in that range; beyond it the arithmetic of the code rounds, and
    the properties of the pagination are stated within the range. *)
Definition MAX_SAFE_INTEGER : Z := 9007199254740991.

(** The value of a quotient of integers rounded up to an integer: a division
    by 0 gives an infinity, or [NaN] for 0 / 0. *)
Inductive Number :=
| Finite (n : Z)
| PosInfinity
| NegInfinity
| NaN.

(** [x < y] for an integer [x]; a comparison with [NaN] is false. *)
Definition ltNumber (x : Z) (y : Number) : bool :=
  match y with
  | Finite n => x <? n
  | PosInfinity => true
  | NegInfinity => false
  | NaN => false
  end.

(** The order of [<] on strings, by code units; it is the order of the
    default [Array.prototype.sort]. *)
Fixpoint ltString (a b : jsString) : bool :=
  match a, b with
  | _, [] => false
  | [], _ :: _ => true
  | x :: a', y :: b' => (x <? y) || ((x =? y) && ltString a' b')
  end.

Fixpoint eqString (a b : jsString) : bool :=
  match a, b with
  | [], [] => true
  | x :: a', y :: b' => (x =? y) && eqString a' b'
  | _, _ => false
  end.

(** [[a, b].sort()]: the two strings in ascending order. *)
Definition sortPair (a b : jsString) : jsString * jsString :=
  if ltString b a then (b, a) else (a, b).

End JS.

(* ================================================================== *)
(** ** utils/helpers.js *)
(* ================================================================== *)

Module Helpers.
Import JS.

(** [paginate(page, limit)]: the number of documents to skip and the limit.
    For integers [page] and [limit] whose product [(page - 1) * limit] is
    within [MAX_SAFE_INTEGER] the double arithmetic of the code is the
    integer arithmetic, and [parseInt(limit)] is [limit]. *)
Definition paginate (page limit : Z) : Z * Z := ((page - 1) * limit, limit).

(** [escapeRegex]: every syntax character is prefixed with a backslash. *)
Fixpoint escapeRegex (s : jsString) : jsString :=
  match s with
  | [] => []
  | c :: s' => if isSyntaxChar c then 92 :: c :: escapeRegex s' else c :: escapeRegex s'
  end.

(** The six ranges of [emojiRegex]. *)
Definition isEmojiCodePoint (c : Z) : bool :=
  inRange 128512 128591 c      (* 1F600-1F64F *)
  || inRange 127744 128511 c   (* 1F300-1F5FF *)
  || inRange 128640 128767 c   (* 1F680-1F6FF *)
  || inRange 127456 127487 c   (* 1F1E0-1F1FF *)
  || inRange 9728 9983 c       (* 2600-26FF *)
  || inRange 9984 10175 c.     (* 2700-27BF *)

(** [containsEmoji(text)]: [emojiRegex.test(text)]; the regex is one
    character class, unanchored, with the /u flag, so it succeeds when some
    code point of the text lies in one of the ranges. *)
Definition containsEmoji (text : jsString) : bool :=
  existsb isEmojiCodePoint (codePoints text).

(** [getPaginationMeta(page, limit, total)], for integers within
    [MAX_SAFE_INTEGER].  There [Math.ceil(total / limit)] is the ceiling of
    the exact quotient (the rounding of the division is smaller than the
    distance 1 / |limit| of a quotient that is not an integer to the next
    integer), [page + 1] and [page - 1] are exact and [parseInt(page)] is
    [page].  With a limit of 0 the quotient is an infinity or [NaN]. *)
Record Pagination := {
  currentPage : Z;
  totalPages : Number;
  totalResults : Z;
  hasNextPage : bool;
  hasPrevPage : bool;
  nextPage : option Z;
  prevPage : option Z
}.

(** [Math.ceil(total / limit)] *)
Definition ceilDiv (total limit : Z) : Number :=
  if limit =? 0 then
    if 0 <? total then PosInfinity
    else if total <? 0 then NegInfinity
    else NaN
  else Finite (- ((- total) / limit)).

Definition getPaginationMeta (page limit total : Z) : Pagination :=
  let totalPages := ceilDiv total limit in
  let hasNextPage := ltNumber page totalPages in
  let hasPrevPage := 1 <? page in
  {| currentPage := page;
     totalPages := totalPages;
     totalResults := total;
     hasNextPage := hasNextPage;
     hasPrevPage := hasPrevPage;
     nextPage := if hasNextPage then Some (page + 1) else None;
     prevPage := if hasPrevPage then Some (page - 1) else None |}.

(** [formatDate(date)]: the label shown for a date, read at time [now]. *)
Inductive DateLabel :=
| JustNow                       (* 'now' *)
| MinutesAgo (minutes : Z)      (* `${minutes}m ago` *)
| HoursAgo (hours : Z)          (* `${hours}h ago` *)
| DaysAgo (days : Z)            (* `${days}d ago` *)
| LocaleDate (messageDate : Z). (* messageDate.toLocaleDateString() *)

Definition formatDate (now date : Z) : DateLabel :=
  let diff := now - date in
  if diff <? 60000 then JustNow
  else if diff <? 3600000 then MinutesAgo (diff / 60000)
  else if diff <? 86400000 then HoursAgo (diff / 3600000)
  else if diff <? 604800000 then DaysAgo (diff / 86400000)
  else LocaleDate date.

(** [generateConversationId(userId1, userId2)]:
    [[userId1, userId2].sort().join('-')]. *)
Definition generateConversationId (userId1 userId2 : jsString) : jsString :=
  let (first, second) := sortPair userId1 userId2 in
  first ++ 45 :: second.

End Helpers.

(* ================================================================== *)
(** ** The Message model (schema, statics, pre-save hook) *)
(* ================================================================== *)

Module MessageModel.
Import JS.

Definition UserId := nat.
Definition MessageId := nat.

Inductive MessageType := text | emoji.
Inductive Status := sent | delivered | read.

Definition Status_eqb (a b : Status) : bool :=
  match a, b with
  | sent, sent | delivered, delivered | read, read => true
  | _, _ => false
  end.

(** The part of a user document the message code reads. *)
Record User := {
  user_id : UserId;
  name : string;
  avatar : string;
  isOnline : bool;
  lastSeen : Z
}.

(** A message document.  [createdAt] and [updatedAt] come from the schema
    option [timestamps: true]. *)
Record Message := {
  _id : MessageId;
  sender : UserId;
  receiver : UserId;
  content : jsString;
  messageType : MessageType;
  status : Status;
  deliveredAt : option Z;
  readAt : option Z;
  editedAt : option Z;
  isDeleted : bool;
  deletedAt : option Z;
  replyTo : option MessageId;
  createdAt : Z;
  updatedAt : Z
}.

Definition Message_eq_dec (a b : Message) : {a = b} + {a <> b}.
Proof. repeat decide equality. Defined.

(** Field assignments. *)
Definition set_content (v : jsString) (m : Message) : Message :=
  {| _id := _id m; sender := sender m; receiver := receiver m; content := v;
     messageType := messageType m; status := status m;
     deliveredAt := deliveredAt m; readAt := readAt m; editedAt := editedAt m;
     isDeleted := isDeleted m; deletedAt := deletedAt m; replyTo := replyTo m;
     createdAt := createdAt m; updatedAt := updatedAt m |}.

Definition set_messageType (v : MessageType) (m : Message) : Message :=
  {| _id := _id m; sender := sender m; receiver := receiver m; content := content m;
     messageType := v; status := status m;
     deliveredAt := deliveredAt m; readAt := readAt m; editedAt := editedAt m;
     isDeleted := isDeleted m; deletedAt := deletedAt m; replyTo := replyTo m;
     createdAt := createdAt m; updatedAt := updatedAt m |}.

Definition set_status (v : Status) (m : Message) : Message :=
  {| _id := _id m; sender := sender m; receiver := receiver m; content := content m;
     messageType := messageType m; status := v;
     deliveredAt := deliveredAt m; readAt := readAt m; editedAt := editedAt m;
     isDeleted := isDeleted m; deletedAt := deletedAt m; replyTo := replyTo m;
     createdAt := createdAt m; updatedAt := updatedAt m |}.

Definition set_deliveredAt (v : option Z) (m : Message) : Message :=
  {| _id := _id m; sender := sender m; receiver := receiver m; content := content m;
     messageType := messageType m; status := status m;
     deliveredAt := v; readAt := readAt m; editedAt := editedAt m;
     isDeleted := isDeleted m; deletedAt := deletedAt m; replyTo := replyTo m;
     createdAt := createdAt m; updatedAt := updatedAt m |}.

Definition set_readAt (v : option Z) (m : Message) : Message :=
  {| _id := _id m; sender := sender m; receiver := receiver m; content := content m;
     messageType := messageType m; status := status m;
     deliveredAt := deliveredAt m; readAt := v; editedAt := editedAt m;
     isDeleted := isDeleted m; deletedAt := deletedAt m; replyTo := replyTo m;
     createdAt := createdAt m; updatedAt := updatedAt m |}.

Definition set_editedAt (v : option Z) (m : Message) : Message :=
  {| _id := _id m; sender := sender m; receiver := receiver m; content := content m;
     messageType := messageType m; status := status m;
     deliveredAt := deliveredAt m; readAt := readAt m; editedAt := v;
     isDeleted := isDeleted m; deletedAt := deletedAt m; replyTo := replyTo m;
     createdAt := createdAt m; updatedAt := updatedAt m |}.

Definition set_isDeleted (v : bool) (m : Message) : Message :=
  {| _id := _id m; sender := sender m; receiver := receiver m; content := content m;
     messageType := messageType m; status := status m;
     deliveredAt := deliveredAt m; readAt := readAt m; editedAt := editedAt m;
     isDeleted := v; deletedAt := deletedAt m; replyTo := replyTo m;
     createdAt := createdAt m; updatedAt := updatedAt m |}.

Definition set_deletedAt (v : option Z) (m : Message) : Message :=
  {| _id := _id m; sender := sender m; receiver := receiver m; content := content m;
     messageType := messageType m; status := status m;
     deliveredAt := deliveredAt m; readAt := readAt m; editedAt := editedAt m;
     isDeleted := isDeleted m; deletedAt := v; replyTo := replyTo m;
     createdAt := createdAt m; updatedAt := updatedAt m |}.

Definition set_updatedAt (v : Z) (m : Message) : Message :=
  {| _id := _id m; sender := sender m; receiver := receiver m; content := content m;
     messageType := messageType m; status := status m;
     deliveredAt := deliveredAt m; readAt := readAt m; editedAt := editedAt m;
     isDeleted := isDeleted m; deletedAt := deletedAt m; replyTo := replyTo m;
     createdAt := createdAt m; updatedAt := v |}.

(** A callback registered with [setTimeout]: the time it becomes due and the
    in-memory document its closure holds ([this] of the pre-save hook).  The
    closure's document is a copy made at creation; writes that reach the
    collection through [updateMany] do not show in it. *)
Record Timer := {
  dueAt : Z;
  doc : Message
}.

(** The state the message code works on: the messages collection, the users
    collection (owned by the user directory, only read here) and the pending
    timers of the process. *)
Record State := {
  messages : list Message;
  users : list User;
  timers : list Timer
}.

Definition with_messages (ms : list Message) (st : State) : State :=
  {| messages := ms; users := users st; timers := timers st |}.

(** *** Collection primitives *)

Definition findById (ms : list Message) (i : MessageId) : option Message :=
  List.find (fun m => Nat.eqb (_id m) i) ms.

Definition User_findById (us : list User) (i : UserId) : option User :=
  List.find (fun u => Nat.eqb (user_id u) i) us.

Definition countDocuments (q : Message -> bool) (ms : list Message) : nat :=
  List.length (filter q ms).

(** [updateMany(filter, {$set: ...})]: every matching document takes the
    update, and [updatedAt] with it; the result carries [modifiedCount]. *)
Definition updateMany (q : Message -> bool) (upd : Message -> Message) (now : Z)
    (ms : list Message) : list Message :=
  map (fun m => if q m then set_updatedAt now (upd m) else m) ms.

(** [.sort({ key: -1 })], as a stable insertion sort. *)
Fixpoint insertDesc {A} (key : A -> Z) (x : A) (l : list A) : list A :=
  match l with
  | [] => [x]
  | y :: l' => if key y <=? key x then x :: l else y :: insertDesc key x l'
  end.

Definition sortDesc {A} (key : A -> Z) (l : list A) : list A :=
  fold_right (insertDesc key) [] l.

(** Newest first: each element's key is at least the next one's. *)
Inductive descending {A} (key : A -> Z) : list A -> Prop :=
| desc_nil : descending key []
| desc_one x : descending key [x]
| desc_cons x y l :
    key y <= key x -> descending key (y :: l) -> descending key (x :: y :: l).

(** [.skip(skip).limit(limit)]: the database rejects a negative skip; a
    limit of 0 means no limit and a negative limit is taken by its absolute
    value. *)
Definition skipLimit {A} (skip limit : Z) (l : list A) : option (list A) :=
  if skip <? 0 then None
  else
    let rest := skipn (Z.to_nat skip) l in
    Some (if limit =? 0 then rest else firstn (Z.to_nat (Z.abs limit)) rest).

(** *** Statics *)

(** The [$or] of [getConversation], of the total count and of the search. *)
Definition betweenUsers (u1 u2 : UserId) (m : Message) : bool :=
  (Nat.eqb (sender m) u1 && Nat.eqb (receiver m) u2)
  || (Nat.eqb (sender m) u2 && Nat.eqb (receiver m) u1).

Definition conversationQuery (u1 u2 : UserId) (m : Message) : bool :=
  betweenUsers u1 u2 m && negb (isDeleted m).

(** [.populate('replyTo', 'content sender')]: in a document the query
    returns, the reference is replaced by the selected fields of the message
    it names.  The message is looked up by its identifier alone, whether it
    is deleted or not; the path is [null] when the document has no reference
    or the reference names no stored message. *)
Record Reply := {
  reply_id : MessageId;
  reply_content : jsString;
  reply_sender : UserId
}.

Record Populated := {
  document : Message;
  populated_replyTo : option Reply
}.

Definition populateReplyTo (ms : list Message) (m : Message) : Populated :=
  {| document := m;
     populated_replyTo :=
       match replyTo m with
       | None => None
       | Some i =>
           option_map (fun r => {| reply_id := _id r;
                                   reply_content := content r;
                                   reply_sender := sender r |})
                      (findById ms i)
       end |}.

(** [getConversation]: the documents found, sorted and paged, each with its
    [replyTo] populated.  (The populated [sender] and [receiver] carry the
    name and the avatar of the two users, which no message operation reads.) *)
Definition getConversation (ms : list Message) (userId1 userId2 : UserId)
    (page limit : Z) : option (list Populated) :=
  let skip := (page - 1) * limit in
  option_map (map (populateReplyTo ms))
    (skipLimit skip limit
       (sortDesc createdAt (filter (conversationQuery userId1 userId2) ms))).

(** [getLatestConversations]: the aggregation pipeline, stage by stage. *)
Record Group := {
  group_id : UserId;
  group_lastMessage : Message;
  group_unreadCount : nat
}.

Record ConversationSummary := {
  participant : User;
  lastMessage : Message;
  unreadCount : nat
}.

Definition involves (userId : UserId) (m : Message) : bool :=
  (Nat.eqb (sender m) userId || Nat.eqb (receiver m) userId) && negb (isDeleted m).

Definition otherParticipant (userId : UserId) (m : Message) : UserId :=
  if Nat.eqb (sender m) userId then receiver m else sender m.

Definition unreadFor (userId : UserId) (m : Message) : nat :=
  if Nat.eqb (receiver m) userId && negb (Status_eqb (status m) read) then 1%nat else 0%nat.

(** [$group]: [$first] keeps the document that opened the group, [$sum] adds up. *)
Fixpoint addToGroups (userId : UserId) (m : Message) (gs : list Group) : list Group :=
  match gs with
  | [] => [ {| group_id := otherParticipant userId m;
               group_lastMessage := m;
               group_unreadCount := unreadFor userId m |} ]
  | g :: gs' =>
      if Nat.eqb (group_id g) (otherParticipant userId m)
      then {| group_id := group_id g;
              group_lastMessage := group_lastMessage g;
              group_unreadCount := (group_unreadCount g + unreadFor userId m)%nat |} :: gs'
      else g :: addToGroups userId m gs'
  end.

Definition groupByParticipant (userId : UserId) (ms : list Message) : list Group :=
  fold_left (fun gs m => addToGroups userId m gs) ms [].

(** [$lookup] into users followed by [$unwind]: one row per matching user,
    none when the participant is not in the directory. *)
Definition lookupParticipant (us : list User) (g : Group) : list ConversationSummary :=
  map (fun u => {| participant := u;
                   lastMessage := group_lastMessage g;
                   unreadCount := group_unreadCount g |})
      (filter (fun u => Nat.eqb (user_id u) (group_id g)) us).

(** [$limit] takes a positive number only. *)
Definition getLatestConversations (st : State) (userId : UserId) (limit : Z)
    : option (list ConversationSummary) :=
  let matched := filter (involves userId) (messages st) in
  let sorted := sortDesc createdAt matched in
  let groups := groupByParticipant userId sorted in
  let rows := flat_map (lookupParticipant (users st)) groups in
  let ordered := sortDesc (fun c => createdAt (lastMessage c)) rows in
  if 0 <? limit then Some (firstn (Z.to_nat limit) ordered) else None.

Definition markAsDeliveredQuery (senderId receiverId : UserId) (m : Message) : bool :=
  Nat.eqb (sender m) senderId && Nat.eqb (receiver m) receiverId
  && Status_eqb (status m) sent.

Definition markAsDelivered (st : State) (now : Z) (senderId receiverId : UserId) : State :=
  with_messages
    (updateMany (markAsDeliveredQuery senderId receiverId)
                (fun m => set_deliveredAt (Some now) (set_status delivered m))
                now (messages st)) st.

Definition markAsReadQuery (senderId receiverId : UserId) (m : Message) : bool :=
  Nat.eqb (sender m) senderId && Nat.eqb (receiver m) receiverId
  && (Status_eqb (status m) sent || Status_eqb (status m) delivered).

Definition markAsRead (st : State) (now : Z) (senderId receiverId : UserId) : State :=
  with_messages
    (updateMany (markAsReadQuery senderId receiverId)
                (fun m => set_readAt (Some now) (set_status read m))
                now (messages st)) st.

Definition unreadQuery (userId : UserId) (m : Message) : bool :=
  Nat.eqb (receiver m) userId && negb (Status_eqb (status m) read) && negb (isDeleted m).

Definition getUnreadCount (ms : list Message) (userId : UserId) : nat :=
  countDocuments (unreadQuery userId) ms.

(** *** Creation, validation and the pre-save hook *)

(** The object handed to [Message.create] / [new Message]. *)
Record NewMessage := {
  new_sender : UserId;
  new_receiver : UserId;
  new_content : jsString;
  new_messageType : option MessageType;
  new_status : option Status;
  new_replyTo : option MessageId
}.

(** Schema validators of [content]: [required] (a non-empty string) and
    [maxlength: 1000]; they see the value after the [trim] setter. *)
Definition validContent (c : jsString) : bool :=
  match c with
  | [] => false
  | _ :: _ => jsLength c <=? 1000
  end.

(** An identifier no stored document has. *)
Definition freshId (ms : list Message) : MessageId :=
  S (fold_right Nat.max 0%nat (map _id ms)).

(** [messageSchema.pre('save')]: for a new document whose status is [sent] a
    timer is set, due one second later; its closure keeps the document. *)
Definition preSave (now : Z) (isNew : bool) (d : Message) (ts : list Timer) : list Timer :=
  if isNew && Status_eqb (status d) sent
  then ts ++ [ {| dueAt := now + 1000; doc := d |} ]
  else ts.

(** [Message.create(obj)]: defaults and setters are applied, the validators
    run, the hook runs, the document is inserted.  [None] stands for the
    ValidationError the call throws; nothing is stored then. *)
Definition create (st : State) (now : Z) (d : NewMessage) : State * option Message :=
  let c := trim (new_content d) in
  if validContent c then
    let m := {| _id := freshId (messages st);
                sender := new_sender d;
                receiver := new_receiver d;
                content := c;
                messageType := match new_messageType d with Some t => t | None => text end;
                status := match new_status d with Some s => s | None => sent end;
                deliveredAt := None;
                readAt := None;
                editedAt := None;
                isDeleted := false;
                deletedAt := None;
                replyTo := new_replyTo d;
                createdAt := now;
                updatedAt := now |} in
    ({| messages := messages st ++ [m];
        users := users st;
        timers := preSave now true m (timers st) |}, Some m)
  else (st, None).

(** The stored document with identifier [i] takes [f]. *)
Fixpoint updateOne (i : MessageId) (f : Message -> Message) (ms : list Message)
    : list Message :=
  match ms with
  | [] => []
  | m :: ms' => if Nat.eqb (_id m) i then f m :: ms' else m :: updateOne i f ms'
  end.

(** [doc.save()] on a document loaded by [findById] and then assigned to by
    [upd]: validation runs ([None] when it fails); the changed paths are
    written with a new [updatedAt]; a document without changes is not
    written. *)
Definition save (upd : Message -> Message) (now : Z) (i : MessageId)
    (ms : list Message) : option (list Message) :=
  match findById ms i with
  | None => Some ms
  | Some m =>
      if validContent (content (upd m)) then
        Some (updateOne i (fun m0 =>
                if Message_eq_dec (upd m0) m0 then m0 else set_updatedAt now (upd m0)) ms)
      else None
  end.

(** The body of the timer callback, run on the closure's document [d]:
    the test reads [d], the assignments change [status] and [deliveredAt]
    of [d], and [save] writes these two paths to the stored document. *)
Definition timerCallback (now : Z) (d : Message) (ms : list Message) : list Message :=
  if Status_eqb (status d) sent
  then updateOne (_id d)
         (fun m => set_updatedAt now (set_deliveredAt (Some now) (set_status delivered m))) ms
  else ms.

(** The [k]-th pending timer fires, if it is due. *)
Definition fireTimer (st : State) (now : Z) (k : nat) : State :=
  match nth_error (timers st) k with
  | None => st
  | Some t =>
      if dueAt t <=? now then
        {| messages := timerCallback now (doc t) (messages st);
           users := users st;
           timers := firstn k (timers st) ++ skipn (S k) (timers st) |}
      else st
  end.

End MessageModel.

(* ================================================================== *)
(** ** controllers/messageController.js *)
(* ================================================================== *)

Module MessageController.
Import JS Helpers MessageModel.

(** The [data] member of a response.  The conversation carries its documents
    with [replyTo] populated, as the model static returns them; elsewhere a
    document is shown as stored.  The [populate] calls that replace user
    references by profile projections for display, and the pagination
    metadata derived from the total, are left to the presentation. *)
Inductive Data :=
| NoData
| MessageData (message : Message)
| ConversationData (messages : list Populated) (total : nat) (participant : User)
| ConversationsData (conversations : list ConversationSummary)
| ModifiedData (modifiedCount : nat)
| SearchData (messages : list Message) (total : nat) (searchQuery : jsString)
| UnreadData (unreadCount : nat).

(** What a handler does with a request: it answers with a status code and a
    body ([successResponse] / [errorResponse]), or an exception leaves it and
    [asyncHandler] passes it on to the error middleware. *)
Inductive Response :=
| Json (code : Z) (status : string) (message : string) (data : Data)
| Throws (error : string).

(** The list of messages a conversation response carries. *)
Definition responseMessages (r : Response) : option (list Populated) :=
  match r with
  | Json _ _ _ (ConversationData ms _ _) => Some ms
  | _ => None
  end.

Definition successResponse (code : Z) (message : string) (data : Data) : Response :=
  Json code "success" message data.

Definition errorResponse (code : Z) (message : string) : Response :=
  Json code "error" message NoData.

(** The body of POST /api/messages. *)
Record SendBody := {
  receiverId : UserId;
  body_content : jsString;
  body_messageType : option MessageType;
  body_replyTo : option MessageId
}.

(** [containsEmoji(content) && content.trim().length <= 10 ? 'emoji' : 'text'] *)
Definition detectMessageType (content : jsString) : MessageType :=
  if containsEmoji content && (jsLength (trim content) <=? 10) then emoji else text.

Definition sendMessage (st : State) (now : Z) (me : UserId) (body : SendBody)
    : State * Response :=
  match User_findById (users st) (receiverId body) with
  | None => (st, errorResponse 404 "Receiver not found")
  | Some _ =>
      let finalMessageType :=
        match body_messageType body with
        | Some t => t
        | None => detectMessageType (body_content body)
        end in
      match create st now {| new_sender := me;
                             new_receiver := receiverId body;
                             new_content := trim (body_content body);
                             new_messageType := Some finalMessageType;
                             new_status := None;
                             new_replyTo := body_replyTo body |} with
      | (st', Some message) =>
          (st', successResponse 201 "Message sent successfully" (MessageData message))
      | (_, None) => (st, Throws "ValidationError")
      end
  end.

Definition getConversation (st : State) (now : Z) (me userId : UserId) (page limit : Z)
    : State * Response :=
  match User_findById (users st) userId with
  | None => (st, errorResponse 404 "User not found")
  | Some otherUser =>
      match MessageModel.getConversation (messages st) me userId page limit with
      | None => (st, Throws "MongoServerError")
      | Some found =>
          let totalMessages := countDocuments (conversationQuery me userId) (messages st) in
          (markAsRead st now userId me,
           successResponse 200 "Conversation retrieved successfully"
             (ConversationData (rev found) totalMessages otherUser))
      end
  end.

Definition getConversations (st : State) (me : UserId) (limit : Z) : Response :=
  match getLatestConversations st me limit with
  | None => Throws "MongoServerError"
  | Some conversations =>
      successResponse 200 "Conversations retrieved successfully"
        (ConversationsData conversations)
  end.

Definition markAsRead (st : State) (now : Z) (me senderId : UserId) : State * Response :=
  match User_findById (users st) senderId with
  | None => (st, errorResponse 404 "Sender not found")
  | Some _ =>
      (MessageModel.markAsRead st now senderId me,
       successResponse 200 "Messages marked as read"
         (ModifiedData (countDocuments (markAsReadQuery senderId me) (messages st))))
  end.

Definition deleteMessage (st : State) (now : Z) (me : UserId) (messageId : MessageId)
    : State * Response :=
  match findById (messages st) messageId with
  | None => (st, errorResponse 404 "Message not found")
  | Some message =>
      if negb (Nat.eqb (sender message) me)
      then (st, errorResponse 403 "You can only delete your own messages")
      else
        match save (fun m => set_deletedAt (Some now) (set_isDeleted true m))
                   now messageId (messages st) with
        | Some ms => (with_messages ms st,
                      successResponse 200 "Message deleted successfully" NoData)
        | None => (st, Throws "ValidationError")
        end
  end.

(** The edit route has no validation middleware: the body may lack [content]. *)
Definition editMessage (st : State) (now : Z) (me : UserId) (messageId : MessageId)
    (content : option jsString) : State * Response :=
  match findById (messages st) messageId with
  | None => (st, errorResponse 404 "Message not found")
  | Some message =>
      if negb (Nat.eqb (sender message) me)
      then (st, errorResponse 403 "You can only edit your own messages")
      else
        let twentyFourHoursAgo := now - 24 * 60 * 60 * 1000 in
        if createdAt message <? twentyFourHoursAgo
        then (st, errorResponse 400 "Messages older than 24 hours cannot be edited")
        else
          match content with
          | None => (st, Throws "TypeError")
          | Some c =>
              match save (fun m => set_messageType (detectMessageType c)
                                     (set_editedAt (Some now) (set_content (trim c) m)))
                         now messageId (messages st) with
              | Some ms =>
                  (with_messages ms st,
                   match findById ms messageId with
                   | Some edited =>
                       successResponse 200 "Message edited successfully" (MessageData edited)
                   | None => Throws "DocumentNotFoundError"
                   end)
              | None => (st, Throws "ValidationError")
              end
          end
  end.


(** The filter of [searchMessages], for the test of a compiled pattern. *)
Definition searchQuery (me userId : UserId) (searchRegex : jsString -> bool) (m : Message)
    : bool :=
  betweenUsers me userId m && searchRegex (content m) && negb (isDeleted m).

(** [searchMessages], for an engine [RegExp] that stands for
    [new RegExp(_, 'i')]: every query has an answer. *)
Definition searchMessagesWith (RegExp : jsString -> Compiled) (st : State)
    (me userId : UserId) (query : jsString) (page limit : Z) : Response :=
  let (skip, limitNum) := paginate page limit in
  if match query with [] => true | _ :: _ => false end || (jsLength (trim query) <? 2)
  then errorResponse 400 "Search query must be at least 2 characters long"
  else
    match User_findById (users st) userId with
    | None => errorResponse 404 "User not found"
    | Some _ =>
        match RegExp (trim query) with
        | Raises error => Throws error
        | Tests searchRegex =>
            let q := searchQuery me userId searchRegex in
            match skipLimit skip limitNum (sortDesc createdAt (filter q (messages st))) with
            | None => Throws "MongoServerError"
            | Some found =>
                successResponse 200 "Message search completed"
                  (SearchData found (countDocuments q (messages st)) query)
            end
        end
    end.

(** [searchMessages] with the patterns of the modelled fragment of [RegExp];
    the outer [None] is a query whose pattern lies outside the fragment, of
    which this instance says nothing. *)
Definition searchMessages (st : State) (me userId : UserId) (query : jsString)
    (page limit : Z) : option Response :=
  let (skip, limitNum) := paginate page limit in
  if match query with [] => true | _ :: _ => false end || (jsLength (trim query) <? 2)
  then Some (errorResponse 400 "Search query must be at least 2 characters long")
  else
    match User_findById (users st) userId with
    | None => Some (errorResponse 404 "User not found")
    | Some _ =>
        match RegExp_new (trim query) with
        | None => None
        | Some searchRegex =>
            let q := searchQuery me userId (RegExp_test searchRegex) in
            match skipLimit skip limitNum (sortDesc createdAt (filter q (messages st))) with
            | None => Some (Throws "MongoServerError")
            | Some found =>
                Some (successResponse 200 "Message search completed"
                        (SearchData found (countDocuments q (messages st)) query))
            end
        end
    end.

Definition getUnreadCount (st : State) (me : UserId) : Response :=
  successResponse 200 "Unread count retrieved successfully"
    (UnreadData (MessageModel.getUnreadCount (messages st) me)).

Definition forwardMessage (st : State) (now : Z) (me : UserId) (messageId : MessageId)
    (receiverId : UserId) : State * Response :=
  match findById (messages st) messageId with
  | None => (st, errorResponse 404 "Original message not found")
  | Some originalMessage =>
      let hasAccess := Nat.eqb (sender originalMessage) me
                       || Nat.eqb (receiver originalMessage) me in
      if negb hasAccess
      then (st, errorResponse 403 "Access denied to original message")
      else
        match User_findById (users st) receiverId with
        | None => (st, errorResponse 404 "Receiver not found")
        | Some _ =>
            match create st now {| new_sender := me;
                                   new_receiver := receiverId;
                                   new_content := content originalMessage;
                                   new_messageType := Some (messageType originalMessage);
                                   new_status := None;
                                   new_replyTo := None |} with
            | (st', Some forwardedMessage) =>
                (st', successResponse 201 "Message forwarded successfully"
                        (MessageData forwardedMessage))
            | (_, None) => (st, Throws "ValidationError")
            end
        end
  end.

(** The [stats] object of [getMessageStats]; the handler answers with it
    under the status 200.  [today] is the start of the current day in the
    server's local time ([today.setHours(0, 0, 0, 0)]). *)
Record Stats := {
  totalSent : nat;
  totalReceived : nat;
  stats_unreadCount : nat;
  messagesToday : nat;
  totalConversations : nat;
  totalMessages : nat
}.

Definition getMessageStats (st : State) (today : Z) (me : UserId) : Stats :=
  let ms := messages st in
  let totalSent :=
    countDocuments (fun m => Nat.eqb (sender m) me && negb (isDeleted m)) ms in
  let totalReceived :=
    countDocuments (fun m => Nat.eqb (receiver m) me && negb (isDeleted m)) ms in
  let unread :=
    countDocuments (fun m => Nat.eqb (receiver m) me
                             && negb (Status_eqb (status m) read)
                             && negb (isDeleted m)) ms in
  let messagesToday :=
    countDocuments (fun m => Nat.eqb (sender m) me
                             && (today <=? createdAt m)
                             && negb (isDeleted m)) ms in
  (* $match, $group by the other participant, $count *)
  let conversations := List.length (groupByParticipant me (filter (involves me) ms)) in
  {| totalSent := totalSent;
     totalReceived := totalReceived;
     stats_unreadCount := unread;
     messagesToday := messagesToday;
     totalConversations := conversations;
     totalMessages := (totalSent + totalReceived)%nat |}.

End MessageController.

(* ================================================================== *)
(** ** The running server: requests, socket events and timers *)
(* ================================================================== *)

Module Server.
Import JS Helpers MessageModel.

(** The socket handler of [sendMessage]: the payload is checked by hand,
    [messageType] defaults to [text], the document goes through the same
    creation path. *)
Definition socketSendMessage (st : State) (now : Z) (me receiverId : UserId)
    (content : jsString) (messageType : option MessageType)
    (replyTo : option MessageId) : State :=
  match trim content with
  | [] => st
  | _ :: _ =>
      if 1000 <? jsLength content then st
      else
        match User_findById (users st) receiverId with
        | None => st
        | Some _ =>
            fst (create st now {| new_sender := me;
                                  new_receiver := receiverId;
                                  new_content := trim content;
                                  new_messageType :=
                                    Some (match messageType with Some t => t | None => text end);
                                  new_status := None;
                                  new_replyTo := replyTo |})
        end
  end.

(** Everything that can change the state: the requests of the message
    routes, the socket events that reach the message store, and a pending
    timer becoming due. *)
Inductive Event :=
| PostMessage (me : UserId) (body : MessageController.SendBody)
| GetConversation (me userId : UserId) (page limit : Z)
| PutRead (me senderId : UserId)
| DeleteMessage (me : UserId) (messageId : MessageId)
| PutMessage (me : UserId) (messageId : MessageId) (content : option jsString)
| PostForward (me : UserId) (messageId : MessageId) (receiverId : UserId)
| SocketJoinConversation (me receiverId : UserId)
| SocketSendMessage (me receiverId : UserId) (content : jsString)
    (messageType : option MessageType) (replyTo : option MessageId)
| SocketMarkAsRead (me senderId : UserId)
| TimerFires (k : nat).

Definition step (st : State) (now : Z) (e : Event) : State :=
  match e with
  | PostMessage me body => fst (MessageController.sendMessage st now me body)
  | GetConversation me userId page limit =>
      fst (MessageController.getConversation st now me userId page limit)
  | PutRead me senderId => fst (MessageController.markAsRead st now me senderId)
  | DeleteMessage me messageId => fst (MessageController.deleteMessage st now me messageId)
  | PutMessage me messageId content =>
      fst (MessageController.editMessage st now me messageId content)
  | PostForward me messageId receiverId =>
      fst (MessageController.forwardMessage st now me messageId receiverId)
  | SocketJoinConversation me receiverId => markAsDelivered st now receiverId me
  | SocketSendMessage me receiverId content messageType replyTo =>
      socketSendMessage st now me receiverId content messageType replyTo
  | SocketMarkAsRead me senderId => markAsRead st now senderId me
  | TimerFires k => fireTimer st now k
  end.

(** A run: events with the time at which each is handled. *)
Fixpoint run (st : State) (trace : list (Z * Event)) : State :=
  match trace with
  | [] => st
  | (now, e) :: trace' => run (step st now e) trace'
  end.

Definition isTimer (e : Event) : bool :=
  match e with
  | TimerFires _ => true
  | _ => false
  end.

(** The position of a status on the path sent, delivered, read. *)
Definition rank (s : Status) : nat :=
  match s with
  | sent => 0
  | delivered => 1
  | read => 2
  end.

Definition statusOf (st : State) (i : MessageId) : option Status :=
  option_map status (findById (messages st) i).

(** A write that keeps identifiers and never lowers a status. *)
Definition advances (f : Message -> Message) : Prop :=
  forall m, _id (f m) = _id m /\ (rank (status m) <= rank (status (f m)))%nat.

(** Every message of the first collection is still in the second, with a
    status that is not lower. *)
Definition noRegress (ms ms' : list Message) : Prop :=
  forall i m, findById ms i = Some m ->
    exists m', findById ms' i = Some m' /\ (rank (status m) <= rank (status m'))%nat.

(** What the schema guarantees of a stored content: it passed the
    validators and the [trim] setter. *)
Definition wellStored (m : Message) : Prop :=
  validContent (content m) = true /\ trim (content m) = content m.

Definition wellFormed (st : State) : Prop :=
  Forall wellStored (messages st) /\ Forall (fun t => wellStored (doc t)) (timers st).

End Server.

(* ================================================================== *)
(** ** socket/socketHandler.js: rooms and the registry of active users *)
(* ================================================================== *)

Module SocketHandler.
Import JS Helpers.

(** A connected socket: its id, the id of its user (a string, as the handler
    keeps it) and the set of rooms it is in.  On connection the socket is in
    the room of its own id and joins the room of its user. *)
Record Socket := {
  socket_id : jsString;
  userId : jsString;
  rooms : list jsString
}.

Definition inRoom (room : jsString) (rs : list jsString) : bool :=
  existsb (eqString room) rs.

(** [socket.join(room)]: rooms are a set. *)
Definition join (room : jsString) (rs : list jsString) : list jsString :=
  if inRoom room rs then rs else rs ++ [room].

Definition connect (socketId user : jsString) : Socket :=
  {| socket_id := socketId; userId := user; rooms := join user [socketId] |}.

(** What the [joinConversation] handler emits to the socket. *)
Inductive Emitted :=
| ErrorEvent (message : string)
| ConversationJoined (conversationId receiverId : jsString).

(** The room part of the [joinConversation] handler; [validId] is
    [isValidObjectId].  Every room but the socket's own and the user's is
    left, then the conversation room is joined. *)
Definition joinConversation (validId : jsString -> bool) (s : Socket)
    (receiverId : jsString) : Socket * Emitted :=
  if negb (validId receiverId) then (s, ErrorEvent "Invalid receiver ID")
  else
    let kept := filter (fun room => eqString room (socket_id s) || eqString room (userId s))
                       (rooms s) in
    let conversationId :=
      let (first, second) := sortPair (userId s) receiverId in first ++ 45 :: second in
    ({| socket_id := socket_id s; userId := userId s;
        rooms := join conversationId kept |},
     ConversationJoined conversationId receiverId).

(** [activeUsers]: a [Map] from user id to the entry of the connection that
    registered last. *)
Record ActiveUser := {
  socketId : jsString;
  lastSeen : Z
}.

Definition ActiveUsers := list (jsString * ActiveUser).

Fixpoint get (k : jsString) (m : ActiveUsers) : option ActiveUser :=
  match m with
  | [] => None
  | (k', v) :: m' => if eqString k k' then Some v else get k m'
  end.

Fixpoint delete (k : jsString) (m : ActiveUsers) : ActiveUsers :=
  match m with
  | [] => []
  | (k', v) :: m' => if eqString k k' then delete k m' else (k', v) :: delete k m'
  end.

(** [Map.prototype.set]: an existing key keeps its place and takes the value. *)
Fixpoint set (k : jsString) (v : ActiveUser) (m : ActiveUsers) : ActiveUsers :=
  match m with
  | [] => [(k, v)]
  | (k', v') :: m' => if eqString k k' then (k, v) :: m' else (k', v') :: set k v m'
  end.

(** The registry part of the connection handler and of the disconnect
    handler of a socket. *)
Definition onConnection (now : Z) (s : Socket) (m : ActiveUsers) : ActiveUsers :=
  set (userId s) {| socketId := socket_id s; lastSeen := now |} m.

Definition onDisconnect (s : Socket) (m : ActiveUsers) : ActiveUsers :=
  delete (userId s) m.

End SocketHandler.

(* ================================================================== *)
(** ** Notions of the specification, for comparison with the code *)
(* ================================================================== *)

Module Spec.
Import JS Helpers MessageModel.

(** "The content consists entirely of emoji characters": every code point
    lies in one of the emoji ranges. *)
Definition emojiOnly (s : jsString) : bool := forallb isEmojiCodePoint (codePoints s).

(** The classification the specification describes for a message sent
    without a type. *)
Definition classify (content : jsString) : MessageType :=
  if emojiOnly (trim content) && (jsLength (trim content) <=? 10) then emoji else text.

End Spec.

(* ================================================================== *)
(** ** Concrete scenarios *)
(* ================================================================== *)

Module Scenario.
Import JS Helpers MessageModel Server.

Definition alice : User :=
  {| user_id := 1%nat; name := "Alice"; avatar := ""; isOnline := true; lastSeen := 0 |}.
Definition bob : User :=
  {| user_id := 2%nat; name := "Bob"; avatar := ""; isOnline := true; lastSeen := 0 |}.
Definition carol : User :=
  {| user_id := 3%nat; name := "Carol"; avatar := ""; isOnline := false; lastSeen := 0 |}.

Definition empty : State :=
  {| messages := []; users := [alice; bob; carol]; timers := [] |}.

(** Alice sends "hi" to Bob at time 0; Bob opens the conversation half a
    second later, which marks the message as read. *)
Definition sentThenRead : list (Z * Event) :=
  [ (0, PostMessage 1%nat {| MessageController.receiverId := 2%nat;
                         MessageController.body_content := lit "hi";
                         MessageController.body_messageType := None;
                         MessageController.body_replyTo := None |});
    (500, GetConversation 2%nat 1%nat 1 50) ].

Definition plain (receiverId : UserId) (content : string) : MessageController.SendBody :=
  {| MessageController.receiverId := receiverId;
     MessageController.body_content := lit content;
     MessageController.body_messageType := None;
     MessageController.body_replyTo := None |}.

(** The conversation of the test suite: Alice, then Bob, then Alice again. *)
Definition threeMessages : State :=
  run empty [ (0, PostMessage 1%nat (plain 2%nat "Hello from user1"));
              (10, PostMessage 2%nat (plain 1%nat "Hello back from user2"));
              (20, PostMessage 1%nat (plain 2%nat "How are you?")) ].

(** Alice then deletes her first message, at time 100. *)
Definition afterDelete : State :=
  run threeMessages [ (100, DeleteMessage 1%nat 1%nat) ].

(** The three stored documents of [threeMessages] ... *)
Definition hello : Message :=
  {| _id := 1%nat; sender := 1%nat; receiver := 2%nat;
     content := lit "Hello from user1"; messageType := text; status := sent;
     deliveredAt := None; readAt := None; editedAt := None;
     isDeleted := false; deletedAt := None; replyTo := None;
     createdAt := 0; updatedAt := 0 |}.

(** ... and the first of them as [afterDelete] has it. *)
Definition deletedHello : Message :=
  {| _id := 1%nat; sender := 1%nat; receiver := 2%nat;
     content := lit "Hello from user1"; messageType := text; status := sent;
     deliveredAt := None; readAt := None; editedAt := None;
     isDeleted := true; deletedAt := Some 100; replyTo := None;
     createdAt := 0; updatedAt := 100 |}.

(** Alice has sent "abc" to Bob. *)
Definition abcSent : State :=
  run empty [ (0, PostMessage 1%nat (plain 2%nat "abc")) ].

Definition abc : Message :=
  {| _id := 1%nat; sender := 1%nat; receiver := 2%nat;
     content := lit "abc"; messageType := text; status := sent;
     deliveredAt := None; readAt := None; editedAt := None;
     isDeleted := false; deletedAt := None; replyTo := None;
     createdAt := 0; updatedAt := 0 |}.

Definition helloBack : Message :=
  {| _id := 2%nat; sender := 2%nat; receiver := 1%nat;
     content := lit "Hello back from user2"; messageType := text; status := sent;
     deliveredAt := None; readAt := None; editedAt := None;
     isDeleted := false; deletedAt := None; replyTo := None;
     createdAt := 10; updatedAt := 10 |}.

Definition howAreYou : Message :=
  {| _id := 3%nat; sender := 1%nat; receiver := 2%nat;
     content := lit "How are you?"; messageType := text; status := sent;
     deliveredAt := None; readAt := None; editedAt := None;
     isDeleted := false; deletedAt := None; replyTo := None;
     createdAt := 20; updatedAt := 20 |}.

(** The document of "hi" as created in [sentThenRead]; the creation timer
    keeps it. *)
Definition hi : Message :=
  {| _id := 1%nat; sender := 1%nat; receiver := 2%nat;
     content := lit "hi"; messageType := text; status := sent;
     deliveredAt := None; readAt := None; editedAt := None;
     isDeleted := false; deletedAt := None; replyTo := None;
     createdAt := 0; updatedAt := 0 |}.

(** The conversation list of Alice in [threeMessages]: one conversation, with
    Bob, whose reply she has not read. *)
Definition aliceConversations : list ConversationSummary :=
  [ {| participant := bob; lastMessage := howAreYou; unreadCount := 1 |} ].

(** Two days, in milliseconds. *)
Definition twoDaysLater : Z := 2 * 24 * 60 * 60 * 1000.

(** U+1F600 as its surrogate pair, and the content "Hi " followed by it. *)
Definition grinning : jsString := [55357; 56832].
Definition hiGrinning : jsString := lit "Hi " ++ grinning.

Definition sendHiGrinning : MessageController.SendBody :=
  {| MessageController.receiverId := 2%nat;
     MessageController.body_content := hiGrinning;
     MessageController.body_messageType := None;
     MessageController.body_replyTo := None |}.

(** ... and the timer set at creation fires when it is due. *)
Definition sentReadThenTimer : list (Z * Event) :=
  sentThenRead ++ [ (1000, TimerFires 0%nat) ].

(** A document that replies to nothing, as a populated query returns it. *)
Definition listed (m : Message) : Populated :=
  {| document := m; populated_replyTo := None |}.





End Scenario.

(* ================================================================== *)
(** ** Properties *)
(* ================================================================== *)

Import JS Helpers MessageModel.

(** *** The scenarios of the test suite, replayed on the model *)

(** Alice opens the conversation with Bob: the three messages, oldest first. *)
Example conversation_is_listed_oldest_first :
  snd (MessageController.getConversation Scenario.threeMessages 50 1%nat 2%nat 1 50)
  = MessageController.successResponse 200 "Conversation retrieved successfully"
      (MessageController.ConversationData
         (map Scenario.listed [Scenario.hello; Scenario.helloBack; Scenario.howAreYou])
         3 Scenario.bob).
Proof. vm_compute. reflexivity. Qed.

(** With a page size of 2 the first page holds two messages out of three. *)
Example conversation_first_page_of_two :
  snd (MessageController.getConversation Scenario.threeMessages 50 1%nat 2%nat 1 2)
  = MessageController.successResponse 200 "Conversation retrieved successfully"
      (MessageController.ConversationData
         (map Scenario.listed [Scenario.helloBack; Scenario.howAreYou]) 3 Scenario.bob).
Proof. vm_compute. reflexivity. Qed.

(** Bob has two unread messages from Alice, and none once they are marked as read. *)
Example unread_count_before_and_after_read :
  MessageModel.getUnreadCount (messages Scenario.threeMessages) 2%nat = 2%nat
  /\ MessageModel.getUnreadCount
       (messages (MessageModel.markAsRead Scenario.threeMessages 50 1%nat 2%nat)) 2%nat
     = 0%nat.
Proof. split; vm_compute; reflexivity. Qed.

(** A single emoji is detected; a longer mixed content is text. *)
Example emoji_detection :
  MessageController.detectMessageType Scenario.grinning = emoji
  /\ MessageController.detectMessageType
       (lit "Hello " ++ Scenario.grinning ++ lit " there") = text.
Proof. split; vm_compute; reflexivity. Qed.

(** *** Lookup by identifier under the write primitives *)

Section Lookup.

Lemma findById_map (f : Message -> Message) (ms : list Message) (i : MessageId) :
  (forall m, _id (f m) = _id m) ->
  findById (map f ms) i = option_map f (findById ms i).
Proof.
  intros Hid. unfold findById.
  induction ms as [|m ms IH]; simpl; [reflexivity|].
  rewrite Hid. destruct (Nat.eqb (_id m) i); [reflexivity | exact IH].
Qed.

Lemma findById_updateOne (f : Message -> Message) (j : MessageId)
    (ms : list Message) (i : MessageId) :
  (forall m, _id (f m) = _id m) ->
  findById (updateOne j f ms) i =
  if Nat.eqb i j then option_map f (findById ms i) else findById ms i.
Proof.
  intros Hid. unfold findById.
  induction ms as [|m ms IH]; simpl.
  - destruct (Nat.eqb i j); reflexivity.
  - destruct (Nat.eqb (_id m) j) eqn:Emj; simpl.
    + rewrite Hid. apply Nat.eqb_eq in Emj. subst j.
      destruct (Nat.eqb (_id m) i) eqn:Emi.
      * apply Nat.eqb_eq in Emi. subst i. rewrite Nat.eqb_refl. reflexivity.
      * rewrite Nat.eqb_sym, Emi. reflexivity.
    + destruct (Nat.eqb (_id m) i) eqn:Emi.
      * apply Nat.eqb_eq in Emi. subst i. rewrite Emj. reflexivity.
      * exact IH.
Qed.

Lemma findById_app_some (ms extra : list Message) (i : MessageId) (m : Message) :
  findById ms i = Some m -> findById (ms ++ extra) i = Some m.
Proof.
  unfold findById. induction ms as [|x ms IH]; simpl; [discriminate|].
  destruct (Nat.eqb (_id x) i); [trivial | exact IH].
Qed.

Lemma findById_id (ms : list Message) (i : MessageId) (m : Message) :
  findById ms i = Some m -> _id m = i.
Proof.
  unfold findById. intros H. apply find_some in H. destruct H as [_ H].
  apply Nat.eqb_eq in H. exact H.
Qed.

Lemma findById_In (ms : list Message) (i : MessageId) (m : Message) :
  findById ms i = Some m -> In m ms.
Proof. unfold findById. intros H. apply find_some in H. tauto. Qed.

Lemma freshId_above (ms : list Message) (m : Message) :
  In m ms -> (_id m < freshId ms)%nat.
Proof.
  unfold freshId. induction ms as [|x ms IH]; simpl; [tauto|].
  intros [->|H]; [lia | specialize (IH H); lia].
Qed.

Lemma findById_fresh (ms : list Message) : findById ms (freshId ms) = None.
Proof.
  destruct (findById ms (freshId ms)) as [m|] eqn:E; [|reflexivity].
  pose proof (findById_id _ _ _ E) as Hid.
  pose proof (freshId_above _ _ (findById_In _ _ _ E)). lia.
Qed.

Lemma findById_app_none (ms extra : list Message) (i : MessageId) :
  findById ms i = None -> findById (ms ++ extra) i = findById extra i.
Proof.
  unfold findById. induction ms as [|x ms IH]; simpl; [reflexivity|].
  destruct (Nat.eqb (_id x) i); [discriminate | exact IH].
Qed.

End Lookup.

(** *** The status path *)

Section StatusPath.
Import Server.

Lemma noRegress_refl ms : noRegress ms ms.
Proof. intros i m H. exists m. split; [exact H | lia]. Qed.

Lemma noRegress_map f ms : advances f -> noRegress ms (map f ms).
Proof.
  intros Hf i m H. rewrite findById_map by (intros; apply Hf).
  rewrite H. simpl. exists (f m). split; [reflexivity | apply Hf].
Qed.

Lemma noRegress_updateOne f j ms : advances f -> noRegress ms (updateOne j f ms).
Proof.
  intros Hf i m H. rewrite findById_updateOne by (intros; apply Hf).
  destruct (Nat.eqb i j).
  - rewrite H. simpl. exists (f m). split; [reflexivity | apply Hf].
  - exists m. split; [exact H | lia].
Qed.

Lemma noRegress_app ms extra : noRegress ms (ms ++ extra).
Proof.
  intros i m H. exists m. split; [apply findById_app_some; exact H | lia].
Qed.

Lemma noRegress_markAsRead st now s r :
  noRegress (messages st) (messages (MessageModel.markAsRead st now s r)).
Proof.
  unfold MessageModel.markAsRead, updateMany. simpl.
  apply noRegress_map. intros m.
  unfold markAsReadQuery.
  destruct (Nat.eqb (sender m) s && Nat.eqb (receiver m) r
            && (Status_eqb (status m) sent || Status_eqb (status m) delivered));
    simpl; split; try reflexivity; destruct (status m); simpl; lia.
Qed.

Lemma noRegress_markAsDelivered st now s r :
  noRegress (messages st) (messages (markAsDelivered st now s r)).
Proof.
  unfold markAsDelivered, updateMany. simpl.
  apply noRegress_map. intros m.
  unfold markAsDeliveredQuery.
  destruct (Status_eqb (status m) sent) eqn:E.
  - destruct (Nat.eqb (sender m) s && Nat.eqb (receiver m) r);
      simpl; split; try reflexivity; destruct (status m); simpl; try discriminate; lia.
  - rewrite andb_false_r. split; [reflexivity | lia].
Qed.

Lemma noRegress_create st now d :
  noRegress (messages st) (messages (fst (create st now d))).
Proof.
  unfold create. destruct (validContent (trim (new_content d))); simpl.
  - apply noRegress_app.
  - apply noRegress_refl.
Qed.

Lemma noRegress_save upd now j ms ms' :
  (forall m, _id (upd m) = _id m /\ status (upd m) = status m) ->
  save upd now j ms = Some ms' -> noRegress ms ms'.
Proof.
  intros Hu. unfold save.
  destruct (findById ms j) as [m0|].
  - destruct (validContent (content (upd m0))); [|discriminate].
    intros H. injection H as <-. apply noRegress_updateOne.
    intros m. destruct (Message_eq_dec (upd m) m).
    + split; [reflexivity | lia].
    + simpl. destruct (Hu m) as [Hi Hs]. rewrite Hs. split; [exact Hi | lia].
  - intros H. injection H as <-. apply noRegress_refl.
Qed.

(** One event other than a timer never lowers the status of a stored message. *)
Lemma step_noRegress st now e :
  isTimer e = false -> noRegress (messages st) (messages (step st now e)).
Proof.
  destruct e as [me body | me userId page limit | me senderId | me messageId
                | me messageId body | me messageId receiverId | me receiverId
                | me receiverId body mt rt | me senderId | k];
    simpl; intros Ht; try discriminate.
  - unfold MessageController.sendMessage.
    destruct (User_findById _ _); [|apply noRegress_refl].
    match goal with |- context [create st now ?d] =>
      pose proof (noRegress_create st now d) as H; destruct (create st now d) as [st' [x|]] end;
      simpl in *; [exact H | apply noRegress_refl].
  - unfold MessageController.getConversation.
    destruct (User_findById _ _); [|apply noRegress_refl].
    destruct (MessageModel.getConversation _ _ _ _ _); [|apply noRegress_refl].
    apply noRegress_markAsRead.
  - unfold MessageController.markAsRead.
    destruct (User_findById _ _); [|apply noRegress_refl].
    apply noRegress_markAsRead.
  - unfold MessageController.deleteMessage.
    destruct (findById _ _); [|apply noRegress_refl].
    destruct (negb _); [apply noRegress_refl|].
    destruct (save _ _ _ _) eqn:E; [|apply noRegress_refl].
    simpl. eapply noRegress_save; [|exact E]. intros; split; reflexivity.
  - unfold MessageController.editMessage.
    destruct (findById _ _); [|apply noRegress_refl].
    destruct (negb _); [apply noRegress_refl|].
    destruct (_ <? _); [apply noRegress_refl|].
    destruct body as [c|]; [|apply noRegress_refl].
    destruct (save _ _ _ _) eqn:E; [|apply noRegress_refl].
    simpl. eapply noRegress_save; [|exact E]. intros; split; reflexivity.
  - unfold MessageController.forwardMessage.
    destruct (findById _ _); [|apply noRegress_refl].
    destruct (negb _); [apply noRegress_refl|].
    destruct (User_findById _ _); [|apply noRegress_refl].
    match goal with |- context [create st now ?d] =>
      pose proof (noRegress_create st now d) as H; destruct (create st now d) as [st' [x|]] end;
      simpl in *; [exact H | apply noRegress_refl].
  - apply noRegress_markAsDelivered.
  - unfold socketSendMessage.
    destruct (trim body); [apply noRegress_refl|].
    destruct (_ <? _); [apply noRegress_refl|].
    destruct (User_findById _ _); [|apply noRegress_refl].
    apply noRegress_create.
  - apply noRegress_markAsRead.
Qed.

Lemma noRegress_trans a b c : noRegress a b -> noRegress b c -> noRegress a c.
Proof.
  intros Hab Hbc i m H. destruct (Hab i m H) as [m1 [H1 L1]].
  destruct (Hbc i m1 H1) as [m2 [H2 L2]]. exists m2. split; [exact H2 | lia].
Qed.

(** Along a run in which no creation timer fires, no status regresses: the
    requests and socket events by themselves respect the path. *)
Lemma run_noRegress_without_timers trace : forall st,
  Forall (fun te => isTimer (snd te) = false) trace ->
  noRegress (messages st) (messages (run st trace)).
Proof.
  induction trace as [|[now e] trace IH]; intros st Hall; simpl.
  - apply noRegress_refl.
  - inversion Hall as [|? ? He Hrest]; subst. simpl in He.
    eapply noRegress_trans; [apply step_noRegress; exact He | apply IH; exact Hrest].
Qed.

End StatusPath.

(** C1.  The status of a message is meant never to go back on the path
    sent, delivered, read, whatever sequence of create, markAsDelivered,
    markAsRead and the delayed auto-delivery of the creation hook takes
    place.  The creation timer breaks this: it tests the status of the
    in-memory document of its closure, which is still [sent] after the stored
    document was marked as read, and saving it writes [delivered] over [read]. *)
Theorem C1_creation_timer_moves_read_back_to_delivered :
  Server.statusOf (Server.run Scenario.empty Scenario.sentThenRead) 1%nat = Some read
  /\ Server.statusOf (Server.run Scenario.empty Scenario.sentReadThenTimer) 1%nat
     = Some delivered.
Proof. split; vm_compute; reflexivity. Qed.

(** *** Delivery and read receipts *)

Section Receipts.

Variables (s r : UserId).

Lemma markAsReadQuery_after (now : Z) (m : Message) :
  markAsReadQuery s r
    (if markAsReadQuery s r m then set_updatedAt now (set_readAt (Some now) (set_status read m))
     else m) = false.
Proof.
  destruct (markAsReadQuery s r m) eqn:E; [|exact E].
  unfold markAsReadQuery in *. simpl.
  rewrite andb_false_r. reflexivity.
Qed.

Lemma markAsRead_after_markAsDelivered (t0 t1 : Z) (m : Message) :
  let d := if markAsDeliveredQuery s r m
           then set_updatedAt t0 (set_deliveredAt (Some t0) (set_status delivered m))
           else m in
  let viaDelivered := if markAsReadQuery s r d
                      then set_updatedAt t1 (set_readAt (Some t1) (set_status read d))
                      else d in
  let direct := if markAsReadQuery s r m
                then set_updatedAt t1 (set_readAt (Some t1) (set_status read m))
                else m in
  set_deliveredAt None viaDelivered = set_deliveredAt None direct.
Proof.
  unfold markAsDeliveredQuery, markAsReadQuery.
  destruct m as [i sd rc c ty stt dl rd ed del dla rep cr up]; simpl.
  destruct (Nat.eqb sd s) eqn:Es, (Nat.eqb rc r) eqn:Er, stt;
    cbn; rewrite ?Es, ?Er; reflexivity.
Qed.

End Receipts.

(** After [markAsDelivered] then [markAsRead], every stored message agrees
    with what [markAsRead] alone leaves in every field but [deliveredAt]. *)
Lemma markAsDelivered_then_markAsRead (st : State) (t0 t1 : Z) (s r : UserId) :
  map (set_deliveredAt None)
      (messages (MessageModel.markAsRead (markAsDelivered st t0 s r) t1 s r))
  = map (set_deliveredAt None) (messages (MessageModel.markAsRead st t1 s r)).
Proof.
  unfold MessageModel.markAsRead, markAsDelivered, updateMany. simpl.
  rewrite !map_map. apply map_ext. intros m.
  apply (markAsRead_after_markAsDelivered s r t0 t1 m).
Qed.

(** C2.  For every pair (sender, receiver) and every state, markAsDelivered
    followed by markAsRead leaves each message with the status and the
    readAt that markAsRead alone (run at the same time) gives it; and a
    second markAsRead in succession matches no message and leaves the state,
    the readAt of the first call included, as it is. *)
Theorem C2_markAsRead_absorbs_markAsDelivered_and_repeats_as_noop :
  forall (st : State) (t0 t1 t2 : Z) (s r : UserId),
    map (fun m => (_id m, status m, readAt m))
        (messages (MessageModel.markAsRead (markAsDelivered st t0 s r) t1 s r))
    = map (fun m => (_id m, status m, readAt m))
          (messages (MessageModel.markAsRead st t1 s r))
    /\ countDocuments (markAsReadQuery s r)
         (messages (MessageModel.markAsRead st t1 s r)) = 0%nat
    /\ MessageModel.markAsRead (MessageModel.markAsRead st t1 s r) t2 s r
       = MessageModel.markAsRead st t1 s r.
Proof.
  intros st t0 t1 t2 s r. split; [|split].
  - pose proof (markAsDelivered_then_markAsRead st t0 t1 s r) as H.
    apply (f_equal (map (fun m => (_id m, status m, readAt m)))) in H.
    rewrite !map_map in H. simpl in H. exact H.
  - unfold MessageModel.markAsRead, updateMany, countDocuments. simpl.
    induction (messages st) as [|m ms IH]; simpl; [reflexivity|].
    rewrite markAsReadQuery_after. exact IH.
  - unfold MessageModel.markAsRead, updateMany, with_messages. simpl. f_equal.
    rewrite map_map. apply map_ext. intros m.
    pose proof (markAsReadQuery_after s r t1 m) as H.
    destruct (markAsReadQuery s r m); rewrite H; reflexivity.
Qed.

(** *** Trimming *)

Section Trim.

Variable (A : Type) (p : A -> bool).

Lemma dropWhile_idem (l : list A) : dropWhile p (dropWhile p l) = dropWhile p l.
Proof.
  induction l as [|x l IH]; simpl; [reflexivity|].
  destruct (p x) eqn:E; [exact IH | simpl; rewrite E; reflexivity].
Qed.

Lemma dropWhile_head (l : list A) (x : A) (l' : list A) :
  dropWhile p l = x :: l' -> p x = false.
Proof.
  induction l as [|y l IH]; simpl; [discriminate|].
  destruct (p y) eqn:E; [exact IH | intros H; injection H as -> _; exact E].
Qed.

Lemma dropWhile_snoc (l : list A) (c : A) :
  p c = false -> dropWhile p (l ++ [c]) = dropWhile p l ++ [c].
Proof.
  intros Hc. induction l as [|x l IH]; simpl; [rewrite Hc; reflexivity|].
  destruct (p x); [exact IH | reflexivity].
Qed.

Lemma dropWhile_length (l : list A) : (List.length (dropWhile p l) <= List.length l)%nat.
Proof.
  induction l as [|x l IH]; simpl; [lia|]. destruct (p x); simpl; lia.
Qed.

End Trim.

Lemma trimStart_trimEnd_trimStart (s : jsString) :
  trimStart (trimEnd (trimStart s)) = trimEnd (trimStart s).
Proof.
  unfold trimStart, trimEnd.
  destruct (dropWhile isTrimmable s) as [|c y] eqn:E; [reflexivity|].
  pose proof (dropWhile_head _ _ _ _ _ E) as Hc.
  simpl rev. rewrite dropWhile_snoc by exact Hc.
  rewrite rev_app_distr. simpl. rewrite Hc. reflexivity.
Qed.

(** [trim] does nothing to a string that is already trimmed. *)
Lemma trim_idem (s : jsString) : trim (trim s) = trim s.
Proof.
  unfold trim. rewrite trimStart_trimEnd_trimStart.
  unfold trimEnd. rewrite rev_involutive, dropWhile_idem. reflexivity.
Qed.

Lemma trim_length (s : jsString) : jsLength (trim s) <= jsLength s.
Proof.
  unfold jsLength, trim, trimEnd, trimStart.
  rewrite length_rev.
  pose proof (dropWhile_length _ isTrimmable (rev (dropWhile isTrimmable s))) as H1.
  pose proof (dropWhile_length _ isTrimmable s) as H2.
  rewrite length_rev in H1. lia.
Qed.

(** *** Automatic message type *)

Lemma containsEmoji_spec (s : jsString) :
  containsEmoji s = true <->
  exists cp, In cp (codePoints s) /\ isEmojiCodePoint cp = true.
Proof. unfold containsEmoji. apply existsb_exists. Qed.

Lemma detectMessageType_emoji (c : jsString) :
  MessageController.detectMessageType c = emoji <->
  (exists cp, In cp (codePoints c) /\ isEmojiCodePoint cp = true)
  /\ jsLength (trim c) <= 10.
Proof.
  unfold MessageController.detectMessageType.
  rewrite <- containsEmoji_spec.
  destruct (containsEmoji c); simpl.
  - destruct (jsLength (trim c) <=? 10) eqn:E.
    + apply Z.leb_le in E. split; [intros _; split; [reflexivity | exact E] | reflexivity].
    + apply Z.leb_gt in E. split; [discriminate | intros [_ H]; lia].
  - split; [discriminate | intros [H _]; discriminate].
Qed.

(** C3, as the code has it.  When messageType is omitted and the message is
    accepted, the stored messageType is emoji if and only if the content
    contains at least one character of the emoji ranges and the trimmed
    content has length at most 10 (in UTF-16 code units); otherwise it is
    text. *)
Theorem C3_omitted_type_is_emoji_iff_some_emoji_and_short :
  forall (st : State) (now : Z) (me : UserId) (body : MessageController.SendBody)
         (u : User),
    MessageController.body_messageType body = None ->
    User_findById (users st) (MessageController.receiverId body) = Some u ->
    validContent (trim (MessageController.body_content body)) = true ->
    exists st' m,
      MessageController.sendMessage st now me body
      = (st', MessageController.successResponse 201 "Message sent successfully"
                (MessageController.MessageData m))
      /\ findById (messages st') (_id m) = Some m
      /\ content m = trim (MessageController.body_content body)
      /\ (messageType m = emoji <->
          (exists cp, In cp (codePoints (MessageController.body_content body))
                      /\ isEmojiCodePoint cp = true)
          /\ jsLength (trim (MessageController.body_content body)) <= 10)
      /\ (messageType m <> emoji -> messageType m = text).
Proof.
  intros st now me body u Hty Hu Hvalid.
  unfold MessageController.sendMessage, create. rewrite Hu, Hty. simpl.
  rewrite trim_idem, Hvalid.
  eexists. eexists. split; [reflexivity|]. simpl.
  split; [|split; [reflexivity|split]].
  - rewrite findById_app_none by apply findById_fresh.
    unfold findById. simpl. rewrite Nat.eqb_refl. reflexivity.
  - apply detectMessageType_emoji.
  - destruct (MessageController.detectMessageType _); [reflexivity | intros H; elim H; reflexivity].
Qed.

Lemma C3_omitted_type_witness :
  exists st' m,
    MessageController.sendMessage Scenario.empty 0 1%nat Scenario.sendHiGrinning
    = (st', MessageController.successResponse 201 "Message sent successfully"
              (MessageController.MessageData m))
    /\ findById (messages st') (_id m) = Some m
    /\ content m = trim Scenario.hiGrinning
    /\ (messageType m = emoji <->
        (exists cp, In cp (codePoints Scenario.hiGrinning) /\ isEmojiCodePoint cp = true)
        /\ jsLength (trim Scenario.hiGrinning) <= 10)
    /\ (messageType m <> emoji -> messageType m = text).
Proof.
  apply (C3_omitted_type_is_emoji_iff_some_emoji_and_short
           Scenario.empty 0 1%nat Scenario.sendHiGrinning Scenario.bob);
    reflexivity.
Defined.

(** C3, as stated, fails: "Hi" followed by U+1F600 has trimmed length 5 and
    is not made of emoji only, so the specification classifies it as text;
    the code stores it with messageType emoji. *)
Lemma C3_mixed_short_content_is_stored_as_emoji :
  Spec.emojiOnly (trim Scenario.hiGrinning) = false
  /\ Spec.classify Scenario.hiGrinning = text
  /\ jsLength (trim Scenario.hiGrinning) = 5
  /\ exists st' m,
       MessageController.sendMessage Scenario.empty 0 1%nat Scenario.sendHiGrinning
       = (st', MessageController.successResponse 201 "Message sent successfully"
                 (MessageController.MessageData m))
       /\ messageType m = emoji
       /\ messageType m <> Spec.classify Scenario.hiGrinning.
Proof.
  split; [vm_compute; reflexivity|].
  split; [vm_compute; reflexivity|].
  split; [vm_compute; reflexivity|].
  eexists. eexists. split; [vm_compute; reflexivity|].
  split; [reflexivity | discriminate].
Qed.

(** *** Query pipeline: sorting, paging, grouping *)

Section Pipeline.

Context {A : Type}.
Variable key : A -> Z.

Lemma insertDesc_perm (x : A) (l : list A) : Permutation (x :: l) (insertDesc key x l).
Proof.
  induction l as [|y l IH]; simpl; [apply Permutation_refl|].
  destruct (key y <=? key x); [apply Permutation_refl|].
  eapply Permutation_trans; [apply perm_swap | apply perm_skip; exact IH].
Qed.

Lemma sortDesc_perm (l : list A) : Permutation l (sortDesc key l).
Proof.
  induction l as [|x l IH]; simpl; [apply Permutation_refl|].
  eapply Permutation_trans; [apply perm_skip; exact IH | apply insertDesc_perm].
Qed.

Lemma sortDesc_In (l : list A) (x : A) : In x (sortDesc key l) <-> In x l.
Proof.
  split; intros H.
  - eapply Permutation_in; [apply Permutation_sym, sortDesc_perm | exact H].
  - eapply Permutation_in; [apply sortDesc_perm | exact H].
Qed.

Lemma sortDesc_length (l : list A) : List.length (sortDesc key l) = List.length l.
Proof. symmetry. apply Permutation_length, sortDesc_perm. Qed.

(** The result of a sort is in descending order of the key. *)
Lemma insertDesc_descending (x : A) (l : list A) :
  descending key l -> descending key (insertDesc key x l).
Proof.
  induction 1 as [|y|y z l Hyz Hd IH]; simpl.
  - constructor.
  - destruct (key y <=? key x) eqn:E.
    + constructor; [apply Z.leb_le; exact E | constructor].
    + constructor; [apply Z.leb_gt in E; lia | constructor].
  - destruct (key y <=? key x) eqn:E.
    + constructor; [apply Z.leb_le; exact E | constructor; assumption].
    + simpl in IH. destruct (key z <=? key x) eqn:E'.
      * constructor; [apply Z.leb_gt in E; lia | exact IH].
      * constructor; [exact Hyz | exact IH].
Qed.

Lemma sortDesc_descending (l : list A) : descending key (sortDesc key l).
Proof.
  induction l as [|x l IH]; simpl; [constructor | apply insertDesc_descending, IH].
Qed.

Lemma descending_tail (x : A) (l : list A) : descending key (x :: l) -> descending key l.
Proof. inversion 1; subst; [constructor | assumption]. Qed.

Lemma descending_skipn (n : nat) (l : list A) :
  descending key l -> descending key (skipn n l).
Proof.
  revert l. induction n as [|n IH]; intros l H; [exact H|].
  destruct l as [|x l]; [exact H|]. simpl. apply IH. eapply descending_tail. exact H.
Qed.

Lemma descending_firstn (n : nat) (l : list A) :
  descending key l -> descending key (firstn n l).
Proof.
  revert l. induction n as [|n IH]; intros l H; [constructor|].
  destruct l as [|x l]; [constructor|]. simpl.
  pose proof (IH l (descending_tail _ _ H)) as Hl.
  destruct n as [|n]; [constructor|].
  destruct l as [|y l]; [constructor|]. simpl in *.
  inversion H; subst. constructor; assumption.
Qed.

(** A page of a sorted result is sorted. *)
Lemma skipLimit_descending (skip limit : Z) (l found : list A) :
  skipLimit skip limit l = Some found -> descending key l -> descending key found.
Proof.
  unfold skipLimit. destruct (skip <? 0); [discriminate|].
  intros H Hl. injection H as <-.
  destruct (limit =? 0); [|apply descending_firstn]; apply descending_skipn; exact Hl.
Qed.

Lemma In_skipn (n : nat) (l : list A) (x : A) : In x (skipn n l) -> In x l.
Proof.
  intros H. rewrite <- (firstn_skipn n l). apply in_or_app. right. exact H.
Qed.

Lemma In_firstn (n : nat) (l : list A) (x : A) : In x (firstn n l) -> In x l.
Proof.
  intros H. rewrite <- (firstn_skipn n l). apply in_or_app. left. exact H.
Qed.

Lemma skipLimit_In (skip limit : Z) (l found : list A) (x : A) :
  skipLimit skip limit l = Some found -> In x found -> In x l.
Proof.
  unfold skipLimit. destruct (skip <? 0); [discriminate|].
  intros H. injection H as <-. intros Hx.
  destruct (limit =? 0).
  - eapply In_skipn; exact Hx.
  - apply In_firstn in Hx. eapply In_skipn; exact Hx.
Qed.


End Pipeline.

(** *** Soft deletion *)

Section SoftDelete.




(** The documents [getConversation] lists are the page of the sorted
    matches; each is listed with its [replyTo] populated from the
    collection. *)
Lemma getConversation_documents (ms : list Message) (u1 u2 : UserId) (page limit : Z) :
  option_map (map document) (MessageModel.getConversation ms u1 u2 page limit)
  = skipLimit ((page - 1) * limit) limit
      (sortDesc createdAt (filter (conversationQuery u1 u2) ms)).
Proof.
  unfold MessageModel.getConversation.
  destruct (skipLimit _ _ _) as [l|]; [|reflexivity].
  simpl. f_equal. rewrite map_map. apply map_id.
Qed.

Lemma getConversation_populated (ms : list Message) (u1 u2 : UserId) (page limit : Z)
    (found : list Populated) :
  MessageModel.getConversation ms u1 u2 page limit = Some found ->
  found = map (populateReplyTo ms) (map document found)
  /\ skipLimit ((page - 1) * limit) limit
       (sortDesc createdAt (filter (conversationQuery u1 u2) ms))
     = Some (map document found).
Proof.
  intros H. rewrite <- getConversation_documents. rewrite H. simpl.
  split; [|reflexivity].
  unfold MessageModel.getConversation in H.
  destruct (skipLimit _ _ _) as [l|]; [|discriminate].
  injection H as <-. f_equal. rewrite map_map. symmetry. apply map_id.
Qed.

(** Every message handed out by [getConversation] is one of the stored,
    non-deleted messages between the two users. *)
Lemma getConversation_sound (ms : list Message) (u1 u2 : UserId) (page limit : Z)
    (found : list Populated) (x : Populated) :
  MessageModel.getConversation ms u1 u2 page limit = Some found -> In x found ->
  In (document x) ms /\ betweenUsers u1 u2 (document x) = true
  /\ isDeleted (document x) = false
  /\ x = populateReplyTo ms (document x).
Proof.
  intros H Hx. destruct (getConversation_populated _ _ _ _ _ _ H) as [Hp Hd].
  assert (Hx' : In (document x) (map document found)) by (apply in_map; exact Hx).
  pose proof (skipLimit_In _ _ _ _ _ Hd Hx') as Hs.
  apply sortDesc_In in Hs. apply filter_In in Hs. destruct Hs as [Hin Hq].
  unfold conversationQuery in Hq. apply andb_prop in Hq. destruct Hq as [Hb Hdel].
  apply negb_true_iff in Hdel. repeat split; auto.
  rewrite Hp in Hx. apply in_map_iff in Hx. destruct Hx as [d [<- _]]. reflexivity.
Qed.





End SoftDelete.





(** *** The edit window *)

(** C5.  For a message created more than 24 hours before [now], an edit by
    its sender is answered with the status 400 and the message "Messages
    older than 24 hours cannot be edited", and nothing is written: the state,
    and with it the content, messageType and editedAt of the message, is as
    it was. *)
Theorem C5_edit_after_24h_is_rejected_without_change :
  forall (st : State) (now : Z) (me : UserId) (messageId : MessageId)
         (newContent : option jsString) (message : Message),
    findById (messages st) messageId = Some message ->
    sender message = me ->
    24 * 60 * 60 * 1000 < now - createdAt message ->
    MessageController.editMessage st now me messageId newContent
    = (st, MessageController.errorResponse 400
             "Messages older than 24 hours cannot be edited")
    /\ findById
         (messages (fst (MessageController.editMessage st now me messageId newContent)))
         messageId = Some message.
Proof.
  intros st now me messageId newContent message Hfind Hsender Hold.
  assert (E : MessageController.editMessage st now me messageId newContent
              = (st, MessageController.errorResponse 400
                       "Messages older than 24 hours cannot be edited")).
  { unfold MessageController.editMessage. rewrite Hfind, Hsender, Nat.eqb_refl. simpl negb.
    cbv iota.
    replace (createdAt message <? now - 24 * 60 * 60 * 1000) with true
      by (symmetry; apply Z.ltb_lt; lia).
    reflexivity. }
  split; [exact E | rewrite E; exact Hfind].
Qed.

Lemma C5_edit_after_24h_witness :
  MessageController.editMessage Scenario.threeMessages Scenario.twoDaysLater 1%nat 1%nat
    (Some (lit "changed"))
  = (Scenario.threeMessages,
     MessageController.errorResponse 400 "Messages older than 24 hours cannot be edited").
Proof.
  apply (C5_edit_after_24h_is_rejected_without_change
           Scenario.threeMessages Scenario.twoDaysLater 1%nat 1%nat
           (Some (lit "changed")) Scenario.hello);
    [vm_compute; reflexivity | reflexivity | vm_compute; reflexivity].
Defined.

(** *** Soft deletion, repeated *)

(** C6, as the code has it.  A second softDelete of an already deleted
    message by its sender succeeds and keeps isDeleted = true and every
    other field of the message except deletedAt and updatedAt; deletedAt is
    set again, to the time of the second call.  No other message changes. *)
Theorem C6_second_delete_sets_deletedAt_again :
  forall (st : State) (now : Z) (me : UserId) (messageId : MessageId) (m : Message),
    findById (messages st) messageId = Some m ->
    sender m = me ->
    isDeleted m = true ->
    validContent (content m) = true ->
    exists st' m',
      MessageController.deleteMessage st now me messageId
      = (st', MessageController.successResponse 200 "Message deleted successfully"
                MessageController.NoData)
      /\ findById (messages st') messageId = Some m'
      /\ isDeleted m' = true
      /\ deletedAt m' = Some now
      /\ set_updatedAt 0 (set_deletedAt None m') = set_updatedAt 0 (set_deletedAt None m)
      /\ (forall i, i <> messageId -> findById (messages st') i = findById (messages st) i).
Proof.
  intros st now me messageId m Hfind Hsender Hdel Hvalid.
  unfold MessageController.deleteMessage, save.
  rewrite Hfind, Hsender, Nat.eqb_refl. simpl negb. cbv iota.
  change (content (set_deletedAt (Some now) (set_isDeleted true m))) with (content m).
  rewrite Hvalid.
  set (g := fun m0 : Message =>
              if Message_eq_dec (set_deletedAt (Some now) (set_isDeleted true m0)) m0
              then m0
              else set_updatedAt now (set_deletedAt (Some now) (set_isDeleted true m0))).
  assert (Hg : forall x, _id (g x) = _id x).
  { intros x. unfold g. destruct (Message_eq_dec _ x); reflexivity. }
  exists (with_messages (updateOne messageId g (messages st)) st), (g m).
  split; [reflexivity|]. simpl.
  split; [rewrite findById_updateOne by exact Hg; rewrite Nat.eqb_refl, Hfind; reflexivity|].
  assert (Hfields : isDeleted (g m) = true /\ deletedAt (g m) = Some now
                    /\ set_updatedAt 0 (set_deletedAt None (g m))
                       = set_updatedAt 0 (set_deletedAt None m)).
  { unfold g. destruct (Message_eq_dec _ m) as [e|n].
    - split; [exact Hdel|]. split; [rewrite <- e; reflexivity | reflexivity].
    - split; [reflexivity|]. split; [reflexivity|].
      destruct m; simpl in *. subst. reflexivity. }
  destruct Hfields as (H1 & H2 & H3).
  repeat split; try assumption.
  intros i Hi. rewrite findById_updateOne by exact Hg.
  apply Nat.eqb_neq in Hi. rewrite Hi. reflexivity.
Qed.

Lemma C6_second_delete_witness :
  exists st' m',
    MessageController.deleteMessage Scenario.afterDelete 200 1%nat 1%nat
    = (st', MessageController.successResponse 200 "Message deleted successfully"
              MessageController.NoData)
    /\ findById (messages st') 1%nat = Some m'
    /\ isDeleted m' = true
    /\ deletedAt m' = Some 200
    /\ set_updatedAt 0 (set_deletedAt None m')
       = set_updatedAt 0 (set_deletedAt None Scenario.deletedHello)
    /\ (forall i, i <> 1%nat ->
          findById (messages st') i = findById (messages Scenario.afterDelete) i).
Proof.
  apply (C6_second_delete_sets_deletedAt_again
           Scenario.afterDelete 200 1%nat 1%nat Scenario.deletedHello);
    reflexivity.
Defined.

(** C6, as stated, fails: the message deleted at time 100 is deleted again at
    time 200; the call succeeds and the stored deletedAt is then 200, not 100. *)
Lemma C6_second_delete_changes_deletedAt :
  option_map isDeleted (findById (messages Scenario.afterDelete) 1%nat) = Some true
  /\ option_map deletedAt (findById (messages Scenario.afterDelete) 1%nat) = Some (Some 100)
  /\ snd (MessageController.deleteMessage Scenario.afterDelete 200 1%nat 1%nat)
     = MessageController.successResponse 200 "Message deleted successfully"
         MessageController.NoData
  /\ option_map deletedAt
       (findById
          (messages (fst (MessageController.deleteMessage Scenario.afterDelete 200 1%nat 1%nat)))
          1%nat)
     = Some (Some 200)
  /\ fst (MessageController.deleteMessage Scenario.afterDelete 200 1%nat 1%nat)
     <> Scenario.afterDelete.
Proof.
  split; [vm_compute; reflexivity|].
  split; [vm_compute; reflexivity|].
  split; [vm_compute; reflexivity|].
  split; [vm_compute; reflexivity|].
  intros H.
  apply (f_equal (fun st => option_map deletedAt (findById (messages st) 1%nat))) in H.
  vm_compute in H. discriminate.
Qed.

(** *** Symmetry of the conversation query *)

Lemma betweenUsers_sym (a b : UserId) (m : Message) :
  betweenUsers a b m = betweenUsers b a m.
Proof. unfold betweenUsers. apply orb_comm. Qed.

(** C7.  For all users A and B and every page and page size,
    getConversation(A, B, page, pageSize) and getConversation(B, A, page,
    pageSize) return the same sequence of messages, as the model static and
    as the list the conversation endpoint answers with. *)
Theorem C7_getConversation_is_symmetric :
  forall (st : State) (now : Z) (a b : UserId) (page limit : Z),
    MessageModel.getConversation (messages st) a b page limit
    = MessageModel.getConversation (messages st) b a page limit
    /\ (forall ua ub,
           User_findById (users st) a = Some ua ->
           User_findById (users st) b = Some ub ->
           MessageController.responseMessages
             (snd (MessageController.getConversation st now a b page limit))
           = MessageController.responseMessages
               (snd (MessageController.getConversation st now b a page limit))).
Proof.
  intros st now a b page limit.
  assert (E : MessageModel.getConversation (messages st) a b page limit
              = MessageModel.getConversation (messages st) b a page limit).
  { unfold MessageModel.getConversation. f_equal. f_equal. f_equal.
    apply filter_ext. intros m. unfold conversationQuery.
    rewrite betweenUsers_sym. reflexivity. }
  split; [exact E|].
  intros ua ub Ha Hb. unfold MessageController.getConversation.
  rewrite Ha, Hb, E.
  destruct (MessageModel.getConversation (messages st) b a page limit); reflexivity.
Qed.

Lemma C7_getConversation_witness :
  MessageModel.getConversation (messages Scenario.threeMessages) 1%nat 2%nat 1 2
  = MessageModel.getConversation (messages Scenario.threeMessages) 2%nat 1%nat 1 2
  /\ MessageController.responseMessages
       (snd (MessageController.getConversation Scenario.threeMessages 50 1%nat 2%nat 1 2))
     = MessageController.responseMessages
         (snd (MessageController.getConversation Scenario.threeMessages 50 2%nat 1%nat 1 2)).
Proof.
  destruct (C7_getConversation_is_symmetric Scenario.threeMessages 50 1%nat 2%nat 1 2)
    as [H1 H2].
  split; [exact H1 | apply (H2 Scenario.alice Scenario.bob); reflexivity].
Defined.

(** *** Search *)

Section Search.

(** What [escapeRegex] produces always compiles, to the pattern that matches
    the original string literally. *)
Lemma RegExp_new_escapeRegex (q : jsString) :
  RegExp_new (escapeRegex q) = Some (map Lit q).
Proof.
  induction q as [|c q IH]; simpl; [reflexivity|].
  destruct (isSyntaxChar c) eqn:E.
  - simpl. rewrite E, IH. reflexivity.
  - simpl.
    assert (H92 : (c =? 92) = false).
    { destruct (c =? 92) eqn:E'; [|reflexivity].
      apply Z.eqb_eq in E'. subst c. discriminate E. }
    assert (H46 : (c =? 46) = false).
    { destruct (c =? 46) eqn:E'; [|reflexivity].
      apply Z.eqb_eq in E'. subst c. discriminate E. }
    rewrite H92, H46, E, IH. reflexivity.
Qed.

(** A query without syntax characters compiles to its literal pattern as it is. *)
Lemma RegExp_new_plain (q : jsString) :
  forallb (fun c => negb (isSyntaxChar c)) q = true ->
  RegExp_new q = Some (map Lit q).
Proof.
  induction q as [|c q IH]; simpl; [reflexivity|].
  intros H. apply andb_prop in H. destruct H as [Hc Hq].
  apply negb_true_iff in Hc.
  assert (H92 : (c =? 92) = false).
  { destruct (c =? 92) eqn:E'; [|reflexivity].
    apply Z.eqb_eq in E'. subst c. discriminate Hc. }
  assert (H46 : (c =? 46) = false).
  { destruct (c =? 46) eqn:E'; [|reflexivity].
    apply Z.eqb_eq in E'. subst c. discriminate Hc. }
  rewrite H92, H46, Hc, (IH Hq). reflexivity.
Qed.

Lemma matchHere_literal (q s : jsString) : matchHere (map Lit q) s = startsWithCI q s.
Proof.
  revert s. induction q as [|a q IH]; intros s; simpl; [reflexivity|].
  destruct s as [|c s]; [reflexivity|]. simpl. rewrite IH. reflexivity.
Qed.

(** A literal pattern tests case-insensitive containment. *)
Lemma RegExp_test_literal (q s : jsString) : RegExp_test (map Lit q) s = includesCI q s.
Proof.
  induction s as [|c s IH]; simpl.
  - rewrite matchHere_literal. reflexivity.
  - rewrite matchHere_literal, IH. reflexivity.
Qed.

(** For a query of at least two characters after trimming that has no syntax
    character, the search answers with the non-deleted messages of the pair
    that contain the trimmed query, case-insensitively, newest first. *)
Lemma searchMessages_plain_query (st : State) (me userId : UserId) (query : jsString)
    (page limit : Z) (u : User) :
  2 <= jsLength (trim query) ->
  forallb (fun c => negb (isSyntaxChar c)) (trim query) = true ->
  User_findById (users st) userId = Some u ->
  0 <= (page - 1) * limit ->
  exists found,
    MessageController.searchMessages st me userId query page limit
    = Some (MessageController.successResponse 200 "Message search completed"
              (MessageController.SearchData found
                 (List.length
                    (filter (fun m => betweenUsers me userId m
                                      && includesCI (trim query) (content m)
                                      && negb (isDeleted m)) (messages st)))
                 query))
    /\ skipLimit ((page - 1) * limit) limit
         (sortDesc createdAt
            (filter (fun m => betweenUsers me userId m
                              && includesCI (trim query) (content m)
                              && negb (isDeleted m)) (messages st)))
       = Some found.
Proof.
  intros Hlen Hplain Hu Hskip.
  unfold MessageController.searchMessages, paginate.
  assert (Hq : match query with [] => true | _ :: _ => false end = false).
  { destruct query; [|reflexivity]. vm_compute in Hlen. exfalso. apply Hlen. reflexivity. }
  rewrite Hq.
  replace (jsLength (trim query) <? 2) with false by (symmetry; apply Z.ltb_ge; lia).
  simpl orb. cbv iota.
  rewrite Hu, (RegExp_new_plain _ Hplain).
  assert (Ef : forall ms,
             filter (MessageController.searchQuery me userId
                       (RegExp_test (map Lit (trim query)))) ms
             = filter (fun m => betweenUsers me userId m
                                && includesCI (trim query) (content m)
                                && negb (isDeleted m)) ms).
  { intros ms. apply filter_ext. intros m. unfold MessageController.searchQuery.
    rewrite RegExp_test_literal. reflexivity. }
  unfold countDocuments. rewrite !Ef.
  unfold skipLimit.
  replace ((page - 1) * limit <? 0) with false by (symmetry; apply Z.ltb_ge; lia).
  eexists. split; reflexivity.
Qed.

(** The page the search (or [getConversation]) takes from the sorted matches
    is ordered newest first. *)
Lemma page_is_newest_first (skip limit : Z) (matches found : list Message) :
  skipLimit skip limit (sortDesc createdAt matches) = Some found ->
  descending createdAt found.
Proof.
  intros H. eapply skipLimit_descending; [exact H | apply sortDesc_descending].
Qed.

(** A query shorter than two characters after trimming is refused. *)
Lemma searchMessages_short_query (st : State) (me userId : UserId) (query : jsString)
    (page limit : Z) :
  jsLength (trim query) < 2 ->
  MessageController.searchMessages st me userId query page limit
  = Some (MessageController.errorResponse 400
            "Search query must be at least 2 characters long").
Proof.
  intros H. unfold MessageController.searchMessages, paginate.
  replace (jsLength (trim query) <? 2) with true by (symmetry; apply Z.ltb_lt; lia).
  rewrite orb_true_r. reflexivity.
Qed.

(** What the search answers on the fragment is what it answers with every
    engine that compiles the query as the fragment does. *)
Lemma searchMessages_with_engine (RegExp : jsString -> Compiled) (st : State)
    (me userId : UserId) (query : jsString) (page limit : Z)
    (r : MessageController.Response) :
  (forall p, RegExp_new (trim query) = Some p ->
             RegExp (trim query) = Tests (RegExp_test p)) ->
  MessageController.searchMessages st me userId query page limit = Some r ->
  MessageController.searchMessagesWith RegExp st me userId query page limit = r.
Proof.
  intros Hre. unfold MessageController.searchMessages, MessageController.searchMessagesWith.
  destruct (paginate page limit) as [skip limitNum].
  destruct (_ || _); [intros H; injection H as <-; reflexivity|].
  destruct (User_findById _ _); [|intros H; injection H as <-; reflexivity].
  destruct (RegExp_new (trim query)) as [p|] eqn:E; [|discriminate].
  rewrite (Hre p eq_refl).
  destruct (skipLimit _ _ _); intros H; injection H as <-; reflexivity.
Qed.

End Search.

(** C8.  The search is meant to return the messages that contain the trimmed
    query as a literal substring, also when the query has regular-expression
    metacharacters.  [searchMessages] hands the trimmed query to [RegExp]
    without [escapeRegex] (the user search escapes it): the query "a.c" is
    not contained in "abc", yet the search returns the message "abc"; the
    escaped query does not match it. *)
Theorem C8_search_takes_the_query_as_a_pattern :
  includesCI (lit "a.c") (lit "abc") = false
  /\ MessageController.searchMessages Scenario.abcSent 1%nat 2%nat (lit "a.c") 1 20
     = Some (MessageController.successResponse 200 "Message search completed"
               (MessageController.SearchData [Scenario.abc] 1 (lit "a.c")))
  /\ option_map (fun re => RegExp_test re (content Scenario.abc))
       (RegExp_new (escapeRegex (trim (lit "a.c")))) = Some false.
Proof. repeat split; vm_compute; reflexivity. Qed.

(** *** The store keeps contents valid and trimmed *)

Section WellFormed.
Import Server.

Lemma Forall_updateOne (P : Message -> Prop) (i : MessageId) (f : Message -> Message)
    (ms : list Message) :
  Forall P ms ->
  (forall m, findById ms i = Some m -> P m -> P (f m)) ->
  Forall P (updateOne i f ms).
Proof.
  induction 1 as [|x ms Hx Hms IH]; simpl; intros Hf; [constructor|].
  unfold findById in Hf. simpl in Hf.
  destruct (Nat.eqb (_id x) i).
  - constructor; [apply Hf; [reflexivity | exact Hx] | exact Hms].
  - constructor; [exact Hx | apply IH; exact Hf].
Qed.

Lemma Forall_updateMany (P : Message -> Prop) q upd now (ms : list Message) :
  Forall P ms ->
  (forall m, P m -> P (set_updatedAt now (upd m))) ->
  Forall P (updateMany q upd now ms).
Proof.
  intros H Hu. unfold updateMany. apply Forall_map.
  eapply Forall_impl; [|exact H]. intros m Hm. simpl.
  destruct (q m); [apply Hu; exact Hm | exact Hm].
Qed.

Lemma wellFormed_create (st : State) (now : Z) (d : NewMessage) :
  wellFormed st -> wellFormed (fst (create st now d)).
Proof.
  intros [Hm Ht]. unfold create.
  destruct (validContent (trim (new_content d))) eqn:E; simpl; [|split; assumption].
  assert (Hnew : forall i s ty st0 rp,
            wellStored {| _id := i; sender := s; receiver := new_receiver d;
                          content := trim (new_content d); messageType := ty;
                          status := st0; deliveredAt := None; readAt := None;
                          editedAt := None; isDeleted := false; deletedAt := None;
                          replyTo := rp; createdAt := now; updatedAt := now |}).
  { intros. split; simpl; [exact E | apply trim_idem]. }
  split; simpl.
  - apply Forall_app. split; [exact Hm | constructor; [apply Hnew | constructor]].
  - unfold preSave. simpl.
    destruct (Status_eqb _ sent); [|exact Ht].
    apply Forall_app. split; [exact Ht | constructor; [apply Hnew | constructor]].
Qed.

Lemma wellFormed_markAsRead (st : State) (now : Z) (s r : UserId) :
  wellFormed st -> wellFormed (MessageModel.markAsRead st now s r).
Proof.
  intros [Hm Ht]. split; simpl; [|exact Ht].
  apply Forall_updateMany; [exact Hm | intros m H; exact H].
Qed.

Lemma wellFormed_markAsDelivered (st : State) (now : Z) (s r : UserId) :
  wellFormed st -> wellFormed (markAsDelivered st now s r).
Proof.
  intros [Hm Ht]. split; simpl; [|exact Ht].
  apply Forall_updateMany; [exact Hm | intros m H; exact H].
Qed.

Lemma wellStored_save (upd : Message -> Message) (now : Z) (i : MessageId)
    (ms ms' : list Message) :
  (forall m, trim (content (upd m)) = content (upd m) \/ content (upd m) = content m) ->
  save upd now i ms = Some ms' -> Forall wellStored ms -> Forall wellStored ms'.
Proof.
  intros Hupd. unfold save.
  destruct (findById ms i) as [m0|] eqn:E; [|intros H; injection H as <-; trivial].
  destruct (validContent (content (upd m0))) eqn:V; [|discriminate].
  intros H Hms. injection H as <-.
  apply Forall_updateOne; [exact Hms|].
  intros m Hm Hw. rewrite E in Hm. injection Hm as <-.
  destruct (Message_eq_dec (upd m0) m0); [exact Hw|].
  split; simpl; [exact V|].
  destruct (Hupd m0) as [H|H]; [exact H | rewrite H; apply Hw].
Qed.

Lemma wellFormed_fireTimer (st : State) (now : Z) (k : nat) :
  wellFormed st -> wellFormed (fireTimer st now k).
Proof.
  intros [Hm Ht]. unfold fireTimer.
  destruct (nth_error (timers st) k) as [t|]; [|split; assumption].
  destruct (dueAt t <=? now); [|split; assumption].
  split; simpl.
  - unfold timerCallback. destruct (Status_eqb (status (doc t)) sent); [|exact Hm].
    apply Forall_updateOne; [exact Hm | intros m _ H; exact H].
  - apply Forall_app. split.
    + rewrite <- (firstn_skipn k (timers st)) in Ht. apply Forall_app in Ht. tauto.
    + rewrite <- (firstn_skipn (S k) (timers st)) in Ht. apply Forall_app in Ht. tauto.
Qed.

(** Every event keeps the stored contents valid and trimmed. *)
Lemma step_wellFormed (st : State) (now : Z) (e : Event) :
  wellFormed st -> wellFormed (step st now e).
Proof.
  intros Hw.
  destruct e as [me body | me userId page limit | me senderId | me messageId
                | me messageId body | me messageId receiverId | me receiverId
                | me receiverId body mt rt | me senderId | k]; simpl.
  - unfold MessageController.sendMessage.
    destruct (User_findById _ _); [|exact Hw].
    match goal with |- context [create st now ?d] =>
      pose proof (wellFormed_create st now d Hw) as H;
      destruct (create st now d) as [st' [x|]] end; simpl in *; [exact H | exact Hw].
  - unfold MessageController.getConversation.
    destruct (User_findById _ _); [|exact Hw].
    destruct (MessageModel.getConversation _ _ _ _ _); [|exact Hw].
    apply wellFormed_markAsRead, Hw.
  - unfold MessageController.markAsRead.
    destruct (User_findById _ _); [|exact Hw].
    apply wellFormed_markAsRead, Hw.
  - unfold MessageController.deleteMessage.
    destruct (findById _ _); [|exact Hw].
    destruct (negb _); [exact Hw|].
    destruct (save _ _ _ _) eqn:E; [|exact Hw].
    destruct Hw as [Hm Ht]. split; simpl; [|exact Ht].
    eapply wellStored_save; [|exact E|exact Hm]. intros x. right. reflexivity.
  - unfold MessageController.editMessage.
    destruct (findById _ _); [|exact Hw].
    destruct (negb _); [exact Hw|].
    destruct (_ <? _); [exact Hw|].
    destruct body as [c|]; [|exact Hw].
    destruct (save _ _ _ _) eqn:E; [|exact Hw].
    destruct Hw as [Hm Ht]. split; simpl; [|exact Ht].
    eapply wellStored_save; [|exact E|exact Hm]. intros x. left. simpl. apply trim_idem.
  - unfold MessageController.forwardMessage.
    destruct (findById _ _); [|exact Hw].
    destruct (negb _); [exact Hw|].
    destruct (User_findById _ _); [|exact Hw].
    match goal with |- context [create st now ?d] =>
      pose proof (wellFormed_create st now d Hw) as H;
      destruct (create st now d) as [st' [x|]] end; simpl in *; [exact H | exact Hw].
  - apply wellFormed_markAsDelivered, Hw.
  - unfold socketSendMessage.
    destruct (trim body); [exact Hw|].
    destruct (_ <? _); [exact Hw|].
    destruct (User_findById _ _); [|exact Hw].
    apply wellFormed_create, Hw.
  - apply wellFormed_markAsRead, Hw.
  - apply wellFormed_fireTimer, Hw.
Qed.

(** Whatever happens to a store that starts without messages, every content
    it holds is valid and trimmed. *)
Lemma run_wellFormed (trace : list (Z * Event)) : forall st,
  wellFormed st -> wellFormed (run st trace).
Proof.
  induction trace as [|[now e] trace IH]; intros st Hw; simpl; [exact Hw|].
  apply IH, step_wellFormed, Hw.
Qed.

Lemma wellFormed_In (st : State) (i : MessageId) (m : Message) :
  wellFormed st -> findById (messages st) i = Some m -> wellStored m.
Proof.
  intros [Hm _] H. apply findById_In in H.
  rewrite Forall_forall in Hm. apply Hm, H.
Qed.

End WellFormed.

(** *** Forwarding *)

Section Forward.
Import Server.

Variables (st : State) (now : Z) (me : UserId) (messageId : MessageId)
          (receiverId : UserId) (m : Message) (r : User).

Hypothesis Hfind : findById (messages st) messageId = Some m.
Hypothesis Haccess : sender m = me \/ receiver m = me.
Hypothesis Hreceiver : User_findById (users st) receiverId = Some r.
Hypothesis Hstored : wellStored m.

(** Forwarding a stored message to an existing user appends one document and
    sets its delivery timer; nothing else is written. *)
Lemma forwardMessage_creates :
  exists f,
    MessageController.forwardMessage st now me messageId receiverId
    = ({| messages := messages st ++ [f];
          users := users st;
          timers := timers st ++ [ {| dueAt := now + 1000; doc := f |} ] |},
       MessageController.successResponse 201 "Message forwarded successfully"
         (MessageController.MessageData f))
    /\ f = {| _id := freshId (messages st); sender := me; receiver := receiverId;
              content := content m; messageType := messageType m; status := sent;
              deliveredAt := None; readAt := None; editedAt := None;
              isDeleted := false; deletedAt := None; replyTo := None;
              createdAt := now; updatedAt := now |}.
Proof.
  destruct Hstored as [Hvalid Htrim].
  eexists. split; [|reflexivity].
  unfold MessageController.forwardMessage. rewrite Hfind.
  assert (Hacc : Nat.eqb (sender m) me || Nat.eqb (receiver m) me = true).
  { destruct Haccess as [<-|<-]; rewrite Nat.eqb_refl; [reflexivity | apply orb_true_r]. }
  rewrite Hacc. simpl negb. cbv iota. rewrite Hreceiver.
  unfold create. simpl new_content. rewrite Htrim, Hvalid. reflexivity.
Qed.

End Forward.

(** C9.  Forwarding an existing message m that the requester sent or
    received, to an existing receiver, succeeds and creates a new message
    whose content and messageType are those of m, with a fresh id (different
    from the id of m and of every stored message), the forwarder as sender,
    and status sent.  The stored messages, m among them, are unchanged: the
    collection after the call is the collection before it followed by the new
    message. *)
Theorem C9_forward_copies_the_message_and_leaves_the_original :
  forall (st : State) (now : Z) (me : UserId) (messageId : MessageId)
         (receiverId : UserId) (m : Message) (r : User),
    findById (messages st) messageId = Some m ->
    sender m = me \/ receiver m = me ->
    User_findById (users st) receiverId = Some r ->
    Server.wellStored m ->
    exists st' f,
      MessageController.forwardMessage st now me messageId receiverId
      = (st', MessageController.successResponse 201 "Message forwarded successfully"
                (MessageController.MessageData f))
      /\ content f = content m
      /\ messageType f = messageType m
      /\ _id f <> _id m
      /\ findById (messages st) (_id f) = None
      /\ sender f = me
      /\ receiver f = receiverId
      /\ status f = sent
      /\ messages st' = messages st ++ [f]
      /\ findById (messages st') messageId = Some m
      /\ findById (messages st') (_id f) = Some f.
Proof.
  intros st now me messageId receiverId m r Hfind Hacc Hrecv Hstored.
  destruct (forwardMessage_creates st now me messageId receiverId m r
              Hfind Hacc Hrecv Hstored) as [f [Hrun Hf]].
  eexists. exists f. split; [exact Hrun|]. simpl.
  assert (Hid : _id f = freshId (messages st)) by (rewrite Hf; reflexivity).
  assert (Hfresh : findById (messages st) (_id f) = None)
    by (rewrite Hid; apply findById_fresh).
  repeat split; try (rewrite Hf; reflexivity).
  - intros E. rewrite E, (findById_id _ _ _ Hfind) in Hfresh. congruence.
  - exact Hfresh.
  - apply findById_app_some. exact Hfind.
  - rewrite findById_app_none by exact Hfresh.
    unfold findById. simpl. rewrite Nat.eqb_refl. reflexivity.
Qed.

Lemma C9_forward_witness :
  exists st' f,
    MessageController.forwardMessage Scenario.threeMessages 50 2%nat 1%nat 3%nat
    = (st', MessageController.successResponse 201 "Message forwarded successfully"
              (MessageController.MessageData f))
    /\ content f = content Scenario.hello
    /\ messageType f = messageType Scenario.hello
    /\ _id f <> _id Scenario.hello
    /\ findById (messages Scenario.threeMessages) (_id f) = None
    /\ sender f = 2%nat
    /\ receiver f = 3%nat
    /\ status f = sent
    /\ messages st' = messages Scenario.threeMessages ++ [f]
    /\ findById (messages st') 1%nat = Some Scenario.hello
    /\ findById (messages st') (_id f) = Some f.
Proof.
  apply (C9_forward_copies_the_message_and_leaves_the_original
           Scenario.threeMessages 50 2%nat 1%nat 3%nat Scenario.hello Scenario.carol).
  - vm_compute. reflexivity.
  - right. reflexivity.
  - reflexivity.
  - split; vm_compute; reflexivity.
Defined.

(** C10.  Forwarding does not look at the soft-delete flag: for a message m
    with isDeleted = true that the requester sent or received, forwardMessage
    to an existing receiver succeeds (status 201, neither 404 nor 403) and
    stores a new message that is not deleted and has the content of m; the
    new message is listed by getConversation between the forwarder and the
    receiver (on the first page, for a page size that takes the whole
    conversation in). *)
Theorem C10_forward_does_not_check_the_delete_flag :
  forall (st : State) (now : Z) (me : UserId) (messageId : MessageId)
         (receiverId : UserId) (m : Message) (r : User),
    findById (messages st) messageId = Some m ->
    isDeleted m = true ->
    sender m = me \/ receiver m = me ->
    User_findById (users st) receiverId = Some r ->
    Server.wellStored m ->
    exists st' f,
      MessageController.forwardMessage st now me messageId receiverId
      = (st', MessageController.successResponse 201 "Message forwarded successfully"
                (MessageController.MessageData f))
      /\ isDeleted f = false
      /\ content f = content m
      /\ In f (messages st')
      /\ (forall limit,
             Z.of_nat (List.length (messages st')) <= limit ->
             exists found,
               MessageModel.getConversation (messages st') me receiverId 1 limit = Some found
               /\ In {| document := f; populated_replyTo := None |} found).
Proof.
  intros st now me messageId receiverId m r Hfind Hdel Hacc Hrecv Hstored.
  destruct (forwardMessage_creates st now me messageId receiverId m r
              Hfind Hacc Hrecv Hstored) as [f [Hrun Hf]].
  eexists. exists f. split; [exact Hrun|]. simpl.
  assert (Hin : In f (messages st ++ [f])) by (apply in_or_app; right; left; reflexivity).
  split; [rewrite Hf; reflexivity|].
  split; [rewrite Hf; reflexivity|].
  split; [exact Hin|].
  intros limit Hlimit.
  unfold MessageModel.getConversation, skipLimit.
  replace ((1 - 1) * limit) with 0 by lia. simpl (0 <? 0). cbv iota.
  rewrite length_app in Hlimit. simpl in Hlimit.
  replace (limit =? 0) with false by (symmetry; apply Z.eqb_neq; lia).
  eexists. split; [reflexivity|].
  apply in_map_iff. exists f. split.
  { assert (Hr : replyTo f = None) by (rewrite Hf; reflexivity).
    unfold populateReplyTo. rewrite Hr. reflexivity. }
  simpl skipn. rewrite firstn_all2.
  - apply sortDesc_In. apply filter_In. split; [exact Hin|].
    rewrite Hf. unfold conversationQuery, betweenUsers. simpl.
    rewrite !Nat.eqb_refl. reflexivity.
  - rewrite sortDesc_length.
    pose proof (filter_length_le (conversationQuery me receiverId) (messages st ++ [f])) as Hle.
    rewrite length_app in Hle. simpl in Hle. lia.
Qed.

Lemma C10_forward_deleted_witness :
  exists st' f,
    MessageController.forwardMessage Scenario.afterDelete 150 2%nat 1%nat 3%nat
    = (st', MessageController.successResponse 201 "Message forwarded successfully"
              (MessageController.MessageData f))
    /\ isDeleted f = false
    /\ content f = content Scenario.deletedHello
    /\ In f (messages st')
    /\ (forall limit,
           Z.of_nat (List.length (messages st')) <= limit ->
           exists found,
             MessageModel.getConversation (messages st') 2%nat 3%nat 1 limit = Some found
             /\ In {| document := f; populated_replyTo := None |} found).
Proof.
  apply (C10_forward_does_not_check_the_delete_flag
           Scenario.afterDelete 150 2%nat 1%nat 3%nat Scenario.deletedHello Scenario.carol).
  - vm_compute. reflexivity.
  - reflexivity.
  - right. reflexivity.
  - reflexivity.
  - split; vm_compute; reflexivity.
Defined.


(* ================================================================== *)
(** ** Further properties of the message store *)
(* ================================================================== *)

(** *** Status, content and queries *)

(** X1.  As long as no creation timer fires, no request and no socket event
    lowers the status of a stored message: along any such run every stored
    message stays stored and its status only moves along sent, delivered,
    read. *)
Theorem X1_status_only_advances_between_timers :
  forall (trace : list (Z * Server.Event)) (st : State) (i : MessageId) (m : Message),
    Forall (fun te => Server.isTimer (snd te) = false) trace ->
    findById (messages st) i = Some m ->
    exists m',
      findById (messages (Server.run st trace)) i = Some m'
      /\ (Server.rank (status m) <= Server.rank (status m'))%nat.
Proof.
  intros trace st i m Hall Hfind.
  exact (run_noRegress_without_timers trace st Hall i m Hfind).
Qed.

Lemma X1_status_only_advances_witness :
  exists m',
    findById (messages (Server.run Scenario.threeMessages
                          [(50, Server.GetConversation 2%nat 1%nat 1 50);
                           (60, Server.SocketJoinConversation 2%nat 1%nat)])) 1%nat
    = Some m'
    /\ (Server.rank (status Scenario.hello) <= Server.rank (status m'))%nat.
Proof.
  apply (X1_status_only_advances_between_timers
           [(50, Server.GetConversation 2%nat 1%nat 1 50);
            (60, Server.SocketJoinConversation 2%nat 1%nat)]
           Scenario.threeMessages 1%nat Scenario.hello).
  - repeat constructor.
  - vm_compute. reflexivity.
Defined.

(** X2.  Whatever requests, socket events and timers follow, a store whose
    contents passed the schema keeps it so: every stored content is not
    empty, has at most 1000 code units and is trimmed. *)
Theorem X2_stored_content_stays_valid_and_trimmed :
  forall (trace : list (Z * Server.Event)) (st : State) (m : Message),
    Server.wellFormed st ->
    In m (messages (Server.run st trace)) ->
    content m <> []
    /\ jsLength (content m) <= 1000
    /\ trim (content m) = content m.
Proof.
  intros trace st m Hw Hin.
  destruct (run_wellFormed trace st Hw) as [Hm _].
  rewrite Forall_forall in Hm. destruct (Hm m Hin) as [Hv Ht].
  unfold validContent in Hv. destruct (content m) as [|c cs] eqn:E; [discriminate|].
  split; [discriminate|]. split; [apply Z.leb_le; exact Hv | exact Ht].
Qed.

Lemma X2_stored_content_witness :
  content Scenario.helloBack <> []
  /\ jsLength (content Scenario.helloBack) <= 1000
  /\ trim (content Scenario.helloBack) = content Scenario.helloBack.
Proof.
  apply (X2_stored_content_stays_valid_and_trimmed
           [ (0, Server.PostMessage 1%nat (Scenario.plain 2%nat "Hello from user1"));
             (10, Server.PostMessage 2%nat (Scenario.plain 1%nat "Hello back from user2")) ]
           Scenario.empty Scenario.helloBack).
  - split; constructor.
  - vm_compute. right. left. reflexivity.
Defined.

(** X3.  A pattern built from [escapeRegex(q)] always compiles, and testing a
    string with it is testing whether the string contains q itself, case
    insensitively: no character of q acts as a metacharacter. *)
Theorem X3_escapeRegex_makes_the_pattern_literal :
  forall (q s : jsString),
    option_map (fun re => RegExp_test re s) (RegExp_new (escapeRegex q))
    = Some (includesCI q s).
Proof.
  intros q s. rewrite RegExp_new_escapeRegex. simpl.
  rewrite RegExp_test_literal. reflexivity.
Qed.

(** X4.  The search around its pattern.  For every pattern a query compiles
    to: when the trimmed query has at least two characters, the peer exists,
    and the page number and the limit are at least 1 with a product within
    the safe integers, the search answers 200 with the number of all stored,
    non-deleted messages between the two users that the pattern matches and
    with the page of these messages, the positions (page - 1) * limit to
    page * limit - 1 of their newest-first order.  So every message of the
    page is such a message, the page is ordered newest first, and the first
    page holds every match when the limit takes them all in. *)
Theorem X4_search_answers_the_page_of_the_matches :
  forall (RegExp : jsString -> Compiled) (test : jsString -> bool) (st : State)
         (me userId : UserId) (query : jsString) (page limit : Z) (u : User),
    2 <= jsLength (trim query) ->
    User_findById (users st) userId = Some u ->
    RegExp (trim query) = Tests test ->
    1 <= page -> 1 <= limit -> page * limit <= MAX_SAFE_INTEGER ->
    let matches :=
      filter (fun m => betweenUsers me userId m && test (content m) && negb (isDeleted m))
             (messages st) in
    exists found,
      MessageController.searchMessagesWith RegExp st me userId query page limit
      = MessageController.successResponse 200 "Message search completed"
          (MessageController.SearchData found (List.length matches) query)
      /\ found = firstn (Z.to_nat limit)
                   (skipn (Z.to_nat ((page - 1) * limit)) (sortDesc createdAt matches))
      /\ (forall m, In m found ->
            In m (messages st) /\ betweenUsers me userId m = true
            /\ test (content m) = true /\ isDeleted m = false)
      /\ descending createdAt found
      /\ (page = 1 -> Z.of_nat (List.length matches) <= limit -> Permutation matches found).
Proof.
  intros RegExp test st me userId query page limit u Hlen Hu Hre Hp Hl Hsafe matches.
  assert (Hpage : skipLimit ((page - 1) * limit) limit (sortDesc createdAt matches)
                  = Some (firstn (Z.to_nat limit)
                            (skipn (Z.to_nat ((page - 1) * limit))
                               (sortDesc createdAt matches)))).
  { unfold skipLimit.
    replace ((page - 1) * limit <? 0) with false by (symmetry; apply Z.ltb_ge; nia).
    replace (limit =? 0) with false by (symmetry; apply Z.eqb_neq; lia).
    rewrite Z.abs_eq by lia. reflexivity. }
  eexists. split; [|split; [reflexivity|]].
  - unfold MessageController.searchMessagesWith, paginate.
    assert (Hq : match query with [] => true | _ :: _ => false end = false).
    { destruct query; [|reflexivity]. vm_compute in Hlen. exfalso. apply Hlen. reflexivity. }
    rewrite Hq.
    replace (jsLength (trim query) <? 2) with false by (symmetry; apply Z.ltb_ge; lia).
    simpl orb. cbv iota. rewrite Hu, Hre.
    change (filter (MessageController.searchQuery me userId test) (messages st))
      with matches.
    rewrite Hpage. reflexivity.
  - split; [|split].
    + intros m Hin. pose proof (skipLimit_In _ _ _ _ _ Hpage Hin) as Hs.
      apply sortDesc_In in Hs. apply filter_In in Hs. destruct Hs as [Hm Hq].
      apply andb_prop in Hq. destruct Hq as [Hq Hd]. apply andb_prop in Hq.
      destruct Hq as [Hb Hi]. apply negb_true_iff in Hd. auto.
    + eapply page_is_newest_first. exact Hpage.
    + intros -> Hall. simpl skipn. rewrite firstn_all2.
      * apply sortDesc_perm.
      * rewrite sortDesc_length. lia.
Qed.

Lemma X4_search_page_witness :
  exists found,
    MessageController.searchMessagesWith (fun source => Tests (includesCI source))
      Scenario.threeMessages 1%nat 2%nat (lit " hello ") 1 20
    = MessageController.successResponse 200 "Message search completed"
        (MessageController.SearchData found 2 (lit " hello "))
    /\ found = [Scenario.helloBack; Scenario.hello].
Proof.
  destruct (X4_search_answers_the_page_of_the_matches
              (fun source => Tests (includesCI source)) (includesCI (trim (lit " hello ")))
              Scenario.threeMessages 1%nat 2%nat (lit " hello ") 1 20 Scenario.bob)
    as [found [Hrun [Hfound _]]].
  - vm_compute. discriminate.
  - reflexivity.
  - reflexivity.
  - lia.
  - lia.
  - vm_compute. discriminate.
  - exists found. split; [exact Hrun | rewrite Hfound; vm_compute; reflexivity].
Defined.

(** *** Pages *)

Section Pages.

Context {A : Type}.

Lemma firstn_add (a b : nat) (l : list A) :
  firstn (a + b) l = firstn a l ++ firstn b (skipn a l).
Proof.
  revert l. induction a as [|a IH]; intros l; simpl; [reflexivity|].
  destruct l as [|x l]; simpl.
  - rewrite firstn_nil. reflexivity.
  - rewrite IH. reflexivity.
Qed.

Lemma concat_pages (size n : nat) (l : list A) :
  List.concat (map (fun p => firstn size (skipn ((p - 1) * size) l)) (seq 1 n))
  = firstn (n * size) l.
Proof.
  induction n as [|n IH]; [reflexivity|].
  rewrite seq_S, map_app, concat_app, IH.
  cbn [map List.concat]. rewrite app_nil_r.
  replace ((1 + n - 1) * size)%nat with (n * size)%nat by (f_equal; lia).
  replace (S n * size)%nat with (n * size + size)%nat by lia.
  symmetry. apply firstn_add.
Qed.

Lemma page_nonempty (size k : nat) (l : list A) :
  (0 < size)%nat ->
  (firstn size (skipn k l) <> [] <-> (k < List.length l)%nat).
Proof.
  intros Hs. rewrite <- length_zero_iff_nil, length_firstn, length_skipn. lia.
Qed.

(** A page with a positive size, at a page number from 1 on. *)
Lemma skipLimit_page (page limit : Z) (l : list A) :
  0 < limit -> 1 <= page ->
  skipLimit ((page - 1) * limit) limit l
  = Some (firstn (Z.to_nat limit) (skipn ((Z.to_nat page - 1) * Z.to_nat limit) l)).
Proof.
  intros Hl Hp. unfold skipLimit.
  replace ((page - 1) * limit <? 0) with false by (symmetry; apply Z.ltb_ge; nia).
  replace (limit =? 0) with false by (symmetry; apply Z.eqb_neq; lia).
  rewrite Z.abs_eq by lia.
  replace (Z.to_nat ((page - 1) * limit))
    with ((Z.to_nat page - 1) * Z.to_nat limit)%nat; [reflexivity|].
  rewrite Z2Nat.inj_mul by lia. rewrite Z2Nat.inj_sub by lia. reflexivity.
Qed.

End Pages.

Lemma descending_map {A B : Type} (key : B -> Z) (f : A -> B) (l : list A) :
  descending key (map f l) -> descending (fun x => key (f x)) l.
Proof.
  induction l as [|x [|y l] IH]; simpl; intros H; try constructor.
  - inversion H; subst. assumption.
  - apply IH. inversion H; subst. assumption.
Qed.

(** X6.  Every message [getConversation] hands out is a stored, non-deleted
    message between the two users; the page is ordered newest first; and
    with a limit other than 0 it holds at most |limit| messages. *)
Theorem X6_getConversation_page_is_sound_sorted_and_bounded :
  forall (ms : list Message) (u1 u2 : UserId) (page limit : Z) (found : list Populated),
    MessageModel.getConversation ms u1 u2 page limit = Some found ->
    (forall x, In x found ->
       In (document x) ms /\ betweenUsers u1 u2 (document x) = true
       /\ isDeleted (document x) = false)
    /\ descending (fun x => createdAt (document x)) found
    /\ (limit <> 0 -> Z.of_nat (List.length found) <= Z.abs limit).
Proof.
  intros ms u1 u2 page limit found H.
  destruct (getConversation_populated _ _ _ _ _ _ H) as [_ Hd].
  split; [|split].
  - intros x Hx. destruct (getConversation_sound _ _ _ _ _ _ _ H Hx) as (H1 & H2 & H3 & _).
    auto.
  - apply descending_map. eapply page_is_newest_first. exact Hd.
  - intros Hl. unfold skipLimit in Hd.
    destruct (_ <? 0); [discriminate|]. injection Hd as Hd.
    replace (limit =? 0) with false in Hd by (symmetry; apply Z.eqb_neq; exact Hl).
    pose proof (firstn_le_length (Z.to_nat (Z.abs limit))
                  (skipn (Z.to_nat ((page - 1) * limit))
                     (sortDesc createdAt (filter (conversationQuery u1 u2) ms)))) as Hle.
    rewrite Hd, length_map in Hle. lia.
Qed.

Lemma X6_getConversation_page_witness :
  (forall x, In x (map Scenario.listed [Scenario.howAreYou; Scenario.helloBack]) ->
     In (document x) (messages Scenario.afterDelete)
     /\ betweenUsers 1%nat 2%nat (document x) = true
     /\ isDeleted (document x) = false)
  /\ descending (fun x => createdAt (document x))
       (map Scenario.listed [Scenario.howAreYou; Scenario.helloBack])
  /\ (50 <> 0 ->
      Z.of_nat (List.length (map Scenario.listed [Scenario.howAreYou; Scenario.helloBack]))
      <= Z.abs 50).
Proof.
  apply (X6_getConversation_page_is_sound_sorted_and_bounded
           (messages Scenario.afterDelete) 1%nat 2%nat 1 50).
  vm_compute. reflexivity.
Defined.

(** X7.  With a positive page size, the pages 1, 2, ..., n of a conversation
    are all answered, and put one after the other they are exactly the first
    n * size messages of the conversation in newest-first order: no message
    is skipped and none comes twice.  When n * size reaches the number of
    messages, the pages together are the whole conversation. *)
Theorem X7_pages_of_a_conversation_tile_it :
  forall (ms : list Message) (u1 u2 : UserId) (limit : Z) (n : nat),
    0 < limit ->
    let sorted := sortDesc createdAt (filter (conversationQuery u1 u2) ms) in
    exists pages,
      map (fun p => MessageModel.getConversation ms u1 u2 (Z.of_nat p) limit) (seq 1 n)
      = map Some pages
      /\ List.concat pages
         = map (populateReplyTo ms) (firstn (n * Z.to_nat limit) sorted)
      /\ (Z.of_nat (List.length sorted) <= Z.of_nat n * limit ->
          List.concat pages = map (populateReplyTo ms) sorted).
Proof.
  intros ms u1 u2 limit n Hl sorted.
  exists (map (map (populateReplyTo ms))
            (map (fun p => firstn (Z.to_nat limit)
                             (skipn ((p - 1) * Z.to_nat limit) sorted)) (seq 1 n))).
  split; [|split].
  - rewrite !map_map. apply map_ext_in. intros p Hp. apply in_seq in Hp.
    unfold MessageModel.getConversation. fold sorted.
    rewrite skipLimit_page by lia. rewrite Nat2Z.id. reflexivity.
  - rewrite <- concat_map. rewrite concat_pages. reflexivity.
  - intros Hall. rewrite <- concat_map. rewrite concat_pages.
    rewrite firstn_all2 by nia. reflexivity.
Qed.

Lemma X7_pages_witness :
  exists pages,
    map (fun p => MessageModel.getConversation (messages Scenario.threeMessages)
                    1%nat 2%nat (Z.of_nat p) 2) (seq 1 2)
    = map Some pages
    /\ List.concat pages
       = map (populateReplyTo (messages Scenario.threeMessages))
           (firstn (2 * Z.to_nat 2)
              (sortDesc createdAt
                 (filter (conversationQuery 1%nat 2%nat) (messages Scenario.threeMessages))))
    /\ (Z.of_nat (List.length
                    (sortDesc createdAt
                       (filter (conversationQuery 1%nat 2%nat)
                               (messages Scenario.threeMessages))))
        <= Z.of_nat 2 * 2 ->
        List.concat pages
        = map (populateReplyTo (messages Scenario.threeMessages))
            (sortDesc createdAt
               (filter (conversationQuery 1%nat 2%nat) (messages Scenario.threeMessages)))).
Proof.
  apply (X7_pages_of_a_conversation_tile_it
           (messages Scenario.threeMessages) 1%nat 2%nat 2 2%nat).
  lia.
Defined.

Lemma ceiling_bounds (total limit : Z) :
  0 < limit ->
  (- ((- total) / limit) - 1) * limit < total <= - ((- total) / limit) * limit.
Proof.
  intros Hl.
  pose proof (Z.mul_div_le (- total) limit Hl).
  pose proof (Z.mul_succ_div_gt (- total) limit Hl).
  nia.
Qed.

(** X8.  The pagination metadata agrees with the pages cut by [paginate].
    For a list of [total] results, a page number and a limit that are at
    least 1, with page * limit and total within the safe integers (where the
    arithmetic of the code is exact): totalPages is a finite number, the
    least number of pages that holds the results; hasNextPage is true
    exactly when the next page is not empty; the current page is not empty
    exactly when its number is at most totalPages; and nextPage and prevPage
    are page + 1 and page - 1 when they exist. *)
Theorem X8_pagination_agrees_with_the_pages :
  forall (A : Type) (results : list A) (page limit : Z),
    1 <= page -> 1 <= limit ->
    page * limit <= MAX_SAFE_INTEGER ->
    Z.of_nat (List.length results) <= MAX_SAFE_INTEGER ->
    let meta := getPaginationMeta page limit (Z.of_nat (List.length results)) in
    exists pages found next,
      totalPages meta = Finite pages
      /\ skipLimit (fst (paginate page limit)) (snd (paginate page limit)) results
         = Some found
      /\ skipLimit (fst (paginate (page + 1) limit)) (snd (paginate (page + 1) limit))
           results = Some next
      /\ currentPage meta = page
      /\ totalResults meta = Z.of_nat (List.length results)
      /\ (pages - 1) * limit < totalResults meta <= pages * limit
      /\ (hasNextPage meta = true <-> next <> [])
      /\ (page <= pages <-> found <> [])
      /\ nextPage meta = (if hasNextPage meta then Some (page + 1) else None)
      /\ hasPrevPage meta = (1 <? page)
      /\ prevPage meta = (if 1 <? page then Some (page - 1) else None).
Proof.
  intros A results page limit Hp Hl _ _ meta. subst meta.
  unfold getPaginationMeta, ceilDiv, paginate. simpl fst. simpl snd.
  replace (limit =? 0) with false by (symmetry; apply Z.eqb_neq; lia).
  rewrite !skipLimit_page by lia.
  set (T := Z.of_nat (List.length results)).
  assert (Hl' : 0 < limit) by lia.
  pose proof (ceiling_bounds T limit Hl') as Hc.
  set (c := - (- T / limit)) in *.
  exists c. eexists. eexists.
  split; [reflexivity|]. split; [reflexivity|]. split; [reflexivity|]. simpl.
  split; [reflexivity|]. split; [reflexivity|]. split; [exact Hc|].
  split; [|split; [|split; [reflexivity|split; reflexivity]]].
  - rewrite page_nonempty by lia.
    replace (Z.to_nat (page + 1) - 1)%nat with (Z.to_nat page) by lia.
    rewrite Z.ltb_lt. unfold T in *. split; intros H; nia.
  - rewrite page_nonempty by lia.
    unfold T in *. split; intros H; nia.
Qed.

Lemma X8_pagination_witness :
  let meta :=
    getPaginationMeta 1 2 (Z.of_nat (List.length (messages Scenario.threeMessages))) in
  exists pages found next,
    totalPages meta = Finite pages
    /\ skipLimit (fst (paginate 1 2)) (snd (paginate 1 2)) (messages Scenario.threeMessages)
       = Some found
    /\ skipLimit (fst (paginate (1 + 1) 2)) (snd (paginate (1 + 1) 2))
         (messages Scenario.threeMessages) = Some next
    /\ currentPage meta = 1
    /\ totalResults meta = Z.of_nat (List.length (messages Scenario.threeMessages))
    /\ (pages - 1) * 2 < totalResults meta <= pages * 2
    /\ (hasNextPage meta = true <-> next <> [])
    /\ (1 <= pages <-> found <> [])
    /\ nextPage meta = (if hasNextPage meta then Some (1 + 1) else None)
    /\ hasPrevPage meta = (1 <? 1)
    /\ prevPage meta = (if 1 <? 1 then Some (1 - 1) else None).
Proof.
  apply (X8_pagination_agrees_with_the_pages Message (messages Scenario.threeMessages) 1 2).
  - lia.
  - lia.
  - vm_compute. discriminate.
  - vm_compute. discriminate.
Defined.

(** *** Conversation identifiers and date labels *)

Section Strings.

Lemma ltString_asym (a : jsString) : forall b, ltString a b = true -> ltString b a = false.
Proof.
  induction a as [|x a IH]; intros [|y b]; simpl; try discriminate; try reflexivity.
  intros H. apply orb_prop in H. destruct H as [H|H].
  - apply Z.ltb_lt in H.
    replace (y <? x) with false by (symmetry; apply Z.ltb_ge; lia).
    replace (y =? x) with false by (symmetry; apply Z.eqb_neq; lia). reflexivity.
  - apply andb_prop in H. destruct H as [He Hl]. apply Z.eqb_eq in He. subst y.
    rewrite Z.ltb_irrefl, Z.eqb_refl. simpl. apply IH. exact Hl.
Qed.

Lemma ltString_total (a : jsString) :
  forall b, ltString a b = false -> ltString b a = false -> a = b.
Proof.
  induction a as [|x a IH]; intros [|y b]; simpl; try discriminate; try reflexivity.
  intros H1 H2.
  apply orb_false_elim in H1. destruct H1 as [Hxy H1].
  apply orb_false_elim in H2. destruct H2 as [Hyx H2].
  apply Z.ltb_ge in Hxy. apply Z.ltb_ge in Hyx.
  assert (x = y) by lia. subst y.
  rewrite Z.eqb_refl in H1, H2. simpl in H1, H2.
  f_equal. apply IH; assumption.
Qed.

Lemma sortPair_sym (a b : jsString) : sortPair a b = sortPair b a.
Proof.
  unfold sortPair.
  destruct (ltString b a) eqn:Eba.
  - rewrite (ltString_asym _ _ Eba). reflexivity.
  - destruct (ltString a b) eqn:Eab; [reflexivity|].
    rewrite (ltString_total _ _ Eab Eba). reflexivity.
Qed.

Lemma sortPair_cases (a b : jsString) :
  sortPair a b = (a, b) \/ sortPair a b = (b, a).
Proof. unfold sortPair. destruct (ltString b a); auto. Qed.

Lemma dash_split_unique (x : jsString) :
  forall x' y y',
    ~ In 45 x -> ~ In 45 x' -> x ++ 45 :: y = x' ++ 45 :: y' -> x = x' /\ y = y'.
Proof.
  induction x as [|c x IH]; intros [|c' x'] y y' Hx Hx' H; simpl in *.
  - injection H as ->. auto.
  - injection H as <- _. exfalso. apply Hx'. left. reflexivity.
  - injection H as -> _. exfalso. apply Hx. left. reflexivity.
  - injection H as -> H. destruct (IH x' y y') as [-> ->]; auto.
Qed.

Lemma eqString_eq (a : jsString) : forall b, eqString a b = true <-> a = b.
Proof.
  induction a as [|x a IH]; intros [|y b]; simpl; split; intros H;
    try discriminate; try reflexivity.
  - apply andb_prop in H. destruct H as [He H]. apply Z.eqb_eq in He.
    apply IH in H. subst. reflexivity.
  - injection H as -> ->. rewrite Z.eqb_refl. simpl. apply IH. reflexivity.
Qed.

End Strings.

(** X9.  The conversation identifier does not depend on the order of the two
    users: both participants compute the same identifier. *)
Theorem X9_generateConversationId_is_symmetric :
  forall (userId1 userId2 : jsString),
    generateConversationId userId1 userId2 = generateConversationId userId2 userId1.
Proof.
  intros a b. unfold generateConversationId. rewrite (sortPair_sym a b). reflexivity.
Qed.

(** X10.  For identifiers without a dash (such as the hexadecimal object
    ids), two pairs of users get the same conversation identifier only if
    they are the same pair, in one order or the other. *)
Theorem X10_generateConversationId_separates_pairs :
  forall (a b c d : jsString),
    ~ In 45 a -> ~ In 45 b -> ~ In 45 c -> ~ In 45 d ->
    generateConversationId a b = generateConversationId c d ->
    (a = c /\ b = d) \/ (a = d /\ b = c).
Proof.
  intros a b c d Ha Hb Hc Hd. unfold generateConversationId.
  destruct (sortPair_cases a b) as [-> | ->], (sortPair_cases c d) as [-> | ->];
    intros H; apply dash_split_unique in H; try assumption; destruct H; subst; auto.
Qed.

Lemma X10_generateConversationId_witness :
  (lit "5f1a" = lit "5f1a" /\ lit "0c2b" = lit "0c2b")
  \/ (lit "5f1a" = lit "0c2b" /\ lit "0c2b" = lit "5f1a").
Proof.
  apply (X10_generateConversationId_separates_pairs
           (lit "5f1a") (lit "0c2b") (lit "5f1a") (lit "0c2b")).
  - vm_compute. intuition discriminate.
  - vm_compute. intuition discriminate.
  - vm_compute. intuition discriminate.
  - vm_compute. intuition discriminate.
  - reflexivity.
Defined.

(** X11.  The label of a date is always consistent with its age.  A date less
    than a minute old, or in the future, reads "now"; a count of minutes is
    between 1 and 59, of hours between 1 and 23, of days between 1 and 6, and
    each is the age rounded down to whole units; a date of seven days or more
    is shown as a date. *)
Theorem X11_formatDate_counts_are_in_range :
  forall (now date : Z),
    match formatDate now date with
    | JustNow => now - date < 60000
    | MinutesAgo n => 1 <= n <= 59 /\ n * 60000 <= now - date < (n + 1) * 60000
    | HoursAgo n => 1 <= n <= 23 /\ n * 3600000 <= now - date < (n + 1) * 3600000
    | DaysAgo n => 1 <= n <= 6 /\ n * 86400000 <= now - date < (n + 1) * 86400000
    | LocaleDate d => d = date /\ 604800000 <= now - date
    end.
Proof.
  intros now date. unfold formatDate.
  set (diff := now - date).
  destruct (diff <? 60000) eqn:E1; [apply Z.ltb_lt; exact E1|].
  apply Z.ltb_ge in E1.
  destruct (diff <? 3600000) eqn:E2.
  { apply Z.ltb_lt in E2.
    pose proof (Z.mul_div_le diff 60000 ltac:(lia)).
    pose proof (Z.mul_succ_div_gt diff 60000 ltac:(lia)). lia. }
  apply Z.ltb_ge in E2.
  destruct (diff <? 86400000) eqn:E3.
  { apply Z.ltb_lt in E3.
    pose proof (Z.mul_div_le diff 3600000 ltac:(lia)).
    pose proof (Z.mul_succ_div_gt diff 3600000 ltac:(lia)). lia. }
  apply Z.ltb_ge in E3.
  destruct (diff <? 604800000) eqn:E4.
  { apply Z.ltb_lt in E4.
    pose proof (Z.mul_div_le diff 86400000 ltac:(lia)).
    pose proof (Z.mul_succ_div_gt diff 86400000 ltac:(lia)). lia. }
  apply Z.ltb_ge in E4. split; [reflexivity | exact E4].
Qed.

(** *** The conversation list *)

Section Grouping.

Variable u : UserId.

Lemma find_addToGroups (p : UserId) (m : Message) (gs : list Group) :
  find (fun g => Nat.eqb (group_id g) p) (addToGroups u m gs) =
  if Nat.eqb (otherParticipant u m) p
  then Some (match find (fun g => Nat.eqb (group_id g) p) gs with
             | Some g => {| group_id := group_id g;
                            group_lastMessage := group_lastMessage g;
                            group_unreadCount := (group_unreadCount g + unreadFor u m)%nat |}
             | None => {| group_id := otherParticipant u m;
                          group_lastMessage := m;
                          group_unreadCount := unreadFor u m |}
             end)
  else find (fun g => Nat.eqb (group_id g) p) gs.
Proof.
  induction gs as [|g gs IH]; simpl.
  - destruct (Nat.eqb (otherParticipant u m) p); reflexivity.
  - destruct (Nat.eqb (group_id g) (otherParticipant u m)) eqn:E1; simpl.
    + apply Nat.eqb_eq in E1.
      destruct (Nat.eqb (otherParticipant u m) p) eqn:E3;
        rewrite <- E1 in E3; rewrite E3; reflexivity.
    + destruct (Nat.eqb (group_id g) p) eqn:E2.
      * destruct (Nat.eqb (otherParticipant u m) p) eqn:E3; [|reflexivity].
        apply Nat.eqb_eq in E2. apply Nat.eqb_eq in E3. apply Nat.eqb_neq in E1.
        congruence.
      * exact IH.
Qed.

Lemma find_groups_fold (p : UserId) (ms : list Message) : forall gs,
  find (fun g => Nat.eqb (group_id g) p)
       (fold_left (fun gs m => addToGroups u m gs) ms gs) =
  match find (fun g => Nat.eqb (group_id g) p) gs with
  | Some g =>
      Some {| group_id := group_id g;
              group_lastMessage := group_lastMessage g;
              group_unreadCount :=
                (group_unreadCount g
                 + list_sum (map (unreadFor u)
                               (filter (fun m => Nat.eqb (otherParticipant u m) p) ms)))%nat |}
  | None =>
      match filter (fun m => Nat.eqb (otherParticipant u m) p) ms with
      | [] => None
      | m0 :: rest =>
          Some {| group_id := otherParticipant u m0;
                  group_lastMessage := m0;
                  group_unreadCount := list_sum (map (unreadFor u) (m0 :: rest)) |}
      end
  end.
Proof.
  induction ms as [|m ms IH]; intros gs; simpl.
  - destruct (find _ gs) as [g|]; [|reflexivity].
    destruct g; simpl. rewrite Nat.add_0_r. reflexivity.
  - rewrite IH, find_addToGroups.
    destruct (Nat.eqb (otherParticipant u m) p) eqn:E; simpl.
    + destruct (find _ gs) as [g|]; simpl; f_equal; f_equal; lia.
    + reflexivity.
Qed.

Lemma addToGroups_ids (m : Message) (gs : list Group) :
  map group_id (addToGroups u m gs) =
  if existsb (fun g => Nat.eqb (group_id g) (otherParticipant u m)) gs
  then map group_id gs
  else map group_id gs ++ [otherParticipant u m].
Proof.
  induction gs as [|g gs IH]; simpl; [reflexivity|].
  destruct (Nat.eqb (group_id g) (otherParticipant u m)); simpl; [reflexivity|].
  rewrite IH. destruct (existsb _ gs); reflexivity.
Qed.

Lemma addToGroups_ids_In (m : Message) (gs : list Group) (x : UserId) :
  In x (map group_id (addToGroups u m gs)) <->
  In x (map group_id gs) \/ x = otherParticipant u m.
Proof.
  rewrite addToGroups_ids.
  destruct (existsb _ gs) eqn:E.
  - split; [auto|]. intros [H | ->]; [exact H|].
    apply existsb_exists in E. destruct E as [g [Hg Hid]].
    apply Nat.eqb_eq in Hid. rewrite <- Hid. apply in_map. exact Hg.
  - rewrite in_app_iff. simpl. intuition.
Qed.

Lemma addToGroups_ids_NoDup (m : Message) (gs : list Group) :
  NoDup (map group_id gs) -> NoDup (map group_id (addToGroups u m gs)).
Proof.
  intros H. rewrite addToGroups_ids.
  destruct (existsb _ gs) eqn:E; [exact H|].
  apply (Permutation_NoDup (Permutation_cons_append _ _)).
  constructor; [|exact H].
  intros Hin. apply in_map_iff in Hin. destruct Hin as [g [Hid Hg]].
  assert (E' : existsb (fun g => Nat.eqb (group_id g) (otherParticipant u m)) gs = true).
  { apply existsb_exists. exists g. split; [exact Hg | apply Nat.eqb_eq; exact Hid]. }
  congruence.
Qed.

Lemma groups_ids_fold (ms : list Message) : forall gs,
  NoDup (map group_id gs) ->
  NoDup (map group_id (fold_left (fun gs m => addToGroups u m gs) ms gs))
  /\ forall x,
       In x (map group_id (fold_left (fun gs m => addToGroups u m gs) ms gs)) <->
       In x (map group_id gs) \/ In x (map (otherParticipant u) ms).
Proof.
  induction ms as [|m ms IH]; intros gs Hnd; simpl.
  - split; [exact Hnd | intros x; tauto].
  - destruct (IH (addToGroups u m gs) (addToGroups_ids_NoDup m gs Hnd)) as [H1 H2].
    split; [exact H1|]. intros x. rewrite H2, addToGroups_ids_In.
    intuition.
Qed.

Lemma find_group_NoDup (gs : list Group) (g : Group) :
  NoDup (map group_id gs) -> In g gs ->
  find (fun g' => Nat.eqb (group_id g') (group_id g)) gs = Some g.
Proof.
  induction gs as [|h gs IH]; simpl; [tauto|].
  intros Hnd [->|Hin]; [rewrite Nat.eqb_refl; reflexivity|].
  inversion Hnd as [|? ? Hnotin Hnd']; subst.
  destruct (Nat.eqb (group_id h) (group_id g)) eqn:E; [|apply IH; assumption].
  apply Nat.eqb_eq in E. exfalso. apply Hnotin. rewrite E. apply in_map. exact Hin.
Qed.

(** A group of [groupByParticipant] holds the first message with its
    participant and the sum of [unreadFor] over the messages with it. *)
Lemma groupByParticipant_group (ms : list Message) (g : Group) :
  In g (groupByParticipant u ms) ->
  exists m0 rest,
    filter (fun m => Nat.eqb (otherParticipant u m) (group_id g)) ms = m0 :: rest
    /\ group_lastMessage g = m0
    /\ group_unreadCount g = list_sum (map (unreadFor u) (m0 :: rest)).
Proof.
  intros Hin. unfold groupByParticipant in *.
  destruct (groups_ids_fold ms [] (NoDup_nil _)) as [Hnd _].
  pose proof (find_group_NoDup _ _ Hnd Hin) as Hf.
  rewrite find_groups_fold in Hf. simpl in Hf.
  destruct (filter _ ms) as [|m0 rest]; [discriminate|].
  injection Hf as <-. exists m0, rest. auto.
Qed.

Lemma list_sum_unreadFor (l : list Message) :
  list_sum (map (unreadFor u) l)
  = List.length (filter (fun m => Nat.eqb (receiver m) u
                                  && negb (Status_eqb (status m) read)) l).
Proof.
  induction l as [|m l IH]; simpl; [reflexivity|].
  unfold unreadFor at 1.
  destruct (Nat.eqb (receiver m) u && negb (Status_eqb (status m) read)); simpl; lia.
Qed.

End Grouping.

Section Descending.

Context {A : Type}.
Variable key : A -> Z.

Lemma descending_cons_iff (x : A) (l : list A) :
  descending key (x :: l) <-> (forall y, In y l -> key y <= key x) /\ descending key l.
Proof.
  revert x. induction l as [|z l IH]; intros x.
  - split; [intros _; split; [intros y []| constructor] | intros _; constructor].
  - split.
    + intros H. inversion H as [| |? ? ? Hzx Hd]; subst.
      split; [|exact Hd]. intros y [<-|Hy]; [exact Hzx|].
      apply IH in Hd. destruct Hd as [Hmax _]. specialize (Hmax y Hy). lia.
    + intros [Hmax Hd]. constructor; [apply Hmax; left; reflexivity | exact Hd].
Qed.

Lemma descending_filter (q : A -> bool) (l : list A) :
  descending key l -> descending key (filter q l).
Proof.
  induction l as [|x l IH]; intros H; simpl; [constructor|].
  apply descending_cons_iff in H. destruct H as [Hmax Hd].
  destruct (q x); [|apply IH; exact Hd].
  apply descending_cons_iff. split; [|apply IH; exact Hd].
  intros y Hy. apply filter_In in Hy. apply Hmax. tauto.
Qed.

Lemma Permutation_filter (q : A -> bool) (l l' : list A) :
  Permutation l l' -> Permutation (filter q l) (filter q l').
Proof.
  induction 1 as [|x l l' H IH|x y l|l l' l'' H1 IH1 H2 IH2]; simpl.
  - constructor.
  - destruct (q x); [constructor|]; exact IH.
  - destruct (q x), (q y); try apply Permutation_refl. apply perm_swap.
  - eapply Permutation_trans; eassumption.
Qed.

Lemma filter_filter_length (a b : A -> bool) (l : list A) :
  List.length (filter a (filter b l)) = List.length (filter (fun x => a x && b x) l).
Proof.
  induction l as [|x l IH]; simpl; [reflexivity|].
  destruct (b x); simpl; [destruct (a x); simpl; lia | rewrite andb_false_r; exact IH].
Qed.

End Descending.

(** X13.  What [getLatestConversations] answers for a user: at most [limit]
    summaries, ordered by the time of their last message, newest first.  In
    each summary the participant is a user of the directory, the last
    message is a stored non-deleted message exchanged with that participant
    and no such message is newer, and the unread count is the number of
    non-deleted messages that participant sent to the user and that are not
    read. *)
Theorem X13_conversation_summaries_are_correct :
  forall (st : State) (u : UserId) (limit : Z) (cs : list ConversationSummary),
    getLatestConversations st u limit = Some cs ->
    Z.of_nat (List.length cs) <= limit
    /\ descending (fun c => createdAt (lastMessage c)) cs
    /\ forall c, In c cs ->
         In (participant c) (users st)
         /\ In (lastMessage c) (messages st)
         /\ involves u (lastMessage c) = true
         /\ otherParticipant u (lastMessage c) = user_id (participant c)
         /\ (forall m, In m (messages st) -> involves u m = true ->
                       otherParticipant u m = user_id (participant c) ->
                       createdAt m <= createdAt (lastMessage c))
         /\ unreadCount c
            = List.length
                (filter (fun m => unreadQuery u m
                                  && Nat.eqb (sender m) (user_id (participant c)))
                        (messages st)).
Proof.
  intros st u limit cs. unfold getLatestConversations.
  destruct (0 <? limit) eqn:El; [|discriminate]. apply Z.ltb_lt in El.
  intros H. injection H as <-.
  set (matched := filter (involves u) (messages st)).
  set (sorted := sortDesc createdAt matched).
  split; [|split].
  - pose proof (firstn_le_length (Z.to_nat limit)
        (sortDesc (fun c => createdAt (lastMessage c))
           (flat_map (lookupParticipant (users st)) (groupByParticipant u sorted)))).
    lia.
  - apply descending_firstn, sortDesc_descending.
  - intros c Hc. apply In_firstn in Hc. apply sortDesc_In in Hc.
    apply in_flat_map in Hc. destruct Hc as [g [Hg Hc]].
    unfold lookupParticipant in Hc. apply in_map_iff in Hc.
    destruct Hc as [usr [<- Husr]]. apply filter_In in Husr.
    destruct Husr as [Husr Hid]. apply Nat.eqb_eq in Hid. simpl.
    destruct (groupByParticipant_group u sorted g Hg) as [m0 [rest [Hf [Hlast Hunread]]]].
    rewrite Hid, Hlast.
    assert (Hm0 : In m0 (filter (fun m => Nat.eqb (otherParticipant u m) (group_id g)) sorted))
      by (rewrite Hf; left; reflexivity).
    apply filter_In in Hm0. destruct Hm0 as [Hm0s Hm0p]. apply Nat.eqb_eq in Hm0p.
    apply sortDesc_In in Hm0s. apply filter_In in Hm0s. destruct Hm0s as [Hm0in Hm0inv].
    split; [exact Husr|]. split; [exact Hm0in|]. split; [exact Hm0inv|].
    split; [exact Hm0p|]. split.
    + intros m Hm Hinv Hp.
      assert (Hms : In m (filter (fun m => Nat.eqb (otherParticipant u m) (group_id g)) sorted)).
      { apply filter_In. split.
        - apply sortDesc_In. apply filter_In. auto.
        - apply Nat.eqb_eq. exact Hp. }
      pose proof (descending_filter createdAt
                    (fun m => Nat.eqb (otherParticipant u m) (group_id g)) sorted
                    (sortDesc_descending createdAt matched)) as Hd.
      rewrite Hf in Hd, Hms. apply descending_cons_iff in Hd. destruct Hd as [Hmax _].
      destruct Hms as [<-|Hms]; [lia | apply Hmax; exact Hms].
    + rewrite Hunread, <- Hf, list_sum_unreadFor.
      rewrite (Permutation_length
                 (Permutation_filter _ _ _
                    (Permutation_filter _ _ _
                       (Permutation_sym (sortDesc_perm createdAt matched))))).
      unfold matched. rewrite !filter_filter_length.
      f_equal. apply filter_ext. intros m.
      unfold unreadQuery, involves, otherParticipant.
      destruct (Nat.eqb (receiver m) u) eqn:Er; simpl; [|reflexivity].
      assert (Hpeer : (if Nat.eqb (sender m) u then receiver m else sender m) = sender m).
      { destruct (Nat.eqb (sender m) u) eqn:Es; [|reflexivity].
        apply Nat.eqb_eq in Er. apply Nat.eqb_eq in Es. congruence. }
      rewrite Hpeer, orb_true_r. simpl.
      destruct (negb (Status_eqb (status m) read)), (negb (isDeleted m)),
        (Nat.eqb (sender m) (group_id g)); reflexivity.
Qed.

Section Directory.








End Directory.



Lemma X13_conversation_summaries_witness :
  Z.of_nat (List.length Scenario.aliceConversations) <= 20
  /\ descending (fun c => createdAt (lastMessage c)) Scenario.aliceConversations
  /\ forall c, In c Scenario.aliceConversations ->
       In (participant c) (users Scenario.threeMessages)
       /\ In (lastMessage c) (messages Scenario.threeMessages)
       /\ involves 1%nat (lastMessage c) = true
       /\ otherParticipant 1%nat (lastMessage c) = user_id (participant c)
       /\ (forall m, In m (messages Scenario.threeMessages) -> involves 1%nat m = true ->
                     otherParticipant 1%nat m = user_id (participant c) ->
                     createdAt m <= createdAt (lastMessage c))
       /\ unreadCount c
          = List.length
              (filter (fun m => unreadQuery 1%nat m
                                && Nat.eqb (sender m) (user_id (participant c)))
                      (messages Scenario.threeMessages)).
Proof.
  apply (X13_conversation_summaries_are_correct Scenario.threeMessages 1%nat 20
           Scenario.aliceConversations).
  vm_compute. reflexivity.
Defined.

Lemma filter_length_mono {A : Type} (p q : A -> bool) (l : list A) :
  (forall x, p x = true -> q x = true) ->
  (List.length (filter p l) <= List.length (filter q l))%nat.
Proof.
  intros H. induction l as [|x l IH]; simpl; [lia|].
  destruct (p x) eqn:E.
  - rewrite (H x E). simpl. lia.
  - destruct (q x); simpl; lia.
Qed.

(** X14.  The statistics of a user are counts over the non-deleted messages.
    The unread number is the one [getUnreadCount] gives and never exceeds the
    number received; the number sent today never exceeds the number sent;
    the total is sent plus received (so a message to oneself counts twice);
    and the number of conversations is the number of distinct other
    participants of the user's non-deleted messages. *)
Theorem X14_message_statistics_are_consistent :
  forall (st : State) (today : Z) (u : UserId),
    let stats := MessageController.getMessageStats st today u in
    MessageController.stats_unreadCount stats = MessageModel.getUnreadCount (messages st) u
    /\ (MessageController.stats_unreadCount stats
        <= MessageController.totalReceived stats)%nat
    /\ (MessageController.messagesToday stats <= MessageController.totalSent stats)%nat
    /\ MessageController.totalMessages stats
       = (MessageController.totalSent stats + MessageController.totalReceived stats)%nat
    /\ MessageController.totalConversations stats
       = List.length (nodup Nat.eq_dec
                        (map (otherParticipant u) (filter (involves u) (messages st)))).
Proof.
  intros st today u. simpl. unfold countDocuments.
  split; [reflexivity|]. split; [|split; [|split; [reflexivity|]]].
  - apply filter_length_mono. intros m H.
    destruct (Nat.eqb (receiver m) u), (negb (isDeleted m)); simpl in *;
      try reflexivity; try discriminate.
    rewrite andb_false_r in H. discriminate.
  - apply filter_length_mono. intros m H.
    destruct (Nat.eqb (sender m) u), (negb (isDeleted m)); simpl in *;
      try reflexivity; try discriminate.
    rewrite andb_false_r in H. discriminate.
  - unfold groupByParticipant.
    destruct (groups_ids_fold u (filter (involves u) (messages st)) [] (NoDup_nil _))
      as [Hnd Hids].
    rewrite <- (length_map group_id).
    apply Permutation_length. apply NoDup_Permutation; [exact Hnd | apply NoDup_nodup |].
    intros x. rewrite nodup_In, Hids. simpl. tauto.
Qed.

(** *** Requests that write *)

(** X15.  [sendMessage] either stores exactly one new message or changes
    nothing.  The new message has a fresh id, the requester as sender, the
    trimmed content, status sent, no delete flag, the given message type when
    one is given, and its delivery timer is set one second ahead; it is
    appended to the collection.  Otherwise (unknown receiver: 404; content
    empty after trimming or too long: validation error) the state is as it
    was. *)
Theorem X15_sendMessage_stores_one_message_or_nothing :
  forall (st st' : State) (now : Z) (me : UserId) (body : MessageController.SendBody)
         (r : MessageController.Response),
    MessageController.sendMessage st now me body = (st', r) ->
    (exists m,
        r = MessageController.successResponse 201 "Message sent successfully"
              (MessageController.MessageData m)
        /\ messages st' = messages st ++ [m]
        /\ users st' = users st
        /\ timers st' = timers st ++ [ {| dueAt := now + 1000; doc := m |} ]
        /\ findById (messages st) (_id m) = None
        /\ sender m = me
        /\ receiver m = MessageController.receiverId body
        /\ content m = trim (MessageController.body_content body)
        /\ status m = sent
        /\ isDeleted m = false
        /\ createdAt m = now
        /\ replyTo m = MessageController.body_replyTo body
        /\ (forall t, MessageController.body_messageType body = Some t -> messageType m = t))
    \/ (st' = st
        /\ (r = MessageController.errorResponse 404 "Receiver not found"
            \/ r = MessageController.Throws "ValidationError")).
Proof.
  intros st st' now me body r. unfold MessageController.sendMessage, create.
  destruct (User_findById _ _); [|intros H; injection H as <- <-; right; auto].
  simpl. rewrite trim_idem.
  destruct (validContent _); intros H; injection H as <- <-;
    [|right; auto].
  left. eexists. split; [reflexivity|]. simpl.
  repeat split; try reflexivity.
  - apply findById_fresh.
  - intros t Ht. rewrite Ht. reflexivity.
Qed.

Lemma X15_sendMessage_witness :
  (exists m,
      MessageController.successResponse 201 "Message sent successfully"
        (MessageController.MessageData Scenario.abc)
      = MessageController.successResponse 201 "Message sent successfully"
          (MessageController.MessageData m)
      /\ messages Scenario.abcSent = messages Scenario.empty ++ [m]
      /\ users Scenario.abcSent = users Scenario.empty
      /\ timers Scenario.abcSent
         = timers Scenario.empty ++ [ {| dueAt := 0 + 1000; doc := m |} ]
      /\ findById (messages Scenario.empty) (_id m) = None
      /\ sender m = 1%nat
      /\ receiver m = MessageController.receiverId (Scenario.plain 2%nat "abc")
      /\ content m = trim (MessageController.body_content (Scenario.plain 2%nat "abc"))
      /\ status m = sent
      /\ isDeleted m = false
      /\ createdAt m = 0
      /\ replyTo m = MessageController.body_replyTo (Scenario.plain 2%nat "abc")
      /\ (forall t, MessageController.body_messageType (Scenario.plain 2%nat "abc") = Some t ->
                    messageType m = t))
  \/ (Scenario.abcSent = Scenario.empty
      /\ (MessageController.successResponse 201 "Message sent successfully"
            (MessageController.MessageData Scenario.abc)
          = MessageController.errorResponse 404 "Receiver not found"
          \/ MessageController.successResponse 201 "Message sent successfully"
               (MessageController.MessageData Scenario.abc)
             = MessageController.Throws "ValidationError")).
Proof.
  apply (X15_sendMessage_stores_one_message_or_nothing
           Scenario.empty Scenario.abcSent 0 1%nat (Scenario.plain 2%nat "abc")).
  vm_compute. reflexivity.
Defined.

Section Writes.

Lemma updateOne_others (i : MessageId) (f : Message -> Message) (ms : list Message)
    (found x : Message) :
  findById ms i = Some found -> In x ms -> x <> found -> In x (updateOne i f ms).
Proof.
  unfold findById. induction ms as [|h ms IH]; simpl; [tauto|].
  destruct (Nat.eqb (_id h) i).
  - intros H. injection H as ->. intros [->|Hin] Hne; [congruence | right; exact Hin].
  - intros H [->|Hin] Hne; [left; reflexivity | right; apply IH; assumption].
Qed.

Lemma save_others (upd : Message -> Message) (now : Z) (i : MessageId)
    (ms ms' : list Message) (found x : Message) :
  findById ms i = Some found -> save upd now i ms = Some ms' ->
  In x ms -> x <> found -> In x ms'.
Proof.
  intros Hf. unfold save. rewrite Hf.
  destruct (validContent _); [|discriminate].
  intros H. injection H as <-. apply updateOne_others. exact Hf.
Qed.

Lemma save_keeps_found (upd : Message -> Message) (now : Z) (i : MessageId)
    (ms ms' : list Message) (m : Message) :
  (forall x, _id (upd x) = _id x) ->
  findById ms i = Some m -> save upd now i ms = Some ms' ->
  exists m', findById ms' i = Some m'.
Proof.
  intros Hid Hf. unfold save. rewrite Hf.
  destruct (validContent _); [|discriminate].
  intros H. injection H as <-.
  rewrite findById_updateOne.
  - rewrite Nat.eqb_refl, Hf. simpl. eauto.
  - intros x. destruct (Message_eq_dec (upd x) x); [reflexivity | apply Hid].
Qed.

End Writes.

(** X16.  An edit by the sender, within 24 hours of the creation, with a
    content that is valid after trimming, succeeds whatever the status and
    the delete flag of the message are.  The stored message then has the
    trimmed content, the message type detected from the new content and
    editedAt = now; its id, sender, receiver, status, receipts, delete flag,
    replyTo and createdAt are as before, and no other message changes. *)
Theorem X16_editMessage_rewrites_content_type_and_editedAt_only :
  forall (st : State) (now : Z) (me : UserId) (messageId : MessageId)
         (c : jsString) (m : Message),
    findById (messages st) messageId = Some m ->
    sender m = me ->
    now - createdAt m <= 24 * 60 * 60 * 1000 ->
    validContent (trim c) = true ->
    exists st' m',
      MessageController.editMessage st now me messageId (Some c)
      = (st', MessageController.successResponse 200 "Message edited successfully"
                (MessageController.MessageData m'))
      /\ findById (messages st') messageId = Some m'
      /\ content m' = trim c
      /\ messageType m' = MessageController.detectMessageType c
      /\ editedAt m' = Some now
      /\ set_updatedAt 0 (set_editedAt None (set_messageType text (set_content [] m')))
         = set_updatedAt 0 (set_editedAt None (set_messageType text (set_content [] m)))
      /\ (forall i, i <> messageId -> findById (messages st') i = findById (messages st) i)
      /\ users st' = users st /\ timers st' = timers st.
Proof.
  intros st now me messageId c m Hfind Hsender Hage Hvalid.
  unfold MessageController.editMessage, save.
  rewrite Hfind, Hsender, Nat.eqb_refl. simpl negb. cbv iota.
  replace (createdAt m <? now - 24 * 60 * 60 * 1000) with false
    by (symmetry; apply Z.ltb_ge; lia).
  change (content (set_messageType (MessageController.detectMessageType c)
                     (set_editedAt (Some now) (set_content (trim c) m))))
    with (trim c).
  rewrite Hvalid.
  set (g := fun m0 : Message =>
              if Message_eq_dec
                   (set_messageType (MessageController.detectMessageType c)
                      (set_editedAt (Some now) (set_content (trim c) m0))) m0
              then m0
              else set_updatedAt now
                     (set_messageType (MessageController.detectMessageType c)
                        (set_editedAt (Some now) (set_content (trim c) m0)))).
  assert (Hg : forall x, _id (g x) = _id x).
  { intros x. unfold g. destruct (Message_eq_dec _ x); reflexivity. }
  assert (Hlook : findById (updateOne messageId g (messages st)) messageId = Some (g m)).
  { rewrite findById_updateOne by exact Hg. rewrite Nat.eqb_refl, Hfind. reflexivity. }
  rewrite Hlook.
  exists (with_messages (updateOne messageId g (messages st)) st), (g m).
  split; [reflexivity|]. simpl. split; [exact Hlook|].
  assert (Hfields : content (g m) = trim c
                    /\ messageType (g m) = MessageController.detectMessageType c
                    /\ editedAt (g m) = Some now
                    /\ set_updatedAt 0 (set_editedAt None (set_messageType text
                                                            (set_content [] (g m))))
                       = set_updatedAt 0 (set_editedAt None (set_messageType text
                                                               (set_content [] m)))).
  { unfold g. destruct (Message_eq_dec _ m) as [e|n].
    - rewrite <- e at 1 2 3. repeat split; reflexivity.
    - repeat split; reflexivity. }
  destruct Hfields as (H1 & H2 & H3 & H4).
  repeat split; try assumption.
  intros i Hi. rewrite findById_updateOne by exact Hg.
  apply Nat.eqb_neq in Hi. rewrite Hi. reflexivity.
Qed.

Lemma X16_editMessage_witness :
  exists st' m',
    MessageController.editMessage Scenario.afterDelete 200 1%nat 1%nat
      (Some (lit "  edited  "))
    = (st', MessageController.successResponse 200 "Message edited successfully"
              (MessageController.MessageData m'))
    /\ findById (messages st') 1%nat = Some m'
    /\ content m' = trim (lit "  edited  ")
    /\ messageType m' = MessageController.detectMessageType (lit "  edited  ")
    /\ editedAt m' = Some 200
    /\ set_updatedAt 0 (set_editedAt None (set_messageType text (set_content [] m')))
       = set_updatedAt 0 (set_editedAt None (set_messageType text
                                               (set_content [] Scenario.deletedHello)))
    /\ (forall i, i <> 1%nat ->
          findById (messages st') i = findById (messages Scenario.afterDelete) i)
    /\ users st' = users Scenario.afterDelete /\ timers st' = timers Scenario.afterDelete.
Proof.
  apply (X16_editMessage_rewrites_content_type_and_editedAt_only
           Scenario.afterDelete 200 1%nat 1%nat (lit "  edited  ") Scenario.deletedHello).
  - reflexivity.
  - reflexivity.
  - vm_compute. discriminate.
  - vm_compute. reflexivity.
Defined.

(** X17.  A request that is not answered with a success writes nothing:
    whenever sendMessage, getConversation, markAsRead, deleteMessage,
    editMessage or forwardMessage answers with an error status or throws,
    the state after the request is the state before it. *)
Theorem X17_refused_requests_write_nothing :
  forall (st : State) (now : Z),
    let refused (r : MessageController.Response) :=
      forall code message data, r <> MessageController.successResponse code message data in
    (forall me body,
        refused (snd (MessageController.sendMessage st now me body)) ->
        fst (MessageController.sendMessage st now me body) = st)
    /\ (forall me userId page limit,
           refused (snd (MessageController.getConversation st now me userId page limit)) ->
           fst (MessageController.getConversation st now me userId page limit) = st)
    /\ (forall me senderId,
           refused (snd (MessageController.markAsRead st now me senderId)) ->
           fst (MessageController.markAsRead st now me senderId) = st)
    /\ (forall me messageId,
           refused (snd (MessageController.deleteMessage st now me messageId)) ->
           fst (MessageController.deleteMessage st now me messageId) = st)
    /\ (forall me messageId content,
           refused (snd (MessageController.editMessage st now me messageId content)) ->
           fst (MessageController.editMessage st now me messageId content) = st)
    /\ (forall me messageId receiverId,
           refused (snd (MessageController.forwardMessage st now me messageId receiverId)) ->
           fst (MessageController.forwardMessage st now me messageId receiverId) = st).
Proof.
  intros st now refused. unfold refused.
  repeat split.
  - intros me body. unfold MessageController.sendMessage.
    destruct (User_findById _ _); [|reflexivity].
    destruct (create _ _ _) as [s1 [x|]]; simpl; intros Hr;
      [exfalso; eapply Hr; reflexivity | reflexivity].
  - intros me userId page limit. unfold MessageController.getConversation.
    destruct (User_findById _ _); [|reflexivity].
    destruct (MessageModel.getConversation _ _ _ _ _); simpl; intros Hr;
      [exfalso; eapply Hr; reflexivity | reflexivity].
  - intros me senderId. unfold MessageController.markAsRead.
    destruct (User_findById _ _); simpl; intros Hr;
      [exfalso; eapply Hr; reflexivity | reflexivity].
  - intros me messageId. unfold MessageController.deleteMessage.
    destruct (findById _ _); [|reflexivity].
    destruct (negb _); [reflexivity|].
    destruct (save _ _ _ _); simpl; intros Hr;
      [exfalso; eapply Hr; reflexivity | reflexivity].
  - intros me messageId body. unfold MessageController.editMessage.
    destruct (findById (messages st) messageId) as [m0|] eqn:E0; [|reflexivity].
    destruct (negb _); [reflexivity|].
    destruct (_ <? _); [reflexivity|].
    destruct body as [c|]; [|reflexivity].
    destruct (save _ _ _ _) as [ms|] eqn:Es; [|reflexivity].
    destruct (fun Hid => save_keeps_found _ now messageId _ ms m0 Hid E0 Es)
      as [edited Ef]; [intros x; reflexivity|].
    rewrite Ef. simpl. intros Hr. exfalso. eapply Hr. reflexivity.
  - intros me messageId receiverId. unfold MessageController.forwardMessage.
    destruct (findById _ _); [|reflexivity].
    destruct (negb _); [reflexivity|].
    destruct (User_findById _ _); [|reflexivity].
    destruct (create _ _ _) as [s1 [x|]]; simpl; intros Hr;
      [exfalso; eapply Hr; reflexivity | reflexivity].
Qed.

Lemma X17_refused_requests_witness :
  fst (MessageController.deleteMessage Scenario.threeMessages 50 2%nat 1%nat)
  = Scenario.threeMessages.
Proof.
  destruct (X17_refused_requests_write_nothing Scenario.threeMessages 50)
    as (_ & _ & _ & Hdelete & _).
  apply Hdelete. intros code message data. vm_compute. discriminate.
Defined.

(** *** The creation timer *)

Section Timers.
Import Server.

Lemma timers_sent_create (st : State) (now : Z) (d : NewMessage) :
  Forall (fun t => status (doc t) = sent) (timers st) ->
  Forall (fun t => status (doc t) = sent) (timers (fst (create st now d))).
Proof.
  intros H. unfold create. destruct (validContent _); [|exact H]. simpl.
  unfold preSave. simpl.
  destruct (match new_status d with Some s => s | None => sent end) eqn:E;
    simpl; try exact H.
  apply Forall_app. split; [exact H|]. repeat constructor.
Qed.

(** Every pending timer holds a document whose status is [sent]. *)
Lemma step_timers_sent (st : State) (now : Z) (e : Event) :
  Forall (fun t => status (doc t) = sent) (timers st) ->
  Forall (fun t => status (doc t) = sent) (timers (step st now e)).
Proof.
  intros Hw.
  destruct e as [me body | me userId page limit | me senderId | me messageId
                | me messageId body | me messageId receiverId | me receiverId
                | me receiverId body mt rt | me senderId | k]; simpl.
  - unfold MessageController.sendMessage.
    destruct (User_findById _ _); [|exact Hw].
    match goal with |- context [create st now ?d] =>
      pose proof (timers_sent_create st now d Hw) as H;
      destruct (create st now d) as [st' [x|]] end; simpl in *; [exact H | exact Hw].
  - unfold MessageController.getConversation.
    destruct (User_findById _ _); [|exact Hw].
    destruct (MessageModel.getConversation _ _ _ _ _); exact Hw.
  - unfold MessageController.markAsRead.
    destruct (User_findById _ _); exact Hw.
  - unfold MessageController.deleteMessage.
    destruct (findById _ _); [|exact Hw].
    destruct (negb _); [exact Hw|].
    destruct (save _ _ _ _); exact Hw.
  - unfold MessageController.editMessage.
    destruct (findById _ _); [|exact Hw].
    destruct (negb _); [exact Hw|].
    destruct (_ <? _); [exact Hw|].
    destruct body as [c|]; [|exact Hw].
    destruct (save _ _ _ _); exact Hw.
  - unfold MessageController.forwardMessage.
    destruct (findById _ _); [|exact Hw].
    destruct (negb _); [exact Hw|].
    destruct (User_findById _ _); [|exact Hw].
    match goal with |- context [create st now ?d] =>
      pose proof (timers_sent_create st now d Hw) as H;
      destruct (create st now d) as [st' [x|]] end; simpl in *; [exact H | exact Hw].
  - exact Hw.
  - unfold socketSendMessage.
    destruct (trim body); [exact Hw|].
    destruct (_ <? _); [exact Hw|].
    destruct (User_findById _ _); [|exact Hw].
    apply timers_sent_create, Hw.
  - exact Hw.
  - unfold fireTimer.
    destruct (nth_error (timers st) k) as [t|]; [|exact Hw].
    destruct (dueAt t <=? now); [|exact Hw]. simpl.
    apply Forall_app. split.
    + rewrite <- (firstn_skipn k (timers st)) in Hw. apply Forall_app in Hw. tauto.
    + rewrite <- (firstn_skipn (S k) (timers st)) in Hw. apply Forall_app in Hw. tauto.
Qed.

Lemma run_timers_sent (trace : list (Z * Event)) : forall st,
  Forall (fun t => status (doc t) = sent) (timers st) ->
  Forall (fun t => status (doc t) = sent) (timers (run st trace)).
Proof.
  induction trace as [|[now e] trace IH]; intros st Hw; simpl; [exact Hw|].
  apply IH, step_timers_sent, Hw.
Qed.

End Timers.

(** X18.  In a state reached from one whose pending timers all hold a
    document with status sent (such as a state without timers), the status
    test of the timer callback never stops it.  A timer that is not yet due
    does nothing; a due timer is consumed and writes status delivered and
    deliveredAt = now to the stored message of its document, whatever the
    stored status is at that time, and touches no other field but updatedAt
    and no other message. *)
Theorem X18_a_due_timer_always_writes_delivered :
  forall (trace : list (Z * Server.Event)) (st0 : State) (now : Z) (k : nat) (t : Timer),
    Forall (fun t => status (doc t) = sent) (timers st0) ->
    let st := Server.run st0 trace in
    nth_error (timers st) k = Some t ->
    (now < dueAt t -> fireTimer st now k = st)
    /\ (dueAt t <= now ->
        S (List.length (timers (fireTimer st now k))) = List.length (timers st)
        /\ (forall i, i <> _id (doc t) ->
              findById (messages (fireTimer st now k)) i = findById (messages st) i)
        /\ forall m,
             findById (messages st) (_id (doc t)) = Some m ->
             exists m',
               findById (messages (fireTimer st now k)) (_id (doc t)) = Some m'
               /\ status m' = delivered
               /\ deliveredAt m' = Some now
               /\ set_updatedAt 0 (set_deliveredAt None (set_status sent m'))
                  = set_updatedAt 0 (set_deliveredAt None (set_status sent m))).
Proof.
  intros trace st0 now k t Hinv st Hk.
  pose proof (run_timers_sent trace st0 Hinv) as Hsent. fold st in Hsent.
  assert (Ht : status (doc t) = sent).
  { rewrite Forall_forall in Hsent. apply Hsent. eapply nth_error_In. exact Hk. }
  unfold fireTimer. rewrite Hk. split.
  - intros Hdue.
    replace (dueAt t <=? now) with false by (symmetry; apply Z.leb_gt; exact Hdue).
    reflexivity.
  - intros Hdue.
    replace (dueAt t <=? now) with true by (symmetry; apply Z.leb_le; exact Hdue).
    cbv iota. cbn [timers messages]. unfold timerCallback. rewrite Ht.
    simpl Status_eqb. cbv iota.
    assert (Hid : forall x, _id (set_updatedAt now (set_deliveredAt (Some now)
                                                     (set_status delivered x))) = _id x)
      by reflexivity.
    split; [|split].
    + rewrite length_app, length_firstn, length_skipn.
      assert (k < List.length (timers st))%nat
        by (apply nth_error_Some; rewrite Hk; discriminate).
      lia.
    + intros i Hi. rewrite findById_updateOne by exact Hid.
      apply Nat.eqb_neq in Hi. rewrite Hi. reflexivity.
    + intros m Hm. rewrite findById_updateOne by exact Hid.
      rewrite Nat.eqb_refl, Hm. simpl. eexists. split; [reflexivity|].
      repeat split; reflexivity.
Qed.

Lemma X18_due_timer_witness :
  (1000 < dueAt {| dueAt := 1000; doc := Scenario.hi |} ->
   fireTimer (Server.run Scenario.empty Scenario.sentThenRead) 1000 0
   = Server.run Scenario.empty Scenario.sentThenRead)
  /\ (dueAt {| dueAt := 1000; doc := Scenario.hi |} <= 1000 ->
      S (List.length
           (timers (fireTimer (Server.run Scenario.empty Scenario.sentThenRead) 1000 0)))
      = List.length (timers (Server.run Scenario.empty Scenario.sentThenRead))
      /\ (forall i, i <> _id (doc {| dueAt := 1000; doc := Scenario.hi |}) ->
            findById (messages (fireTimer (Server.run Scenario.empty Scenario.sentThenRead)
                                  1000 0)) i
            = findById (messages (Server.run Scenario.empty Scenario.sentThenRead)) i)
      /\ forall m,
           findById (messages (Server.run Scenario.empty Scenario.sentThenRead))
             (_id (doc {| dueAt := 1000; doc := Scenario.hi |})) = Some m ->
           exists m',
             findById (messages (fireTimer (Server.run Scenario.empty Scenario.sentThenRead)
                                   1000 0))
               (_id (doc {| dueAt := 1000; doc := Scenario.hi |})) = Some m'
             /\ status m' = delivered
             /\ deliveredAt m' = Some 1000
             /\ set_updatedAt 0 (set_deliveredAt None (set_status sent m'))
                = set_updatedAt 0 (set_deliveredAt None (set_status sent m))).
Proof.
  apply (X18_a_due_timer_always_writes_delivered
           Scenario.sentThenRead Scenario.empty 1000 0%nat
           {| dueAt := 1000; doc := Scenario.hi |}).
  - constructor.
  - vm_compute. reflexivity.
Defined.

(** *** Receipts and unread counts *)

Lemma filter_map_length {A B : Type} (q : B -> bool) (f : A -> B) (l : list A) :
  List.length (filter q (map f l)) = List.length (filter (fun x => q (f x)) l).
Proof.
  induction l as [|x l IH]; simpl; [reflexivity|].
  destruct (q (f x)); simpl; rewrite IH; reflexivity.
Qed.

(** X19.  After [markAsRead(sender, receiver)] no message from that sender
    counts as unread for the receiver: the receiver's unread count is the
    number of unread, non-deleted messages the other senders sent, and the
    unread count of every other user is as before. *)
Theorem X19_markAsRead_clears_the_unread_of_the_sender :
  forall (st : State) (now : Z) (s r : UserId),
    MessageModel.getUnreadCount (messages (MessageModel.markAsRead st now s r)) r
    = List.length (filter (fun m => unreadQuery r m && negb (Nat.eqb (sender m) s))
                          (messages st))
    /\ forall u, u <> r ->
         MessageModel.getUnreadCount (messages (MessageModel.markAsRead st now s r)) u
         = MessageModel.getUnreadCount (messages st) u.
Proof.
  intros st now s r.
  unfold MessageModel.getUnreadCount, countDocuments, MessageModel.markAsRead, updateMany.
  simpl. split.
  - rewrite filter_map_length. f_equal. apply filter_ext. intros m.
    unfold markAsReadQuery, unreadQuery.
    destruct (Nat.eqb (sender m) s) eqn:Es; simpl.
    + destruct (Nat.eqb (receiver m) r) eqn:Er; simpl.
      * destruct (status m) eqn:Est; cbn; rewrite ?Er, ?Est; cbn;
          rewrite ?andb_false_r; reflexivity.
      * rewrite Er. reflexivity.
    + rewrite andb_true_r. reflexivity.
  - intros u Hu. rewrite filter_map_length. f_equal. apply filter_ext. intros m.
    unfold markAsReadQuery, unreadQuery.
    destruct (Nat.eqb (receiver m) r) eqn:Er.
    + apply Nat.eqb_eq in Er.
      assert (Eu : Nat.eqb (receiver m) u = false) by (apply Nat.eqb_neq; congruence).
      destruct (Nat.eqb (sender m) s), (status m); simpl; rewrite ?Eu; reflexivity.
    + rewrite andb_false_r. reflexivity.
Qed.

(** X20.  [markAsDelivered] moves only messages that are still sent: run a
    second time, or after [markAsRead] for the same pair, it changes
    nothing; a message that is already delivered or read is left as it is;
    and since a delivered message still counts as unread, no unread count
    changes. *)
Theorem X20_markAsDelivered_touches_sent_messages_only :
  forall (st : State) (t1 t2 : Z) (s r : UserId),
    markAsDelivered (markAsDelivered st t1 s r) t2 s r = markAsDelivered st t1 s r
    /\ markAsDelivered (MessageModel.markAsRead st t1 s r) t2 s r
       = MessageModel.markAsRead st t1 s r
    /\ (forall m, In m (messages st) -> status m <> sent ->
                  In m (messages (markAsDelivered st t1 s r)))
    /\ (forall u,
           MessageModel.getUnreadCount (messages (markAsDelivered st t1 s r)) u
           = MessageModel.getUnreadCount (messages st) u).
Proof.
  intros st t1 t2 s r.
  unfold markAsDelivered, MessageModel.markAsRead, updateMany, with_messages. simpl.
  split; [|split; [|split]].
  - f_equal. rewrite map_map. apply map_ext. intros m.
    unfold markAsDeliveredQuery.
    destruct (Nat.eqb (sender m) s && Nat.eqb (receiver m) r && Status_eqb (status m) sent)
      eqn:E; [|rewrite E; reflexivity].
    simpl. rewrite andb_false_r. reflexivity.
  - f_equal. rewrite map_map. apply map_ext. intros m.
    unfold markAsDeliveredQuery, markAsReadQuery.
    destruct (Nat.eqb (sender m) s && Nat.eqb (receiver m) r
              && (Status_eqb (status m) sent || Status_eqb (status m) delivered)) eqn:E.
    + simpl. rewrite andb_false_r. reflexivity.
    + destruct (Nat.eqb (sender m) s), (Nat.eqb (receiver m) r), (status m);
        simpl in *; try discriminate; reflexivity.
  - intros m Hin Hst. apply in_map_iff. exists m. split; [|exact Hin].
    unfold markAsDeliveredQuery.
    destruct (status m); [congruence | |]; simpl; rewrite andb_false_r; reflexivity.
  - intros u. unfold MessageModel.getUnreadCount, countDocuments.
    rewrite filter_map_length. f_equal. apply filter_ext. intros m.
    unfold markAsDeliveredQuery, unreadQuery.
    destruct (Nat.eqb (sender m) s), (Nat.eqb (receiver m) r), (status m) eqn:Est;
      cbn; rewrite ?Est; reflexivity.
Qed.

(** *** Who may read and who may write *)



(** X22.  Only its sender can change a message through the delete and edit
    requests: whatever message id and content a user gives, every stored
    message sent by somebody else is still stored, unchanged, afterwards. *)
Theorem X22_delete_and_edit_leave_other_senders_messages :
  forall (st : State) (now : Z) (me : UserId) (messageId : MessageId)
         (content : option jsString) (x : Message),
    In x (messages st) ->
    sender x <> me ->
    In x (messages (fst (MessageController.deleteMessage st now me messageId)))
    /\ In x (messages (fst (MessageController.editMessage st now me messageId content))).
Proof.
  intros st now me messageId body x Hin Hs. split.
  - unfold MessageController.deleteMessage.
    destruct (findById (messages st) messageId) as [m|] eqn:Ef; [|exact Hin].
    destruct (Nat.eqb (sender m) me) eqn:Em; simpl; [|exact Hin].
    apply Nat.eqb_eq in Em.
    destruct (save _ _ _ _) as [ms|] eqn:Es; [|exact Hin]. simpl.
    eapply save_others; [exact Ef | exact Es | exact Hin | congruence].
  - unfold MessageController.editMessage.
    destruct (findById (messages st) messageId) as [m|] eqn:Ef; [|exact Hin].
    destruct (Nat.eqb (sender m) me) eqn:Em; simpl; [|exact Hin].
    apply Nat.eqb_eq in Em.
    destruct (_ <? _); [exact Hin|].
    destruct body as [c|]; [|exact Hin].
    destruct (save _ _ _ _) as [ms|] eqn:Es; [|exact Hin]. simpl.
    eapply save_others; [exact Ef | exact Es | exact Hin | congruence].
Qed.

Lemma X22_delete_and_edit_witness :
  In Scenario.helloBack
     (messages (fst (MessageController.deleteMessage Scenario.threeMessages 50 1%nat 2%nat)))
  /\ In Scenario.helloBack
        (messages (fst (MessageController.editMessage Scenario.threeMessages 50 1%nat 2%nat
                          (Some (lit "mine now"))))).
Proof.
  apply (X22_delete_and_edit_leave_other_senders_messages
           Scenario.threeMessages 50 1%nat 2%nat (Some (lit "mine now")) Scenario.helloBack).
  - vm_compute. right. left. reflexivity.
  - discriminate.
Defined.

(** *** Message type and surrounding white space *)

Section Whitespace.

Lemma trimmable_plain (c : Z) :
  isTrimmable c = true ->
  isHighSurrogate c = false /\ isLowSurrogate c = false /\ isEmojiCodePoint c = false.
Proof.
  unfold isTrimmable, isHighSurrogate, isLowSurrogate, isEmojiCodePoint, inRange.
  intros H.
  repeat rewrite ?orb_true_iff, ?andb_true_iff, ?Z.leb_le, ?Z.eqb_eq in H.
  repeat split; apply not_true_iff_false; intros H';
    repeat rewrite ?orb_true_iff, ?andb_true_iff, ?Z.leb_le, ?Z.eqb_eq in H'; lia.
Qed.

Lemma codePoints_cons_plain (c : Z) (s : jsString) :
  isHighSurrogate c = false -> codePoints (c :: s) = c :: codePoints s.
Proof. intros H. destruct s; simpl; [reflexivity | rewrite H; reflexivity]. Qed.

Lemma codePoints_app_plain (w : jsString) :
  match w with [] => True | lo :: _ => isLowSurrogate lo = false end ->
  forall (n : nat) (t : jsString),
    (List.length t <= n)%nat -> codePoints (t ++ w) = codePoints t ++ codePoints w.
Proof.
  intros Hw. induction n as [|n IH]; intros t Hn.
  - destruct t; [reflexivity | simpl in Hn; lia].
  - destruct t as [|hi [|lo rest]].
    + reflexivity.
    + destruct w as [|lo w']; [reflexivity|].
      cbn [app]. cbn [codePoints]. rewrite Hw, andb_false_r. reflexivity.
    + simpl in Hn.
      change ((hi :: lo :: rest) ++ w) with (hi :: lo :: (rest ++ w)).
      change (codePoints (hi :: lo :: (rest ++ w)))
        with (if isHighSurrogate hi && isLowSurrogate lo
              then JS.combine hi lo :: codePoints (rest ++ w)
              else hi :: codePoints ((lo :: rest) ++ w)).
      change (codePoints (hi :: lo :: rest))
        with (if isHighSurrogate hi && isLowSurrogate lo
              then JS.combine hi lo :: codePoints rest
              else hi :: codePoints (lo :: rest)).
      rewrite (IH rest) by lia. rewrite (IH (lo :: rest)) by (simpl; lia).
      destruct (isHighSurrogate hi && isLowSurrogate lo); reflexivity.
Qed.

Lemma codePoints_plain (w : jsString) :
  Forall (fun c => isTrimmable c = true) w -> codePoints w = w.
Proof.
  induction 1 as [|c w Hc Hw IH]; [reflexivity|].
  rewrite codePoints_cons_plain by (apply trimmable_plain; exact Hc).
  rewrite IH. reflexivity.
Qed.

Lemma dropWhile_split {A : Type} (p : A -> bool) (l : list A) :
  exists pre, l = pre ++ dropWhile p l /\ Forall (fun x => p x = true) pre.
Proof.
  induction l as [|x l [pre [Hl Hp]]]; simpl.
  - exists []. split; [reflexivity | constructor].
  - destruct (p x) eqn:E.
    + exists (x :: pre). split; [simpl; f_equal; exact Hl | constructor; assumption].
    + exists []. split; [reflexivity | constructor].
Qed.

Lemma containsEmoji_trimStart (s : jsString) :
  containsEmoji (trimStart s) = containsEmoji s.
Proof.
  unfold trimStart, containsEmoji.
  induction s as [|c s IH]; [reflexivity|]. simpl dropWhile.
  destruct (isTrimmable c) eqn:E; [|reflexivity].
  destruct (trimmable_plain c E) as (Hh & _ & He).
  rewrite (codePoints_cons_plain c s Hh). simpl. rewrite He. exact IH.
Qed.

Lemma containsEmoji_trimEnd (s : jsString) :
  containsEmoji (trimEnd s) = containsEmoji s.
Proof.
  unfold trimEnd.
  destruct (dropWhile_split isTrimmable (rev s)) as [pre [Hs Hp]].
  assert (Hsplit : s = rev (dropWhile isTrimmable (rev s)) ++ rev pre).
  { rewrite <- rev_app_distr, <- Hs, rev_involutive. reflexivity. }
  assert (Hw : Forall (fun c => isTrimmable c = true) (rev pre)).
  { apply Forall_forall. intros x Hx. apply in_rev in Hx.
    rewrite Forall_forall in Hp. apply Hp. exact Hx. }
  rewrite Hsplit at 2. unfold containsEmoji.
  rewrite (codePoints_app_plain (rev pre)) with (n := List.length (rev (dropWhile isTrimmable (rev s)))).
  - rewrite existsb_app, (codePoints_plain _ Hw).
    replace (existsb isEmojiCodePoint (rev pre)) with false; [rewrite orb_false_r; reflexivity|].
    symmetry. apply not_true_iff_false. intros H. apply existsb_exists in H.
    destruct H as [x [Hx He]]. rewrite Forall_forall in Hw.
    destruct (trimmable_plain x (Hw x Hx)) as (_ & _ & Hn). congruence.
  - destruct (rev pre) as [|lo w'] eqn:E; [exact I|].
    inversion Hw; subst. apply trimmable_plain. assumption.
  - lia.
Qed.

End Whitespace.

(** X25.  White space around a content plays no part in its message type:
    the type detected from the content as typed is the type that would be
    detected from the trimmed content that is stored. *)
Theorem X25_detected_type_ignores_surrounding_white_space :
  forall (content : jsString),
    containsEmoji (trim content) = containsEmoji content
    /\ MessageController.detectMessageType (trim content)
       = MessageController.detectMessageType content.
Proof.
  intros c.
  assert (H : containsEmoji (trim c) = containsEmoji c).
  { unfold trim. rewrite containsEmoji_trimEnd. apply containsEmoji_trimStart. }
  split; [exact H|].
  unfold MessageController.detectMessageType. rewrite H, trim_idem. reflexivity.
Qed.

(** *** The socket handler *)

(** X5.  The socket handler of sendMessage stores at most one message and
    never detects emoji: the stored message type is the one sent with the
    event, and text when none is sent, whatever the content.  A message is
    stored only when the content is not blank, has at most 1000 code units
    before trimming, and the receiver exists; it is then stored trimmed, with
    status sent and its delivery timer set. *)
Theorem X5_socket_sendMessage_never_detects_emoji :
  forall (st : State) (now : Z) (me receiverId : UserId) (raw : jsString)
         (messageType0 : option MessageType) (replyTo0 : option MessageId),
    let st' := Server.socketSendMessage st now me receiverId raw messageType0 replyTo0 in
    st' = st
    \/ exists m,
         messages st' = messages st ++ [m]
         /\ users st' = users st
         /\ timers st' = timers st ++ [ {| dueAt := now + 1000; doc := m |} ]
         /\ sender m = me
         /\ receiver m = receiverId
         /\ content m = trim raw
         /\ status m = sent
         /\ messageType m = match messageType0 with Some t => t | None => text end
         /\ trim raw <> []
         /\ jsLength raw <= 1000
         /\ User_findById (users st) receiverId <> None.
Proof.
  intros st now me receiverId c mt rt. unfold Server.socketSendMessage.
  destruct (trim c) as [|x xs] eqn:Et; [left; reflexivity|].
  destruct (1000 <? jsLength c) eqn:El; [left; reflexivity|].
  apply Z.ltb_ge in El.
  destruct (User_findById (users st) receiverId) eqn:Eu; [|left; reflexivity].
  unfold create. cbn [new_content]. rewrite <- Et, trim_idem.
  destruct (validContent (trim c)); [|left; reflexivity].
  right. eexists. cbn [fst messages users timers].
  split; [reflexivity|]. split; [reflexivity|]. split; [reflexivity|].
  cbn. repeat split; try reflexivity; try assumption.
  - rewrite Et. discriminate.
  - discriminate.
Qed.

Section Rooms.
Import SocketHandler.

Lemma eqString_refl (a : jsString) : eqString a a = true.
Proof. apply eqString_eq. reflexivity. Qed.

Lemma inRoom_In (room : jsString) (rs : list jsString) :
  inRoom room rs = true <-> In room rs.
Proof.
  unfold inRoom. rewrite existsb_exists. split.
  - intros [x [Hx He]]. apply eqString_eq in He. subst. exact Hx.
  - intros H. exists room. split; [exact H | apply eqString_refl].
Qed.

Lemma join_In (room c : jsString) (rs : list jsString) :
  In room (join c rs) <-> room = c \/ In room rs.
Proof.
  unfold join. destruct (inRoom c rs) eqn:E.
  - apply inRoom_In in E. split; [auto | intros [->|H]; assumption].
  - rewrite in_app_iff. simpl. intuition.
Qed.

Lemma get_set (k k' : jsString) (v : ActiveUser) (m : ActiveUsers) :
  get k' (set k v m) = if eqString k' k then Some v else get k' m.
Proof.
  induction m as [|[k0 v0] m IH]; simpl.
  - destruct (eqString k' k); reflexivity.
  - destruct (eqString k k0) eqn:E; simpl.
    + apply eqString_eq in E. subst k0. destruct (eqString k' k); reflexivity.
    + rewrite IH. destruct (eqString k' k0) eqn:E0; [|reflexivity].
      apply eqString_eq in E0. subst k0.
      destruct (eqString k' k) eqn:E1; [|reflexivity].
      apply eqString_eq in E1. subst k'. rewrite eqString_refl in E. discriminate.
Qed.

Lemma get_delete (k k' : jsString) (m : ActiveUsers) :
  get k' (delete k m) = if eqString k' k then None else get k' m.
Proof.
  induction m as [|[k0 v0] m IH]; simpl.
  - destruct (eqString k' k); reflexivity.
  - destruct (eqString k k0) eqn:E; simpl.
    + apply eqString_eq in E. subst k0. rewrite IH.
      destruct (eqString k' k); reflexivity.
    + rewrite IH. destruct (eqString k' k0) eqn:E0; [|reflexivity].
      apply eqString_eq in E0. subst k0.
      destruct (eqString k' k) eqn:E1; [|reflexivity].
      apply eqString_eq in E1. subst k'. rewrite eqString_refl in E. discriminate.
Qed.

End Rooms.

(** X23.  Joining a conversation over the socket.  With a malformed receiver
    id nothing changes and an error is emitted.  Otherwise the socket ends up
    in the room of the conversation and, besides it, only in those of its
    own and its user's rooms it was in: never in a second conversation room.
    The room is the conversation identifier of the two users, so the peer
    joining from the other side is told the same room. *)
Theorem X23_joinConversation_keeps_a_single_conversation_room :
  forall (validId : jsString -> bool) (s : SocketHandler.Socket) (receiverId : jsString),
    (validId receiverId = false ->
     SocketHandler.joinConversation validId s receiverId
     = (s, SocketHandler.ErrorEvent "Invalid receiver ID"))
    /\ (validId receiverId = true ->
        let conv := generateConversationId (SocketHandler.userId s) receiverId in
        let s' := fst (SocketHandler.joinConversation validId s receiverId) in
        snd (SocketHandler.joinConversation validId s receiverId)
        = SocketHandler.ConversationJoined conv receiverId
        /\ SocketHandler.socket_id s' = SocketHandler.socket_id s
        /\ SocketHandler.userId s' = SocketHandler.userId s
        /\ (forall room,
              In room (SocketHandler.rooms s') <->
              room = conv
              \/ (In room (SocketHandler.rooms s)
                  /\ (room = SocketHandler.socket_id s \/ room = SocketHandler.userId s)))
        /\ (forall peer,
              SocketHandler.userId peer = receiverId ->
              validId (SocketHandler.userId s) = true ->
              snd (SocketHandler.joinConversation validId peer (SocketHandler.userId s))
              = SocketHandler.ConversationJoined conv (SocketHandler.userId s))).
Proof.
  intros validId s receiverId. unfold SocketHandler.joinConversation. split.
  - intros ->. reflexivity.
  - intros Hv. rewrite Hv. cbn [negb fst snd]. cbv zeta.
    split; [reflexivity|]. split; [reflexivity|]. split; [reflexivity|]. split.
    + intros room. cbn [SocketHandler.rooms]. rewrite join_In, filter_In.
      rewrite orb_true_iff, !eqString_eq. unfold generateConversationId. tauto.
    + intros peer Hp Hvs. rewrite Hvs. cbn [negb snd]. rewrite Hp.
      f_equal. unfold generateConversationId.
      rewrite (sortPair_sym receiverId (SocketHandler.userId s)). reflexivity.
Qed.

Lemma X23_joinConversation_witness :
  snd (SocketHandler.joinConversation (fun _ => true)
         (SocketHandler.connect (lit "sock1") (lit "5f1a")) (lit "0c2b"))
  = SocketHandler.ConversationJoined
      (generateConversationId (lit "5f1a") (lit "0c2b")) (lit "0c2b")
  /\ SocketHandler.joinConversation (fun _ => false)
       (SocketHandler.connect (lit "sock1") (lit "5f1a")) (lit "0c2b")
     = (SocketHandler.connect (lit "sock1") (lit "5f1a"),
        SocketHandler.ErrorEvent "Invalid receiver ID").
Proof.
  split.
  - destruct (X23_joinConversation_keeps_a_single_conversation_room
                (fun _ => true) (SocketHandler.connect (lit "sock1") (lit "5f1a"))
                (lit "0c2b")) as [_ H].
    destruct (H eq_refl) as (Hjoined & _). exact Hjoined.
  - destruct (X23_joinConversation_keeps_a_single_conversation_room
                (fun _ => false) (SocketHandler.connect (lit "sock1") (lit "5f1a"))
                (lit "0c2b")) as [H _].
    exact (H eq_refl).
Defined.

(** X24.  The registry of active users keeps one entry per user, that of the
    connection that registered last.  A connection registers its socket under
    its user and leaves the entries of other users alone; a disconnection
    removes the entry of its user and leaves the others alone.  The entry is
    removed by user id: when a user has connected twice, the disconnection
    of the first socket unregisters the user although the second socket is
    still connected. *)
Theorem X24_registry_keeps_the_last_connection_of_a_user :
  forall (m : SocketHandler.ActiveUsers) (s1 s2 : SocketHandler.Socket) (t1 t2 : Z),
    SocketHandler.get (SocketHandler.userId s1) (SocketHandler.onConnection t1 s1 m)
    = Some {| SocketHandler.socketId := SocketHandler.socket_id s1;
              SocketHandler.lastSeen := t1 |}
    /\ SocketHandler.get (SocketHandler.userId s1) (SocketHandler.onDisconnect s1 m) = None
    /\ (forall other,
           other <> SocketHandler.userId s1 ->
           SocketHandler.get other (SocketHandler.onConnection t1 s1 m)
           = SocketHandler.get other m
           /\ SocketHandler.get other (SocketHandler.onDisconnect s1 m)
              = SocketHandler.get other m)
    /\ (SocketHandler.userId s2 = SocketHandler.userId s1 ->
        SocketHandler.get (SocketHandler.userId s1)
          (SocketHandler.onConnection t2 s2 (SocketHandler.onConnection t1 s1 m))
        = Some {| SocketHandler.socketId := SocketHandler.socket_id s2;
                  SocketHandler.lastSeen := t2 |}
        /\ SocketHandler.get (SocketHandler.userId s1)
             (SocketHandler.onDisconnect s1
                (SocketHandler.onConnection t2 s2 (SocketHandler.onConnection t1 s1 m)))
           = None).
Proof.
  intros m s1 s2 t1 t2.
  unfold SocketHandler.onConnection, SocketHandler.onDisconnect.
  split; [|split; [|split]].
  - rewrite get_set, eqString_refl. reflexivity.
  - rewrite get_delete, eqString_refl. reflexivity.
  - intros other Hne.
    assert (E : eqString other (SocketHandler.userId s1) = false).
    { apply not_true_iff_false. intros H. apply eqString_eq in H. exact (Hne H). }
    rewrite get_set, get_delete, E. auto.
  - intros Hsame. rewrite Hsame. split.
    + rewrite get_set, eqString_refl. reflexivity.
    + rewrite get_delete, eqString_refl. reflexivity.
Qed.

Lemma X24_registry_witness :
  SocketHandler.get (lit "5f1a")
    (SocketHandler.onDisconnect (SocketHandler.connect (lit "sock1") (lit "5f1a"))
       (SocketHandler.onConnection 20 (SocketHandler.connect (lit "sock2") (lit "5f1a"))
          (SocketHandler.onConnection 10 (SocketHandler.connect (lit "sock1") (lit "5f1a"))
             [])))
  = None.
Proof.
  destruct (X24_registry_keeps_the_last_connection_of_a_user
              [] (SocketHandler.connect (lit "sock1") (lit "5f1a"))
              (SocketHandler.connect (lit "sock2") (lit "5f1a")) 10 20)
    as (_ & _ & _ & H).
  destruct (H eq_refl) as [_ Hgone]. exact Hgone.
Defined.

Lemma X19_markAsRead_witness :
  MessageModel.getUnreadCount
    (messages (MessageModel.markAsRead Scenario.threeMessages 50 1%nat 2%nat)) 1%nat
  = MessageModel.getUnreadCount (messages Scenario.threeMessages) 1%nat.
Proof.
  destruct (X19_markAsRead_clears_the_unread_of_the_sender
              Scenario.threeMessages 50 1%nat 2%nat) as [_ H].
  apply H. discriminate.
Defined.

Lemma X20_markAsDelivered_witness :
  In (set_updatedAt 50 (set_readAt (Some 50) (set_status read Scenario.hello)))
     (messages (markAsDelivered
                  (MessageModel.markAsRead Scenario.threeMessages 50 1%nat 2%nat)
                  60 1%nat 2%nat)).
Proof.
  destruct (X20_markAsDelivered_touches_sent_messages_only
              (MessageModel.markAsRead Scenario.threeMessages 50 1%nat 2%nat)
              60 70 1%nat 2%nat) as (_ & _ & H & _).
  apply H.
  - vm_compute. left. reflexivity.
  - discriminate.
Defined.
